(** * GeoData-Standardizer: parsers, QC engine and standardizer

    A shallow embedding of the pipeline of the repository
    (src/core/base_parser.py, src/core/dispatcher.py, src/parsers/*.py,
    src/processors/*.py, src/config.py) and the properties its
    specification states about it.

    Modelling conventions.
    - A pandas [DataFrame] is a row index plus a list of named, typed
      columns.  A cell is null ([NaN]), a number or a string.  Labels
      may repeat: [df[c]] is a Series when one column carries the label
      and a DataFrame when several do ([getitem]).
    - Numbers are rationals ([Q]).  The source computes in binary64; the
      thresholds of the QC engine ([> 5], [> 10]) and the range bounds are
      compared exactly here.
    - Python exceptions are values of [exn]; a call that may raise returns
      [result A = exn + A].
    - Library functions whose result is decided outside this repository
      (the CSV reader, quantiles, the standard deviation, numeric parsing
      and printing) are the fields of the class [PyLib]: every theorem
      holds for every implementation of them.
    - f-string messages are kept as structured values (constructor =
      format string, arguments = interpolated values). *)

From Stdlib Require Import QArith ZArith List String Ascii Bool Lia Sorted Permutation.
From stdpp Require Import base gmap strings list fin_maps.
Import ListNotations.

Set Warnings "-register-all".

Local Open Scope string_scope.
Local Open Scope list_scope.

(* ===================================================================== *)
(** ** Python exceptions and results *)
(* ===================================================================== *)

Inductive variant := Electrical | Seismic | Radar.

(** ValidationError messages raised by the parsers. *)
Inductive validation_msg :=
| NoDataToValidate                       (* "No data to validate. Call parse() first." *)
| MissingRequiredColumns (missing : list string)
| OutOfRange (column : string) (out_of_range : nat) (min_val max_val : Q)
| DepthNegative
| ResistivityNotPositive
| TimeNegative
| SampleNegative.

(** The exception classes the pipeline can raise.  [ParserError] is the
    base of the parser-error family; [ValidationError] and
    [FileFormatError] subclass it.  [FileNotFoundError] is the Python
    builtin (a subclass of OSError); [Builtin cls] is any other exception
    raised by Python or a library, tagged with its class name. *)
Inductive exn :=
| FileNotFoundError (path : string)
| Builtin (cls : string)
| ParserError (m : parser_msg)
| ValidationError (m : validation_msg)
| FileFormatError (m : string)
with parser_msg :=
| PathIsNotAFile (path : string)
| FileIsEmpty (path : string)
| MustBeLoadedFirst
| FailedToLoad (v : variant) (cause : exn)
| FailedToParse (v : variant) (cause : exn)
| NoDataToSave
| FailedToSave (cause : exn)
| UnknownDataType (tag : string).

(** isinstance(e, ParserError) *)
Definition is_ParserError (e : exn) : bool :=
  match e with
  | ParserError _ | ValidationError _ | FileFormatError _ => true
  | FileNotFoundError _ | Builtin _ => false
  end.

(** isinstance(e, ValidationError) *)
Definition is_ValidationError (e : exn) : bool :=
  match e with ValidationError _ => true | _ => false end.

Definition result (A : Type) : Type := exn + A.
Definition ok {A} (a : A) : result A := inr a.
Definition raise {A} (e : exn) : result A := inl e.
Definition rbind {A B} (r : result A) (k : A -> result B) : result B :=
  match r with inl e => inl e | inr a => k a end.

Notation "'try!' x <- r ; k" := (rbind r (fun x => k))
  (at level 10, x name, r at level 100, k at level 200).

(* ===================================================================== *)
(** ** The pandas data model *)
(* ===================================================================== *)

Inductive cell := NaN | Num (q : Q) | Str (s : string).

Inductive dtype := number | object.

Record Series := mkSeries {
  s_name : string;
  s_dtype : dtype;
  s_values : list cell
}.

Record DataFrame := mkFrame {
  df_index : list Z;          (* row labels *)
  df_series : list Series     (* the columns, in order *)
}.

Definition columns (df : DataFrame) : list string := map s_name (df_series df).
Definition len (df : DataFrame) : nat := length (df_index df).

(** [c in df.columns] *)
Definition has_column (df : DataFrame) (c : string) : bool :=
  existsb (String.eqb c) (columns df).

(** The columns that carry the label [c], in the order of the table. *)
Definition columns_labelled (df : DataFrame) (c : string) : list Series :=
  List.filter (fun s => String.eqb c (s_name s)) (df_series df).

(** The first column labelled [c]: this is [df[c]] when the label occurs
    once.  Where a label may occur several times, [df[c]] is [getitem]
    below. *)
Definition get_column (df : DataFrame) (c : string) : option Series :=
  find (fun s => String.eqb c (s_name s)) (df_series df).

(** [df[c]]: the Series when one column carries the label, the DataFrame
    of the columns that carry it when several do, KeyError when none
    does. *)
Inductive item :=
| ASeries (s : Series)
| AFrame (cols : list Series).

Definition getitem (d : DataFrame) (column : string) : result item :=
  match columns_labelled d column with
  | [] => raise (Builtin "KeyError")
  | [s] => ok (ASeries s)
  | cols => ok (AFrame cols)
  end.

Definition Qltb (a b : Q) : bool := negb (Qle_bool b a).

Definition isnull (c : cell) : bool :=
  match c with NaN => true | _ => false end.

(** Equality of cells as row hashing sees it: nulls are equal to each
    other, numbers compare by value. *)
Definition cell_eqb (a b : cell) : bool :=
  match a, b with
  | NaN, NaN => true
  | Num x, Num y => Qeq_bool x y
  | Str s, Str t => String.eqb s t
  | _, _ => false
  end.

Fixpoint row_eqb (r1 r2 : list cell) : bool :=
  match r1, r2 with
  | [], [] => true
  | a :: r1', b :: r2' => cell_eqb a b && row_eqb r1' r2'
  | _, _ => false
  end.

Definition row_at (df : DataFrame) (i : nat) : list cell :=
  map (fun s => nth i (s_values s) NaN) (df_series df).

Definition rows (df : DataFrame) : list (list cell) :=
  map (row_at df) (seq 0 (len df)).

Definition count_true (mask : list bool) : nat :=
  length (List.filter (fun b => b) mask).

(** [df.duplicated()] with keep='first': a row is flagged when an equal
    row occurs before it. *)
Fixpoint duplicated_from (seen rs : list (list cell)) : list bool :=
  match rs with
  | [] => []
  | r :: rs' => existsb (row_eqb r) seen :: duplicated_from (r :: seen) rs'
  end.

(** df.empty: no row or no column *)
Definition df_empty (d : DataFrame) : bool :=
  (len d =? 0)%nat || (length (df_series d) =? 0)%nat.

(** [df.duplicated()]: the empty mask on an empty table, whatever its
    number of rows. *)
Definition duplicated (df : DataFrame) : list bool :=
  if df_empty df then [] else duplicated_from [] (rows df).

(** [series < x] and [series > x]: null compares false; comparing a
    string with a number raises TypeError. *)
Fixpoint series_cmp (cmp : Q -> Q -> bool) (vs : list cell) (x : Q) : result (list bool) :=
  match vs with
  | [] => ok []
  | NaN :: vs' => try! m <- series_cmp cmp vs' x; ok (false :: m)
  | Num q :: vs' => try! m <- series_cmp cmp vs' x; ok (cmp q x :: m)
  | Str _ :: _ => raise (Builtin "TypeError")
  end.

Definition series_lt := series_cmp Qltb.
Definition series_gt := series_cmp (fun q x => Qltb x q).
Definition series_le := series_cmp Qle_bool.

Definition mask_or (a b : list bool) : list bool :=
  map (fun p => orb (fst p) (snd p)) (combine a b).

Definition mask_any (m : list bool) : bool := existsb (fun b => b) m.

(** [frame < x] and the like on a DataFrame: column by column, raising
    what the first column that raises does. *)
Fixpoint frame_cmp (cmp : Q -> Q -> bool) (cols : list Series) (x : Q)
    : result (list (list bool)) :=
  match cols with
  | [] => ok []
  | s :: cols' =>
      try! m <- series_cmp cmp (s_values s) x;
      try! ms <- frame_cmp cmp cols' x;
      ok (m :: ms)
  end.

(** The numeric values of a column, nulls skipped. *)
Fixpoint numbers_of (vs : list cell) : list Q :=
  match vs with
  | [] => []
  | Num q :: vs' => q :: numbers_of vs'
  | _ :: vs' => numbers_of vs'
  end.

(** Library functions decided outside the repository. *)
Class PyLib := {
  (** pd.read_csv(StringIO(text)) *)
  read_csv : string -> result DataFrame;
  (** Series.quantile(q); [None] is NaN *)
  quantile : list cell -> Q -> option Q;
  (** Series.std(); [None] is NaN *)
  std : list cell -> option Q;
  (** round(x, 2) *)
  round2 : Q -> Q;
  (** float(s) as pd.to_numeric applies it to one string *)
  parse_number : string -> option Q;
  (** str(x) of a number *)
  str_of_number : Q -> string;
  (** Series.min() and Series.max() *)
  series_min : list cell -> result cell;
  series_max : list cell -> result cell
}.

(* ===================================================================== *)
(** ** QC engine (src/processors/qc_checker.py) *)
(* ===================================================================== *)

Module QCChecker.

Inductive consistency_warning :=
| ZeroVariance (col : string)      (* "Column 'c' has zero variance ..." *)
| ObjectButNumeric (col : string). (* "Column 'c' is stored as object but appears to be numeric" *)

Inductive message :=
| MissingValuesFound (total : nat) (pct : Q) (affected : list (string * nat))
| NoMissingValues
| DuplicateRowsFound (duplicates : nat) (pct : Q)
| NoDuplicates
| OutliersDetected (info : list (string * (nat * Q)))
| NoOutliers
| ConsistencyIssues (ws : list consistency_warning)
| NoConsistencyIssues.

(** The dict a check returns.  The key 'has_warnings' is absent from some
    of them: [None]. *)
Record check_result := mkCheck {
  has_issues : bool;
  has_warnings : option bool;
  message_of : message
}.

(** The dict of the two warning-only checks. *)
Record warn_result := mkWarn {
  w_has_warnings : bool;
  w_message : message
}.

Record summary := mkSummary {
  total_records : nat;
  total_columns : nat;
  issues_found : nat;
  warnings_found : nat
}.

Record qc_result := mkResult {
  passed : bool;
  issues : list message;
  warnings : list message;
  checks_run : list string;
  summary_of : summary
}.

Definition Qnat (n : nat) : Q := inject_Z (Z.of_nat n).

Definition percent (part total : nat) : Q := ((Qnat part / Qnat total) * 100)%Q.

Definition null_count (s : Series) : nat :=
  length (List.filter isnull (s_values s)).

Definition sum_nat (l : list nat) : nat := fold_right Nat.add 0%nat l.

Definition _check_missing_values (df : DataFrame) : check_result :=
  let missing := map (fun s => (s_name s, null_count s)) (df_series df) in
  let missing_cols := List.filter (fun p => (0 <? snd p)%nat) missing in
  if (0 <? length missing_cols)%nat then
    let total_missing := sum_nat (map snd missing_cols) in
    let total_values := (len df * length (columns df))%nat in
    let missing_pct := percent total_missing total_values in
    let message := MissingValuesFound total_missing missing_pct missing_cols in
    if Qltb 10%Q missing_pct
    then mkCheck true None message
    else mkCheck false (Some true) message
  else mkCheck false None NoMissingValues.

Definition _check_duplicates (df : DataFrame) : check_result :=
  let duplicates := count_true (duplicated df) in
  if (0 <? duplicates)%nat then
    let dup_pct := percent duplicates (len df) in
    let message := DuplicateRowsFound duplicates dup_pct in
    if Qltb 5%Q dup_pct
    then mkCheck true None message
    else mkCheck false (Some true) message
  else mkCheck false None NoDuplicates.

Section WithLib.
Context `{PyLib}.

(** The two loops over columns read df[col] for each label; below, a
    column stands for its label, which is what df[col] is when the
    labels of the table are distinct.  On a repeated label df[col] is a
    DataFrame and the code raises (ValueError at [if outliers > 0],
    AttributeError at [.dtype]): [check] is the result on the tables for
    which the code returns one. *)
Definition numeric_cols (df : DataFrame) : list Series :=
  List.filter (fun s => match s_dtype s with number => true | object => false end)
              (df_series df).

(** The number of values outside [Q1 - 1.5 IQR, Q3 + 1.5 IQR]; a NaN
    quartile makes every comparison false. *)
Definition outlier_count (s : Series) : nat :=
  match quantile (s_values s) (1 # 4)%Q, quantile (s_values s) (3 # 4)%Q with
  | Some Q1, Some Q3 =>
      let IQR := (Q3 - Q1)%Q in
      let lower_bound := (Q1 - (3 # 2) * IQR)%Q in
      let upper_bound := (Q3 + (3 # 2) * IQR)%Q in
      length (List.filter (fun q => Qltb q lower_bound || Qltb upper_bound q)
                          (numbers_of (s_values s)))
  | _, _ => 0%nat
  end.

Definition _check_outliers (df : DataFrame) : warn_result :=
  let outlier_info :=
    omap (fun s =>
            let outliers := outlier_count s in
            if (0 <? outliers)%nat
            then Some (s_name s, (outliers, round2 (percent outliers (len df))))
            else None)
         (numeric_cols df) in
  match outlier_info with
  | [] => mkWarn false NoOutliers
  | _ => mkWarn true (OutliersDetected outlier_info)
  end.

(** pd.to_numeric(series) succeeds when every string parses. *)
Definition to_numeric_succeeds (vs : list cell) : bool :=
  forallb (fun c => match c with
                    | Str s => match parse_number s with Some _ => true | None => false end
                    | _ => true
                    end) vs.

Definition _check_consistency (df : DataFrame) : warn_result :=
  let zero_var :=
    omap (fun s => match std (s_values s) with
                   | Some sd => if Qeq_bool sd 0%Q then Some (ZeroVariance (s_name s)) else None
                   | None => None
                   end)
         (numeric_cols df) in
  let looks_numeric :=
    omap (fun s => match s_dtype s with
                   | object => if to_numeric_succeeds (s_values s)
                               then Some (ObjectButNumeric (s_name s)) else None
                   | number => None
                   end)
         (df_series df) in
  match zero_var ++ looks_numeric with
  | [] => mkWarn false NoConsistencyIssues
  | ws => mkWarn true (ConsistencyIssues ws)
  end.

(** [d.get('has_warnings')] used as a condition *)
Definition truthy (o : option bool) : bool :=
  match o with Some b => b | None => false end.

(** QCChecker.check, statement by statement: the lists are threaded the
    way the source appends to them. *)
Definition check (df : DataFrame) : qc_result :=
  let issues := [] in
  let warnings := [] in
  let checks_run := [] in
  (* missing values *)
  let missing_result := _check_missing_values df in
  let checks_run := checks_run ++ ["missing_values"] in
  let '(issues, warnings) :=
    if has_issues missing_result then (issues ++ [message_of missing_result], warnings)
    else if truthy (has_warnings missing_result)
         then (issues, warnings ++ [message_of missing_result])
         else (issues, warnings) in
  (* duplicates *)
  let duplicate_result := _check_duplicates df in
  let checks_run := checks_run ++ ["duplicates"] in
  let issues :=
    if has_issues duplicate_result then issues ++ [message_of duplicate_result]
    else issues in
  (* outliers *)
  let outlier_result := _check_outliers df in
  let checks_run := checks_run ++ ["outliers"] in
  let warnings :=
    if w_has_warnings outlier_result then warnings ++ [w_message outlier_result]
    else warnings in
  (* consistency *)
  let consistency_result := _check_consistency df in
  let checks_run := checks_run ++ ["consistency"] in
  let warnings :=
    if w_has_warnings consistency_result then warnings ++ [w_message consistency_result]
    else warnings in
  let passed := (length issues =? 0)%nat in
  mkResult passed issues warnings checks_run
           (mkSummary (len df) (length (columns df)) (length issues) (length warnings)).

End WithLib.

Definition is_duplicate_message (m : message) : bool :=
  match m with DuplicateRowsFound _ _ => true | _ => false end.

End QCChecker.

(* ===================================================================== *)
(** ** Metadata values *)
(* ===================================================================== *)

(** The Python values a metadata dict holds.  [MNumber None] and
    [MNumpy None] are NaN; [MOther cls] is any other object (a datetime, a
    numpy bool, ...), which the JSON encoder rejects. *)
Inductive mval :=
| MNone
| MBool (b : bool)
| MNumber (x : option Q)                 (* int or float *)
| MStr (s : string)
| MNumpy (x : option Q)                  (* np.integer or np.floating *)
| MNdarray (xs : list (option Q))        (* np.ndarray *)
| MTuple (items : list mval)
| MList (items : list mval)
| MDict (entries : list (string * mval))
| MOther (cls : string).

Definition mval_of_cell (c : cell) : mval :=
  match c with
  | NaN => MNumpy None
  | Num q => MNumpy (Some q)
  | Str s => MStr s
  end.

Definition MInt (n : nat) : mval := MNumber (Some (inject_Z (Z.of_nat n))).

(* ===================================================================== *)
(** ** Paths and the file system *)
(* ===================================================================== *)

(** Splitting a list of characters at the last occurrence of [c]:
    [None] when [c] does not occur. *)
Fixpoint split_last (c : ascii) (l : list ascii) : option (list ascii * list ascii) :=
  match l with
  | [] => None
  | x :: l' =>
      match split_last c l' with
      | Some (before, after) => Some (x :: before, after)
      | None => if Ascii.eqb x c then Some ([], l') else None
      end
  end.

(** Path(p).name *)
Definition path_name (p : string) : string :=
  match split_last "/"%char (list_ascii_of_string p) with
  | Some (_, name) => string_of_list_ascii name
  | None => p
  end.

(** str(Path(p).parent) *)
Definition path_parent (p : string) : string :=
  match split_last "/"%char (list_ascii_of_string p) with
  | Some ([], _) => "/"
  | Some (dir, _) => string_of_list_ascii dir
  | None => "."
  end.

(** Path(p).stem: the name without its last suffix. *)
Definition path_stem (p : string) : string :=
  let name := path_name p in
  match split_last "."%char (list_ascii_of_string name) with
  | Some ([], _) => name
  | Some (stem, _) => string_of_list_ascii stem
  | None => name
  end.

(** The outcome of the calls that leave the process when a table or a
    metadata file is written. *)
Record io_env := mkEnv {
  (** path.mkdir(parents=True, exist_ok=True) *)
  mkdir : string -> result unit;
  (** df.to_csv / to_json / to_excel / to_parquet, by format name *)
  df_write : string -> DataFrame -> string -> result unit;
  (** open(path, 'w') *)
  open_w : string -> result unit;
  (** writing the encoded text and closing the file *)
  file_write : string -> result unit
}.

(* ===================================================================== *)
(** ** Parsers (src/core/base_parser.py, src/parsers/*.py) *)
(* ===================================================================== *)

Module BaseParser.

Record Parser := mkParser {
  variant_of : variant;                 (* the concrete class *)
  file_path : string;
  encoding : string;
  metadata : gmap string mval;
  data : option DataFrame;
  raw_data : option string;
  is_loaded : bool;
  is_parsed : bool;
  is_validated : bool
}.

(** What the file system says about a path when the constructor runs. *)
Inductive path_status :=
| PathMissing                    (* not exists() *)
| PathNotAFile                   (* exists(), not is_file() *)
| PathFile (st_size : N).

Definition _validate_file_path (path : string) (st : path_status) : result unit :=
  match st with
  | PathMissing => raise (FileNotFoundError path)
  | PathNotAFile => raise (ParserError (PathIsNotAFile path))
  | PathFile st_size =>
      if negb (0 <? st_size)%N then raise (ParserError (FileIsEmpty path))
      else ok tt
  end.

(** BaseParser.__init__, shared by the three variants. [now] is
    datetime.now().isoformat(). *)
Definition new_parser (v : variant) (path : string) (enc : string)
    (now : string) (st : path_status) : result Parser :=
  let self := {|
    variant_of := v;
    file_path := path;
    encoding := enc;
    metadata := <["created_at" := MStr now]>
                (<["file_path" := MStr path]>
                 (<["file_name" := MStr (path_name path)]> ∅));
    data := None;
    raw_data := None;
    is_loaded := false;
    is_parsed := false;
    is_validated := false |} in
  try! _ <- _validate_file_path path st;
  ok self.

(** *** Methods: a state-and-exception monad over the instance *)

Definition M (A : Type) : Type := Parser -> result A * Parser.

Definition ret {A} (a : A) : M A := fun self => (ok a, self).
Definition throw {A} (e : exn) : M A := fun self => (raise e, self).
Definition bind {A B} (m : M A) (k : A -> M B) : M B :=
  fun self => match m self with
              | (inl e, self') => (inl e, self')
              | (inr a, self') => k a self'
              end.
Definition get : M Parser := fun self => (ok self, self).
Definition put (p : Parser) : M unit := fun _ => (ok tt, p).
Definition lift {A} (r : result A) : M A := fun self => (r, self).

Notation "'do!' x <- m ; k" := (bind m (fun x => k))
  (at level 10, x name, m at level 100, k at level 200).
Notation "m ;;; k" := (bind m (fun _ => k))
  (at level 100, k at level 200, right associativity).

Definition set_raw_data (t : string) : M unit := fun self =>
  (ok tt, mkParser (variant_of self) (file_path self) (encoding self) (metadata self)
                   (data self) (Some t) (is_loaded self) (is_parsed self) (is_validated self)).
Definition set_is_loaded (b : bool) : M unit := fun self =>
  (ok tt, mkParser (variant_of self) (file_path self) (encoding self) (metadata self)
                   (data self) (raw_data self) b (is_parsed self) (is_validated self)).
Definition set_data (d : DataFrame) : M unit := fun self =>
  (ok tt, mkParser (variant_of self) (file_path self) (encoding self) (metadata self)
                   (Some d) (raw_data self) (is_loaded self) (is_parsed self) (is_validated self)).
Definition set_is_parsed (b : bool) : M unit := fun self =>
  (ok tt, mkParser (variant_of self) (file_path self) (encoding self) (metadata self)
                   (data self) (raw_data self) (is_loaded self) b (is_validated self)).
Definition set_is_validated (b : bool) : M unit := fun self =>
  (ok tt, mkParser (variant_of self) (file_path self) (encoding self) (metadata self)
                   (data self) (raw_data self) (is_loaded self) (is_parsed self) b).
(** self.metadata.update(d) *)
Definition metadata_update (d : list (string * mval)) : M unit := fun self =>
  (ok tt, mkParser (variant_of self) (file_path self) (encoding self)
                   (fold_left (fun m kv => <[fst kv := snd kv]> m) d (metadata self))
                   (data self) (raw_data self) (is_loaded self) (is_parsed self) (is_validated self)).

(** The dict {'metadata': ..., 'data': ...} a parser returns. *)
Record parsed := mkParsed {
  p_metadata : gmap string mval;
  p_data : option DataFrame
}.

(** *** Shared helpers *)

Definition _check_required_columns (d : DataFrame) (required_columns : list string)
    : result unit :=
  let missing_columns := List.filter (fun col => negb (has_column d col)) required_columns in
  match missing_columns with
  | [] => ok tt
  | _ => raise (ValidationError (MissingRequiredColumns missing_columns))
  end.

(** The range check.  When several columns carry the label,
    data[column] is a DataFrame, out_of_range is a Series of one count
    per column, and [if out_of_range > 0] raises ValueError (the truth
    value of a Series is ambiguous). *)
Fixpoint _check_value_ranges (d : DataFrame) (range_map : list (string * (Q * Q)))
    : result unit :=
  match range_map with
  | [] => ok tt
  | (column, (min_val, max_val)) :: rest =>
      if negb (has_column d column) then _check_value_ranges d rest
      else
        try! selected <- getitem d column;
        match selected with
        | ASeries s =>
            try! below <- series_lt (s_values s) min_val;
            try! above <- series_gt (s_values s) max_val;
            let out_of_range := count_true (mask_or below above) in
            if (0 <? out_of_range)%nat
            then raise (ValidationError (OutOfRange column out_of_range min_val max_val))
            else _check_value_ranges d rest
        | AFrame cols =>
            try! below <- frame_cmp Qltb cols min_val;
            try! above <- frame_cmp (fun q x => Qltb x q) cols max_val;
            raise (Builtin "ValueError")
        end
  end.

(** data.rename(columns=rename_dict), rename_dict being the entries of
    column_map whose key is a column of data. *)
Definition _standardize_column_names (d : DataFrame) (column_map : list (string * string))
    : DataFrame :=
  let rename_dict := List.filter (fun kv => has_column d (fst kv)) column_map in
  let rename (label : string) : string :=
    match find (fun kv => String.eqb label (fst kv)) rename_dict with
    | Some kv => snd kv
    | None => label
    end in
  mkFrame (df_index d)
          (map (fun s => mkSeries (rename (s_name s)) (s_dtype s) (s_values s)) (df_series d)).

(** Series.nunique(): distinct non-null values. *)
Fixpoint distinct_from (seen vs : list cell) : nat :=
  match vs with
  | [] => 0
  | c :: vs' =>
      if isnull c || existsb (cell_eqb c) seen then distinct_from seen vs'
      else S (distinct_from (c :: seen) vs')
  end.
Definition nunique (s : Series) : nat := distinct_from [] (s_values s).

(** *** Per-variant tables *)

Definition column_map (v : variant) : list (string * string) :=
  match v with
  | Electrical =>
      [("station", "station_id"); ("Station", "station_id"); ("STATION", "station_id");
       ("depth", "depth_m"); ("Depth", "depth_m"); ("DEPTH", "depth_m");
       ("depth_m", "depth_m");
       ("resistance", "resistivity_ohm_m"); ("resistivity", "resistivity_ohm_m");
       ("Resistivity", "resistivity_ohm_m"); ("RESISTIVITY", "resistivity_ohm_m");
       ("current", "current_ma"); ("Current", "current_ma");
       ("voltage", "voltage_mv"); ("Voltage", "voltage_mv")]
  | Seismic =>
      [("trace", "trace_number"); ("Trace", "trace_number"); ("TRACE", "trace_number");
       ("time", "time_ms"); ("Time", "time_ms"); ("TIME", "time_ms"); ("time_ms", "time_ms");
       ("amp", "amplitude"); ("Amplitude", "amplitude"); ("AMPLITUDE", "amplitude");
       ("station", "station_id"); ("Station", "station_id");
       ("offset", "offset_m"); ("Offset", "offset_m")]
  | Radar =>
      [("trace", "trace_number"); ("Trace", "trace_number"); ("TRACE", "trace_number");
       ("sample", "sample_number"); ("Sample", "sample_number"); ("SAMPLE", "sample_number");
       ("amp", "amplitude"); ("Amplitude", "amplitude"); ("AMPLITUDE", "amplitude");
       ("distance", "distance_m"); ("Distance", "distance_m");
       ("time", "time_ns"); ("Time", "time_ns"); ("time_ns", "time_ns");
       ("frequency", "antenna_freq_mhz"); ("freq", "antenna_freq_mhz");
       ("antenna_frequency", "antenna_freq_mhz")]
  end.

Definition required (v : variant) : list string :=
  match v with
  | Electrical => ["station_id"; "depth_m"; "resistivity_ohm_m"]
  | Seismic => ["trace_number"; "time_ms"; "amplitude"]
  | Radar => ["trace_number"; "sample_number"; "amplitude"]
  end.

Definition range_map (v : variant) : list (string * (Q * Q)) :=
  match v with
  | Electrical =>
      [("depth_m", (0, 10000)); ("resistivity_ohm_m", (1 # 1000, 1000000));
       ("current_ma", (0, 10000)); ("voltage_mv", (0, 100000))]
  | Seismic =>
      [("time_ms", (0, 100000)); ("amplitude", (-1000000, 1000000));
       ("offset_m", (0, 100000))]
  | Radar =>
      [("sample_number", (0, 100000)); ("amplitude", (-32768, 32767));
       ("distance_m", (0, 10000)); ("time_ns", (0, 1000000));
       ("antenna_freq_mhz", (10, 5000))]
  end%Q.

Section WithLib.
Context `{PyLib}.

(** DataFrame.min() and DataFrame.max(): the reduction of each column;
    the value is a pandas Series, an object of a class json does not
    know. *)
Fixpoint frame_reduce (reduce : list cell -> result cell) (cols : list Series)
    : result mval :=
  match cols with
  | [] => ok (MOther "Series")
  | s :: cols' =>
      try! _ <- reduce (s_values s);
      frame_reduce reduce cols'
  end.

(** [(df[c].min(), df[c].max()) if c in df else None] *)
Definition range_of (df : DataFrame) (c : string) : result mval :=
  if has_column df c then
    try! selected <- getitem df c;
    match selected with
    | ASeries s =>
        try! lo <- series_min (s_values s);
        try! hi <- series_max (s_values s);
        ok (MTuple [mval_of_cell lo; mval_of_cell hi])
    | AFrame cols =>
        try! lo <- frame_reduce series_min cols;
        try! hi <- frame_reduce series_max cols;
        ok (MTuple [lo; hi])
    end
  else ok MNone.

(** [df[c].nunique() if c in df else 0]; DataFrame.nunique() is a
    Series of one count per column. *)
Definition nunique_of (df : DataFrame) (c : string) : result mval :=
  if has_column df c then
    try! selected <- getitem df c;
    match selected with
    | ASeries s => ok (MInt (nunique s))
    | AFrame _ => ok (MOther "Series")
    end
  else ok (MInt 0).

(** The dict literal passed to self.metadata.update in parse(). *)
Definition parse_metadata (v : variant) (df : DataFrame) : result (list (string * mval)) :=
  match v with
  | Electrical =>
      try! stations <- nunique_of df "station_id";
      try! depth_range <- range_of df "depth_m";
      try! res_range <- range_of df "resistivity_ohm_m";
      ok [("data_type", MStr "electrical_resistivity");
          ("record_count", MInt (len df));
          ("stations", stations);
          ("depth_range_m", depth_range);
          ("resistivity_range_ohm_m", res_range)]
  | Seismic =>
      try! traces <- nunique_of df "trace_number";
      try! time_range <- range_of df "time_ms";
      try! amp_range <- range_of df "amplitude";
      ok [("data_type", MStr "seismic");
          ("record_count", MInt (len df));
          ("traces", traces);
          ("time_range_ms", time_range);
          ("amplitude_range", amp_range)]
  | Radar =>
      try! traces <- nunique_of df "trace_number";
      try! samples <- nunique_of df "sample_number";
      try! amp_range <- range_of df "amplitude";
      try! dist_range <- range_of df "distance_m";
      ok [("data_type", MStr "radar");
          ("record_count", MInt (len df));
          ("traces", traces);
          ("samples_per_trace", samples);
          ("amplitude_range", amp_range);
          ("distance_range_m", dist_range)]
  end.

(** *** load / parse / validate / process *)

(** [io] is the outcome of opening and reading the file. *)
Definition load (io : result string) : M unit :=
  do! self <- get;
  match io with
  | inr text =>
      set_raw_data text ;;;
      set_is_loaded true
  | inl e => throw (ParserError (FailedToLoad (variant_of self) e))
  end.

(** The part of parse() inside try: everything up to the dict literal. *)
Definition parse_try (self : Parser) : result (DataFrame * list (string * mval)) :=
  try! df <- read_csv (default "" (raw_data self));
  let df := _standardize_column_names df (column_map (variant_of self)) in
  try! md <- parse_metadata (variant_of self) df;
  ok (df, md).

Definition parse : M parsed :=
  do! self <- get;
  if negb (is_loaded self) then throw (ParserError MustBeLoadedFirst)
  else
    match parse_try self with
    | inl e => throw (ParserError (FailedToParse (variant_of self) e))
    | inr (df, md) =>
        metadata_update md ;;;
        set_data df ;;;
        set_is_parsed true ;;;
        do! self <- get;
        ret (mkParsed (metadata self) (data self))
    end.

(** [if (data[c] < x).any()] and [if (data[c] <= x).any()]: on a
    DataFrame, any() is a Series and taking its truth value raises
    ValueError. *)
Definition any_cmp (cmp : Q -> Q -> bool) (d : DataFrame) (c : string) (x : Q)
    : result bool :=
  try! selected <- getitem d c;
  match selected with
  | ASeries s =>
      try! m <- series_cmp cmp (s_values s) x;
      ok (mask_any m)
  | AFrame cols =>
      try! ms <- frame_cmp cmp cols x;
      raise (Builtin "ValueError")
  end.
Definition any_lt := any_cmp Qltb.
Definition any_le := any_cmp Qle_bool.

(** The variant-specific checks after the range check. *)
Definition sign_checks (v : variant) (d : DataFrame) : result unit :=
  match v with
  | Electrical =>
      try! neg_depth <- any_lt d "depth_m" 0;
      if neg_depth then raise (ValidationError DepthNegative)
      else
        try! nonpos <- any_le d "resistivity_ohm_m" 0;
        if nonpos then raise (ValidationError ResistivityNotPositive)
        else ok tt
  | Seismic =>
      try! neg_time <- any_lt d "time_ms" 0;
      if neg_time then raise (ValidationError TimeNegative) else ok tt
  | Radar =>
      try! neg_sample <- any_lt d "sample_number" 0;
      if neg_sample then raise (ValidationError SampleNegative) else ok tt
  end.

(** The checks of validate() on a table. *)
Definition validate_checks (v : variant) (d : DataFrame) : result unit :=
  try! _ <- _check_required_columns d (required v);
  try! _ <- _check_value_ranges d (range_map v);
  sign_checks v d.

Definition validate (table : option DataFrame) : M bool :=
  do! self <- get;
  let table := match table with None => data self | Some d => Some d end in
  match table with
  | None => throw (ValidationError NoDataToValidate)
  | Some d =>
      lift (validate_checks (variant_of self) d) ;;;
      set_is_validated true ;;;
      ret true
  end.

Definition process (skip_validation : bool) (io : result string) : M parsed :=
  (* Load *)
  do! self <- get;
  (if negb (is_loaded self) then load io else ret tt) ;;;
  (* Parse *)
  do! self <- get;
  do! result <-
    (if negb (is_parsed self) then parse
     else ret (mkParsed (metadata self) (data self)));
  (* Validate *)
  do! self <- get;
  (if negb skip_validation && negb (is_validated self)
   then do! _ <- validate None; ret tt
   else ret tt) ;;;
  ret result.

(** BaseParser.save_data: the table is written inside try, the
    directory is created before it. *)
Definition save_data (env : io_env) (output_path : string) (format : string)
    (self : Parser) : result unit :=
  match data self with
  | None => raise (ParserError NoDataToSave)
  | Some d =>
      try! _ <- mkdir env (path_parent output_path);
      let attempt :=
        if String.eqb format "csv" then df_write env "csv" d output_path
        else if String.eqb format "json" then df_write env "json" d output_path
        else if String.eqb format "excel" then df_write env "excel" d output_path
        else if String.eqb format "parquet" then df_write env "parquet" d output_path
        else raise (Builtin "ValueError") in
      match attempt with
      | inr _ => ok tt
      | inl e => raise (ParserError (FailedToSave e))
      end
  end.

(** *** The calls a client can make on an instance *)

Inductive call :=
| CallLoad (io : result string)
| CallParse
| CallValidate (table : option DataFrame)
| CallProcess (skip_validation : bool) (io : result string).

(** The instance after a call, whether it returned or raised. *)
Definition after (c : call) (self : Parser) : Parser :=
  match c with
  | CallLoad io => snd (load io self)
  | CallParse => snd (parse self)
  | CallValidate t => snd (validate t self)
  | CallProcess skip io => snd (process skip io self)
  end.

(** validate(table) with an explicit table. *)
Definition explicit_table (c : call) : bool :=
  match c with CallValidate (Some _) => true | _ => false end.

(** The instances a client can reach from a constructed parser by load,
    parse, validate and process calls.  With [guarded = true], validate
    is given an explicit table only on a parsed instance. *)
Inductive reachable (guarded : bool) : Parser -> Prop :=
| reach_new v path enc now st self :
    new_parser v path enc now st = inr self -> reachable guarded self
| reach_call c self :
    reachable guarded self ->
    (guarded = true -> explicit_table c = true -> is_parsed self = true) ->
    reachable guarded (after c self).

End WithLib.

Definition lifecycle_order (self : Parser) : Prop :=
  (is_validated self = true -> is_parsed self = true) /\
  (is_parsed self = true -> is_loaded self = true).

(** A flag that is set stays set. *)
Definition flags_le (p q : Parser) : Prop :=
  (is_loaded p = true -> is_loaded q = true) /\
  (is_parsed p = true -> is_parsed q = true) /\
  (is_validated p = true -> is_validated q = true).

End BaseParser.

(* ===================================================================== *)
(** ** Standardizer (src/processors/standardizer.py) *)
(* ===================================================================== *)

Module Standardizer.

(** *** Table operations *)

Fixpoint insert_label (c : string) (l : list string) : list string :=
  match l with
  | [] => [c]
  | x :: l' => if String.leb c x then c :: l else x :: insert_label c l'
  end.

(** sorted(labels) *)
Definition sorted (l : list string) : list string := fold_right insert_label [] l.

Fixpoint labels_eqb (a b : list string) : bool :=
  match a, b with
  | [], [] => true
  | x :: a', y :: b' => String.eqb x y && labels_eqb a' b'
  | _, _ => false
  end.

Fixpoint unique_labels (l : list string) : bool :=
  match l with
  | [] => true
  | x :: l' => negb (existsb (String.eqb x) l') && unique_labels l'
  end.

(** df.reindex(labels, axis=1): the columns in the order of [labels], a
    label that is no column giving a null column.  An axis with
    duplicate labels cannot be reindexed unless the target equals it. *)
Definition reindex (d : DataFrame) (labels : list string) : result DataFrame :=
  if labels_eqb (columns d) labels then ok d
  else if unique_labels (columns d) then
    ok (mkFrame (df_index d)
          (map (fun c => match get_column d c with
                         | Some s => s
                         | None => mkSeries c number (repeat NaN (len d))
                         end) labels))
  else raise (Builtin "ValueError").

Fixpoint select {A} (mask : list bool) (l : list A) : list A :=
  match mask, l with
  | b :: mask', x :: l' => if b then x :: select mask' l' else select mask' l'
  | _, _ => []
  end.

(** df.dropna(how='all'): the rows with at least one non-null cell. *)
Definition dropna_all (d : DataFrame) : DataFrame :=
  let keep := map (existsb (fun c => negb (isnull c))) (rows d) in
  mkFrame (select keep (df_index d))
          (map (fun s => mkSeries (s_name s) (s_dtype s) (select keep (s_values s)))
               (df_series d)).

(** df.reset_index(drop=True) *)
Definition reset_index (d : DataFrame) : DataFrame :=
  mkFrame (map Z.of_nat (seq 0 (len d))) (df_series d).

(** df[c] = s for an existing label [c] *)
Definition setitem (d : DataFrame) (c : string) (s : Series) : DataFrame :=
  mkFrame (df_index d)
          (map (fun t => if String.eqb c (s_name t)
                         then mkSeries c (s_dtype s) (s_values s) else t)
               (df_series d)).

Section WithLib.
Context `{PyLib}.

(** series.astype(str) *)
Definition astype_str (s : Series) : Series :=
  mkSeries (s_name s) object
           (map (fun c => match c with
                          | NaN => Str "nan"
                          | Num q => Str (str_of_number q)
                          | Str t => Str t
                          end) (s_values s)).

(** pd.to_numeric(series, errors='coerce') *)
Definition to_numeric_coerce (s : Series) : Series :=
  mkSeries (s_name s) number
           (map (fun c => match c with
                          | Str t => match parse_number t with
                                     | Some q => Num q
                                     | None => NaN
                                     end
                          | other => other
                          end) (s_values s)).

End WithLib.

(** *** The object store *)

Inductive obj :=
| ODict (d : gmap string mval)
| OFrame (df : DataFrame).

Abbreviation heap := (gmap positive obj).

(** The dict {'metadata': m, 'data': df}: two references. *)
Record dataset := mkDataset {
  metadata_at : positive;
  data_at : positive
}.

Definition St (A : Type) : Type := heap -> result A * heap.

Definition ret {A} (a : A) : St A := fun h => (ok a, h).
Definition throw {A} (e : exn) : St A := fun h => (raise e, h).
Definition bind {A B} (m : St A) (k : A -> St B) : St B :=
  fun h => match m h with
           | (inl e, h') => (inl e, h')
           | (inr a, h') => k a h'
           end.

Notation "'do!' x <- m ; k" := (bind m (fun x => k))
  (at level 10, x name, m at level 100, k at level 200).
Notation "m ;;; k" := (bind m (fun _ => k))
  (at level 100, k at level 200, right associativity).

(** A new object gets an address no object has. *)
Definition alloc (o : obj) : St positive := fun h =>
  let l := fresh (dom h) in (ok l, <[l := o]> h).

Definition read_frame (l : positive) : St DataFrame := fun h =>
  match h !! l with
  | Some (OFrame d) => (ok d, h)
  | _ => (raise (Builtin "AttributeError"), h)
  end.

Definition read_dict (l : positive) : St (gmap string mval) := fun h =>
  match h !! l with
  | Some (ODict d) => (ok d, h)
  | _ => (raise (Builtin "AttributeError"), h)
  end.

(** d[k] = v on the dict at [l] *)
Definition dict_setitem (l : positive) (k : string) (v : mval) : St unit :=
  do! d <- read_dict l;
  fun h => (ok tt, <[l := ODict (<[k := v]> d)]> h).

(** df[c] = f(df[c]) on the frame at [l], for a label that one column
    carries.  standardize gets here after reindex, which lets a repeated
    label through only when the labels were in ascending order
    already. *)
Definition frame_setitem (l : positive) (c : string) (f : Series -> Series) : St unit :=
  do! d <- read_frame l;
  match get_column d c with
  | Some s => fun h => (ok tt, <[l := OFrame (setitem d c (f s))]> h)
  | None => throw (Builtin "KeyError")
  end.

(** A method of the frame at [l] that returns a new frame. *)
Definition frame_method (l : positive) (f : DataFrame -> result DataFrame) : St positive :=
  do! d <- read_frame l;
  match f d with
  | inr d' => alloc (OFrame d')
  | inl e => throw e
  end.

(** *** standardize *)

Definition _apply_common_standards (df : positive) : St positive :=
  (* Sort columns alphabetically *)
  do! df <- frame_method df (fun d => reindex d (sorted (columns d)));
  (* Remove any completely empty rows *)
  do! df <- frame_method df (fun d => ok (dropna_all d));
  (* Reset index *)
  do! df <- frame_method df (fun d => ok (reset_index d));
  ret df.

Section WithLib.
Context `{PyLib}.

(** [if c in df.columns: df[c] = f(df[c])] *)
Definition convert_if_present (df : positive) (c : string) (f : Series -> Series) : St unit :=
  do! d <- read_frame df;
  if has_column d c then frame_setitem df c f else ret tt.

Definition _standardize_electrical (df : positive) : St positive :=
  convert_if_present df "station_id" astype_str ;;;
  convert_if_present df "depth_m" to_numeric_coerce ;;;
  convert_if_present df "resistivity_ohm_m" to_numeric_coerce ;;;
  ret df.

Definition _standardize_seismic (df : positive) : St positive :=
  convert_if_present df "trace_number" to_numeric_coerce ;;;
  convert_if_present df "time_ms" to_numeric_coerce ;;;
  convert_if_present df "amplitude" to_numeric_coerce ;;;
  ret df.

Definition _standardize_radar (df : positive) : St positive :=
  convert_if_present df "trace_number" to_numeric_coerce ;;;
  convert_if_present df "sample_number" to_numeric_coerce ;;;
  convert_if_present df "amplitude" to_numeric_coerce ;;;
  ret df.

(** Standardizer.standardize.  [now] is datetime.now().isoformat(). *)
Definition standardize (parsed_data : dataset) (data_type : string) (now : string)
    : St dataset :=
  do! df <- frame_method (data_at parsed_data) (fun d => ok d);      (* .copy() *)
  do! m <- read_dict (metadata_at parsed_data);
  do! metadata <- alloc (ODict m);                                   (* .copy() *)
  (* Add standardization metadata *)
  dict_setitem metadata "standardized_at" (MStr now) ;;;
  dict_setitem metadata "standardization_version" (MStr "1.0") ;;;
  dict_setitem metadata "data_type" (MStr data_type) ;;;
  (* Apply common standardizations *)
  do! df <- _apply_common_standards df;
  (* Apply data type specific standardizations *)
  do! df <-
    (if String.eqb data_type "electrical" then _standardize_electrical df
     else if String.eqb data_type "seismic" then _standardize_seismic df
     else if String.eqb data_type "radar" then _standardize_radar df
     else ret df);
  ret (mkDataset metadata df).

End WithLib.

(** The table common normalization yields. *)
Definition common_standards (d : DataFrame) : DataFrame :=
  reset_index
    (dropna_all
       (mkFrame (df_index d)
          (map (fun c => match get_column d c with
                         | Some s => s
                         | None => mkSeries c number (repeat NaN (len d))
                         end) (sorted (columns d))))).

(** The metadata standardize returns for input metadata [m]. *)
Definition stamped (m : gmap string mval) (data_type now : string) : gmap string mval :=
  <["data_type" := MStr data_type]>
    (<["standardization_version" := MStr "1.0"]>
       (<["standardized_at" := MStr now]> m)).

(** *** write_output *)

Record Standardizer := mkStandardizer { output_format : string }.

Definition _supported_formats : list string := ["csv"; "json"; "excel"; "parquet"].

(** Standardizer.__init__ *)
Definition new_standardizer (output_format : string) : result Standardizer :=
  if negb (existsb (String.eqb output_format) _supported_formats)
  then raise (Builtin "ValueError")
  else ok (mkStandardizer output_format).

Fixpoint convert_numpy_types (o : mval) : mval :=
  match o with
  | MNumpy x => MNumber x                                  (* int(obj), float(obj) *)
  | MNdarray xs => MList (map MNumber xs)                  (* obj.tolist() *)
  | MDict entries =>
      MDict (map (fun kv => let '(k, v) := kv in (k, convert_numpy_types v)) entries)
  | MList items => MList (map convert_numpy_types items)
  | MTuple items => MList (map convert_numpy_types items)
  | other => other
  end.

(** What json's encoder accepts. *)
Fixpoint json_serializable (o : mval) : bool :=
  match o with
  | MNone | MBool _ | MNumber _ | MStr _ => true
  | MList items | MTuple items => forallb json_serializable items
  | MDict entries => forallb (fun kv => let '(_, v) := kv in json_serializable v) entries
  | MNumpy _ | MNdarray _ | MOther _ => false
  end.

(** json.dump(obj, f, indent=2) on the open file at [path] *)
Definition json_dump (env : io_env) (o : gmap string mval) (path : string) : result unit :=
  if forallb (fun kv => json_serializable (snd kv)) (map_to_list o)
  then file_write env path
  else raise (Builtin "TypeError").

(** The dict {'metadata': m, 'data': df} as write_output reads it; the
    key 'metadata' may be absent. *)
Record standardized := mkStandardized {
  std_metadata : option (gmap string mval);
  std_data : DataFrame
}.

(** [data.get('metadata')] as a condition: present and not empty. *)
Definition has_metadata (data : standardized) : bool :=
  match std_metadata data with
  | Some m => match map_to_list m with [] => false | _ => true end
  | None => false
  end.

(** output_path.parent / f"{output_path.stem}_metadata.json" *)
Definition metadata_path_of (output_path : string) : string :=
  String.append (path_parent output_path)
    (String.append "/" (String.append (path_stem output_path) "_metadata.json")).

Definition write_output (self : Standardizer) (env : io_env) (data : standardized)
    (output_path : string) (include_metadata : bool) : result unit :=
  try! _ <- mkdir env (path_parent output_path);
  let df := std_data data in
  (* Write data file *)
  try! _ <-
    (if String.eqb (output_format self) "csv" then df_write env "csv" df output_path
     else if String.eqb (output_format self) "json" then df_write env "json" df output_path
     else if String.eqb (output_format self) "excel" then df_write env "excel" df output_path
     else if String.eqb (output_format self) "parquet" then df_write env "parquet" df output_path
     else ok tt);
  (* Write metadata file if requested *)
  if include_metadata && has_metadata data then
    let metadata_path := metadata_path_of output_path in
    let metadata_json := convert_numpy_types <$> default ∅ (std_metadata data) in
    try! _ <- open_w env metadata_path;
    json_dump env metadata_json metadata_path
  else ok tt.

(** The exceptions the collaborators of write_output raise in [env] for
    this call. *)
Definition underlying_failures (self : Standardizer) (env : io_env) (data : standardized)
    (output_path : string) : list (result unit) :=
  let metadata_path := metadata_path_of output_path in
  [mkdir env (path_parent output_path);
   df_write env (output_format self) (std_data data) output_path;
   open_w env metadata_path;
   json_dump env (convert_numpy_types <$> default ∅ (std_metadata data)) metadata_path].

End Standardizer.

(* ===================================================================== *)
(** ** Example data *)
(* ===================================================================== *)

Definition range_index (n : nat) : list Z := map Z.of_nat (seq 0 n).

Definition num_series (name : string) (xs : list Q) : Series :=
  mkSeries name number (map Num xs).

Definition str_series (name : string) (xs : list string) : Series :=
  mkSeries name object (map Str xs).

(** The electrical scenario of the specification: three records. *)
Definition electrical_scenario : DataFrame :=
  mkFrame (range_index 3)
    [str_series "station_id" ["S001"; "S001"; "S002"];
     num_series "depth_m" [5 # 10; 1; 5 # 10]%Q;
     num_series "resistivity_ohm_m" [1502 # 10; 1458 # 10; 2201 # 10]%Q].

(** Twenty seismic records, the last one repeating the first: one
    duplicate row in twenty, 5 %. *)
Definition trace_numbers : list Q :=
  map (fun n => inject_Z (Z.of_nat n)) (seq 1 19) ++ [1%Q].

Definition twenty_rows_one_duplicate : DataFrame :=
  mkFrame (range_index 20)
    [num_series "trace_number" trace_numbers;
     num_series "time_ms" trace_numbers;
     num_series "amplitude" trace_numbers].

(** Ten records, one null cell in three columns: 1 of 30 values missing. *)
Definition one_missing_value : DataFrame :=
  mkFrame (range_index 10)
    [num_series "trace_number" (map (fun n => inject_Z (Z.of_nat n)) (seq 1 10));
     num_series "time_ms" (map (fun n => inject_Z (Z.of_nat n)) (seq 1 10));
     mkSeries "amplitude" number
       (NaN :: map (fun n => Num (inject_Z (Z.of_nat n))) (seq 1 9))].

(** A library to run the examples with: the CSV reader yields the
    electrical scenario, statistics are NaN, "0.5" is the one string that
    reads as a number. *)
Definition example_lib : PyLib := {|
  read_csv := fun _ => ok electrical_scenario;
  quantile := fun _ _ => None;
  std := fun _ => None;
  round2 := fun q => q;
  parse_number := fun t => if String.eqb t "0.5" then Some (1 # 2)%Q else None;
  str_of_number := fun _ => "0";
  series_min := fun _ => ok NaN;
  series_max := fun _ => ok NaN
|}.


(** An electrical table with a depth below its minimum and a resistivity
    below its minimum. *)
Definition two_columns_out_of_range : DataFrame :=
  mkFrame (range_index 1)
    [str_series "station_id" ["S001"];
     num_series "depth_m" [-1]%Q;
     num_series "resistivity_ohm_m" [0]%Q].


(** A table as the CSV reader returns it for the header
    station,depth,Depth,resistivity, and the table parse makes of it:
    both depth columns are renamed to depth_m.  Every value sits on a
    bound of its range. *)
Definition two_depth_headers : DataFrame :=
  mkFrame (range_index 2)
    [str_series "station" ["S001"; "S002"];
     num_series "depth" [0; 10000]%Q;
     num_series "Depth" [0; 10000]%Q;
     num_series "resistivity" [1 # 1000; 1000000]%Q].

Definition depth_twice : DataFrame :=
  mkFrame (range_index 2)
    [str_series "station_id" ["S001"; "S002"];
     num_series "depth_m" [0; 10000]%Q;
     num_series "depth_m" [0; 10000]%Q;
     num_series "resistivity_ohm_m" [1 # 1000; 1000000]%Q].

(** The same library reading a file whose header is
    station,depth,Depth,resistivity. *)
Definition two_headers_lib : PyLib := {|
  read_csv := fun _ => ok two_depth_headers;
  quantile := fun _ _ => None;
  std := fun _ => None;
  round2 := fun q => q;
  parse_number := fun t => if String.eqb t "0.5" then Some (1 # 2)%Q else None;
  str_of_number := fun _ => "0";
  series_min := fun _ => ok NaN;
  series_max := fun _ => ok NaN
|}.

(** A store with one parsed dataset: its metadata dict at 1, its table
    at 2. *)
Definition example_heap : gmap positive Standardizer.obj :=
  <[2%positive := Standardizer.OFrame electrical_scenario]>
    (<[1%positive :=
         Standardizer.ODict (<["data_type" := MStr "electrical_resistivity"]> ∅)]> ∅).

Definition example_dataset : Standardizer.dataset := Standardizer.mkDataset 1 2.

(** A file system on which every call succeeds. *)
Definition working_env : io_env :=
  mkEnv (fun _ => ok tt) (fun _ _ _ => ok tt) (fun _ => ok tt) (fun _ => ok tt).

(** Standardized data whose metadata holds a datetime object. *)
Definition with_datetime : Standardizer.standardized :=
  Standardizer.mkStandardized
    (Some (<["acquired" := MOther "datetime"]> ∅)) electrical_scenario.

(** A file system on which the output directory cannot be created. *)
Definition readonly_env : io_env :=
  mkEnv (fun _ => raise (Builtin "PermissionError")) (fun _ _ _ => ok tt)
        (fun _ => ok tt) (fun _ => ok tt).

(** A file system on which the table writer fails. *)
Definition full_disk_env : io_env :=
  mkEnv (fun _ => ok tt) (fun _ _ _ => raise (Builtin "OSError"))
        (fun _ => ok tt) (fun _ => ok tt).

(** A file system on which the JSON table writer is the only one that
    works. *)
Definition json_only_env : io_env :=
  mkEnv (fun _ => ok tt)
        (fun fmt _ _ => if String.eqb fmt "json" then ok tt else raise (Builtin "OSError"))
        (fun _ => ok tt) (fun _ => ok tt).

(** Standardized data with JSON-safe metadata. *)
Definition with_plain_metadata : Standardizer.standardized :=
  Standardizer.mkStandardized
    (Some (<["data_type" := MStr "electrical"]> ∅)) electrical_scenario.

(** A table whose depths were read as text, and a store holding it. *)
Definition depths_as_text : DataFrame :=
  mkFrame (range_index 2)
    [str_series "station_id" ["S001"; "S002"];
     str_series "depth_m" ["0.5"; "deep"]].

Definition text_heap : gmap positive Standardizer.obj :=
  <[2%positive := Standardizer.OFrame depths_as_text]>
    (<[1%positive := Standardizer.ODict ∅]> ∅).

(** The table standardize returns, when it returns. *)
Definition standardized_table `{PyLib} (h : gmap positive Standardizer.obj)
    (parsed_data : Standardizer.dataset) (data_type : string) : option DataFrame :=
  match Standardizer.standardize parsed_data data_type "2024-01-01T00:00:00" h with
  | (inr out, h') =>
      match h' !! Standardizer.data_at out with
      | Some (Standardizer.OFrame d) => Some d
      | _ => None
      end
  | _ => None
  end.

(** An electrical table with one optional column and no required one. *)
Definition only_current : DataFrame :=
  mkFrame (range_index 1) [num_series "current_ma" [-5]%Q].

(** A constructed parser of variant [v] on a file of 96 bytes. *)
Definition example_parser (v : variant) : BaseParser.Parser :=
  BaseParser.mkParser v "data/survey.csv" "utf-8"
    (<["created_at" := MStr "2024-01-01T00:00:00"]>
       (<["file_path" := MStr "data/survey.csv"]>
          (<["file_name" := MStr (path_name "data/survey.csv")]> ∅)))
    None None false false false.

Definition example_text : string :=
  "station_id,depth_m,resistivity_ohm_m".

(** load, parse and validate() on the example parser. *)
Definition example_validated : BaseParser.Parser :=
  BaseParser.after (H := example_lib) (BaseParser.CallValidate None)
    (BaseParser.after (H := example_lib) BaseParser.CallParse
       (BaseParser.after (H := example_lib) (BaseParser.CallLoad (inr example_text))
          (example_parser Electrical))).

(** validate(table) with an explicit table on the constructed parser. *)
Definition example_validated_early : BaseParser.Parser :=
  BaseParser.after (H := example_lib) (BaseParser.CallValidate (Some electrical_scenario))
    (example_parser Electrical).

(* ===================================================================== *)
(** ** Vocabulary of the statements *)
(* ===================================================================== *)

(** A cell inside the closed interval [lo, hi]; null cells are never
    counted as out of range. *)
Definition in_range (lo hi : Q) (c : cell) : bool :=
  match c with
  | NaN => true
  | Num q => Qle_bool lo q && Qle_bool q hi
  | Str _ => false
  end.

(** A number strictly below [lo] or strictly above [hi]. *)
Definition outside (lo hi : Q) (c : cell) : bool :=
  match c with
  | Num q => Qltb q lo || Qltb hi q
  | _ => false
  end.

Definition not_string (c : cell) : bool :=
  match c with Str _ => false | _ => true end.

(** Every present column of the entries [rm] holds only values inside
    its interval. *)
Definition within_ranges (d : DataFrame) (rm : list (string * (Q * Q))) : Prop :=
  Forall (fun entry =>
            forall s, get_column d (fst entry) = Some s ->
                      forallb (in_range (fst (snd entry)) (snd (snd entry))) (s_values s) = true)
         rm.

Definition has_required (v : variant) (d : DataFrame) : bool :=
  forallb (has_column d) (BaseParser.required v).

(** No label of the entries [rm] is carried by more than one column of
    the table. *)
Definition single_labels {A} (d : DataFrame) (rm : list (string * A)) : bool :=
  forallb (fun entry => (length (columns_labelled d (fst entry)) <=? 1)%nat) rm.

(** The instance after a successful validate. *)
Definition mark_validated (self : BaseParser.Parser) : BaseParser.Parser :=
  BaseParser.mkParser (BaseParser.variant_of self) (BaseParser.file_path self)
    (BaseParser.encoding self) (BaseParser.metadata self) (BaseParser.data self)
    (BaseParser.raw_data self) (BaseParser.is_loaded self) (BaseParser.is_parsed self) true.

(** A computation on the store that leaves every object of [h0] as it
    is, whether it returns or raises, and whose result satisfies [Q]. *)
Definition post {A} (h0 : gmap positive Standardizer.obj) (Q : A -> Prop)
    (m : Standardizer.St A) : Prop :=
  forall h r h', h0 ⊆ h -> m h = (r, h') -> h0 ⊆ h' /\ forall a, r = inr a -> Q a.

(** An address at which [h0] holds nothing. *)
Definition unused (h0 : gmap positive Standardizer.obj) (l : positive) : Prop :=
  h0 !! l = None.

Definition unknown_tag (data_type : string) : Prop :=
  data_type <> "electrical" /\ data_type <> "seismic" /\ data_type <> "radar".

(** A method relates the instance before and after it, whether it
    returns or raises. *)
Definition respects {A} (R : BaseParser.Parser -> BaseParser.Parser -> Prop)
    (m : BaseParser.M A) : Prop :=
  forall self r self', m self = (r, self') -> R self self'.

(** The table is set exactly on parsed instances. *)
Definition data_only_if_parsed (self : BaseParser.Parser) : Prop :=
  BaseParser.data self <> None -> BaseParser.is_parsed self = true.

Definition parsed_implies_loaded (self : BaseParser.Parser) : Prop :=
  BaseParser.is_parsed self = true -> BaseParser.is_loaded self = true.

Definition validated_implies_parsed (self : BaseParser.Parser) : Prop :=
  BaseParser.is_validated self = true -> BaseParser.is_parsed self = true.

(** What the calls keep true; the last part only when explicit tables
    are guarded. *)
Definition lifecycle_inv (guarded : bool) (self : BaseParser.Parser) : Prop :=
  parsed_implies_loaded self /\ data_only_if_parsed self /\
  (guarded = true -> validated_implies_parsed self).

Definition keeps_inv (guarded : bool) (self self' : BaseParser.Parser) : Prop :=
  lifecycle_inv guarded self -> lifecycle_inv guarded self'.

(** The null cells of a table and their share of all cells, as the
    missing-values check computes them. *)
Definition total_nulls (df : DataFrame) : nat :=
  QCChecker.sum_nat (map QCChecker.null_count (df_series df)).

Definition missing_pct (df : DataFrame) : Q :=
  QCChecker.percent (total_nulls df) (len df * length (columns df)).

Definition duplicate_count (df : DataFrame) : nat := count_true (duplicated df).

Definition duplicate_pct (df : DataFrame) : Q :=
  QCChecker.percent (duplicate_count df) (len df).

Definition is_missing_message (m : QCChecker.message) : bool :=
  match m with QCChecker.MissingValuesFound _ _ _ => true | _ => false end.

(** The columns with at least one null cell, with their null counts. *)
Definition affected_columns (df : DataFrame) : list (string * nat) :=
  List.filter (fun p => (0 <? snd p)%nat)
    (map (fun s => (s_name s, QCChecker.null_count s)) (df_series df)).

(** The ValidationErrors of the variant-specific sign checks. *)
Definition is_sign_error (e : exn) : bool :=
  match e with
  | ValidationError DepthNegative | ValidationError ResistivityNotPositive
  | ValidationError TimeNegative | ValidationError SampleNegative => true
  | _ => false
  end.

(** The required columns of the variant that the table lacks, in the
    order of the required list. *)
Definition absent_required (v : variant) (d : DataFrame) : list string :=
  List.filter (fun col => negb (has_column d col)) (BaseParser.required v).

(** The canonical name of a column label under the alias table of a
    variant. *)
Definition canonical (v : variant) (label : string) : string :=
  match find (fun kv => String.eqb label (fst kv)) (BaseParser.column_map v) with
  | Some kv => snd kv
  | None => label
  end.

Definition relabel (v : variant) (s : Series) : Series :=
  mkSeries (canonical v (s_name s)) (s_dtype s) (s_values s).

(** A metadata value that holds no object of a foreign class. *)
Fixpoint no_foreign (o : mval) : bool :=
  match o with
  | MOther _ => false
  | MTuple items | MList items => forallb no_foreign items
  | MDict entries => forallb (fun kv => let '(_, v) := kv in no_foreign v) entries
  | _ => true
  end.

Definition plain_metadata (m : gmap string mval) : Prop :=
  forall k v, m !! k = Some v -> no_foreign v = true.

(** The keys the constructor sets. *)
Definition constructor_keys : list string := ["file_name"; "file_path"; "created_at"].

(** No key is removed and the constructor's entries keep their value. *)
Definition metadata_kept (self self' : BaseParser.Parser) : Prop :=
  (forall k, is_Some (BaseParser.metadata self !! k) ->
             is_Some (BaseParser.metadata self' !! k)) /\
  (forall k, In k constructor_keys ->
             BaseParser.metadata self' !! k = BaseParser.metadata self !! k).


(** The columns parse() summarises in the metadata of a variant. *)
Definition summarised (v : variant) : list string :=
  match v with
  | Electrical => ["station_id"; "depth_m"; "resistivity_ohm_m"]
  | Seismic => ["trace_number"; "time_ms"; "amplitude"]
  | Radar => ["trace_number"; "sample_number"; "amplitude"; "distance_m"]
  end.

(** No summarised label is carried by more than one column. *)
Definition summarised_once (v : variant) (d : DataFrame) : bool :=
  forallb (fun c => (length (columns_labelled d c) <=? 1)%nat) (summarised v).


(** [if c in df.columns: df[c] = f(df[c])] as a function of the table. *)
Definition convert_column (d : DataFrame) (c : string) (f : Series -> Series) : DataFrame :=
  match get_column d c with
  | Some s => Standardizer.setitem d c (f s)
  | None => d
  end.

(** The tag standardize recognizes for a variant, and the columns it
    converts to numbers for it. *)
Definition tag_of (v : variant) : string :=
  match v with
  | Electrical => "electrical"
  | Seismic => "seismic"
  | Radar => "radar"
  end.

Definition numeric_columns (v : variant) : list string :=
  match v with
  | Electrical => ["depth_m"; "resistivity_ohm_m"]
  | Seismic => ["trace_number"; "time_ms"; "amplitude"]
  | Radar => ["trace_number"; "sample_number"; "amplitude"]
  end.

(** The conversions of a variant on a table. *)
Definition variant_conversions `{PyLib} (v : variant) (d : DataFrame) : DataFrame :=
  match v with
  | Electrical =>
      convert_column
        (convert_column (convert_column d "station_id" Standardizer.astype_str)
           "depth_m" Standardizer.to_numeric_coerce)
        "resistivity_ohm_m" Standardizer.to_numeric_coerce
  | Seismic =>
      convert_column
        (convert_column (convert_column d "trace_number" Standardizer.to_numeric_coerce)
           "time_ms" Standardizer.to_numeric_coerce)
        "amplitude" Standardizer.to_numeric_coerce
  | Radar =>
      convert_column
        (convert_column (convert_column d "trace_number" Standardizer.to_numeric_coerce)
           "sample_number" Standardizer.to_numeric_coerce)
        "amplitude" Standardizer.to_numeric_coerce
  end.

(** The column [c], when the table has it, is of numeric type and holds
    no text. *)
Definition numeric_at (d : DataFrame) (c : string) : Prop :=
  forall s, get_column d c = Some s ->
            s_dtype s = number /\ forallb not_string (s_values s) = true.

(** Every column has one cell per row. *)
Definition rectangular (d : DataFrame) : Prop :=
  Forall (fun s => length (s_values s) = len d) (df_series d).

(** A row with at least one cell that is not null. *)
Definition has_value (row : list cell) : bool := existsb (fun c => negb (isnull c)) row.

(** The rows of a table given by its columns. *)
Definition rows_of (n : nat) (cols : list (list cell)) : list (list cell) :=
  map (fun i => map (fun vs => nth i vs NaN) cols) (seq 0 n).

(** The rows of a table picked by a mask, column by column. *)
Definition select_rows (mask : list bool) (d : DataFrame) : DataFrame :=
  mkFrame (Standardizer.select mask (df_index d))
          (map (fun s => mkSeries (s_name s) (s_dtype s)
                           (Standardizer.select mask (s_values s)))
               (df_series d)).

(* ===================================================================== *)
(** ** Cleaning helpers of the parsers (src/core/base_parser.py) *)
(* ===================================================================== *)

Module Cleaning.

(** The keep argument of drop_duplicates: 'first', 'last', False, or
    any other value. *)
Inductive keep_arg := KeepFirst | KeepLast | KeepFalse | KeepOther (value : string).

(** The columns rows are compared on: every column whose label is in
    [subset].  A label that is no column raises KeyError; with no column
    to compare on, unpacking the hashed columns raises ValueError. *)
Definition take_columns (d : DataFrame) (subset : list string) : result (list Series) :=
  if negb (forallb (has_column d) subset) then raise (Builtin "KeyError")
  else
    match List.filter (fun s => existsb (String.eqb (s_name s)) subset) (df_series d) with
    | [] => raise (Builtin "ValueError")
    | key => ok key
    end.

(** The mask of duplicated rows for each keep. *)
Definition duplicated_rows (rs : list (list cell)) (keep : keep_arg) : result (list bool) :=
  match keep with
  | KeepFirst => ok (duplicated_from [] rs)
  | KeepLast => ok (rev (duplicated_from [] (rev rs)))
  | KeepFalse => ok (mask_or (duplicated_from [] rs) (rev (duplicated_from [] (rev rs))))
  | KeepOther _ => raise (Builtin "ValueError")
  end.

(** data.drop_duplicates(subset=subset, keep=keep); an empty table is
    returned as it is. *)
Definition drop_duplicates (d : DataFrame) (subset : option (list string)) (keep : keep_arg)
    : result DataFrame :=
  if df_empty d then ok d
  else
    try! key <- match subset with
                | None => ok (df_series d)
                | Some cs => take_columns d cs
                end;
    try! mask <- duplicated_rows (rows (mkFrame (df_index d) key)) keep;
    ok (select_rows (map negb mask) d).

(** BaseParser._remove_duplicates; the count it logs is the number of
    rows removed. *)
Definition _remove_duplicates (data : DataFrame) (subset : option (list string))
    (keep : keep_arg) : result DataFrame :=
  let initial_count := len data in
  try! data <- drop_duplicates data subset keep;
  let removed_count := (initial_count - len data)%nat in
  ok data.

(** data.dropna(): the rows without a null cell *)
Definition dropna_any (d : DataFrame) : DataFrame :=
  select_rows (map (forallb (fun c => negb (isnull c))) (rows d)) d.

(** data.fillna(value) for a value that is not None: null cells take
    the value; a numeric column that takes text becomes an object
    column. *)
Definition fillna_value (d : DataFrame) (value : cell) : DataFrame :=
  mkFrame (df_index d)
    (map (fun s =>
            mkSeries (s_name s)
              (match value with
               | Str _ => if existsb isnull (s_values s) then object else s_dtype s
               | _ => s_dtype s
               end)
              (map (fun c => if isnull c then value else c) (s_values s)))
         (df_series d)).

(** Forward fill of one column: a null cell takes the last value that
    is not null before it, if any. *)
Fixpoint ffill_from (last : cell) (vs : list cell) : list cell :=
  match vs with
  | [] => []
  | c :: vs' => if isnull c then last :: ffill_from last vs' else c :: ffill_from c vs'
  end.

Definition fillna_method (fill : list cell -> list cell) (d : DataFrame) : DataFrame :=
  mkFrame (df_index d)
    (map (fun s => mkSeries (s_name s) (s_dtype s) (fill (s_values s))) (df_series d)).

(** BaseParser._handle_missing_values; [fill_value = None] is Python's
    None, for which fillna raises ValueError. *)
Definition _handle_missing_values (data : DataFrame) (strategy : string)
    (fill_value : option cell) : result DataFrame :=
  if String.eqb strategy "drop" then ok (dropna_any data)
  else if String.eqb strategy "fill" then
    match fill_value with
    | Some value => ok (fillna_value data value)
    | None => raise (Builtin "ValueError")
    end
  else if String.eqb strategy "forward" then ok (fillna_method (ffill_from NaN) data)
  else if String.eqb strategy "backward" then
    ok (fillna_method (fun vs => rev (ffill_from NaN (rev vs))) data)
  else raise (Builtin "ValueError").

End Cleaning.

(* ===================================================================== *)
(** ** Dispatcher (src/core/dispatcher.py) *)
(* ===================================================================== *)

Module Dispatcher.

(** Strings are UTF-8 byte strings.  On a string of ASCII characters
    str.lower() maps the letters A to Z to a to z and keeps the rest; on
    any other string it follows the Unicode case tables, which are a
    library function here. *)
Class Unicode := {
  (** str.lower() on a string with a character outside ASCII *)
  unicode_lower : string -> string
}.

Definition lower_char (c : ascii) : ascii :=
  let n := nat_of_ascii c in
  if (65 <=? n)%nat && (n <=? 90)%nat then ascii_of_nat (n + 32) else c.

Fixpoint ascii_lower (s : string) : string :=
  match s with
  | EmptyString => EmptyString
  | String c rest => String (lower_char c) (ascii_lower rest)
  end.

Fixpoint isascii (s : string) : bool :=
  match s with
  | EmptyString => true
  | String c rest => (nat_of_ascii c <? 128)%nat && isascii rest
  end.

Section WithUnicode.
Context `{Unicode}.

(** str.lower() *)
Definition lower (s : string) : string :=
  if isascii s then ascii_lower s else unicode_lower s.

End WithUnicode.

(** The components of a POSIX path between its slashes; [cur] holds the
    characters of the current component, last first. *)
Fixpoint components (l cur : list ascii) : list (list ascii) :=
  match l with
  | [] => [rev cur]
  | c :: l' =>
      if Ascii.eqb c "/"%char then rev cur :: components l' []
      else components l' (c :: cur)
  end.

(** Path(p).name: the last component, empty components and "." left out
    as pathlib does when it parses the path. *)
Definition final_name (p : string) : list ascii :=
  List.last (List.filter (fun c => match c with
                              | [] => false
                              | [x] => negb (Ascii.eqb x "."%char)
                              | _ => true
                              end)
                    (components (list_ascii_of_string p) []))
       [].

(** Path(p).suffix: the last dot of the name and what follows it,
    provided the dot is neither the first nor the last character of the
    name. *)
Definition path_suffix (p : string) : string :=
  match split_last "."%char (final_name p) with
  | Some ([], _) => ""
  | Some (_, []) => ""
  | Some (_, ext) => String "."%char (string_of_list_ascii ext)
  | None => ""
  end.

(** A value registered as a parser: one of the three variant classes,
    or another class, which may or may not derive from BaseParser. *)
Inductive parser_class :=
| VariantClass (v : variant)
| OtherClass (name : string) (derives_from_BaseParser : bool).

(** issubclass(parser_class, BaseParser) *)
Definition issubclass_BaseParser (cls : parser_class) : bool :=
  match cls with
  | VariantClass _ => true
  | OtherClass _ derived => derived
  end.

(** A dict with string keys, in insertion order. *)
Fixpoint dict_get {A} (d : list (string * A)) (k : string) : option A :=
  match d with
  | [] => None
  | (k', a) :: rest => if String.eqb k k' then Some a else dict_get rest k
  end.

Fixpoint dict_set {A} (d : list (string * A)) (k : string) (a : A) : list (string * A) :=
  match d with
  | [] => [(k, a)]
  | (k', a') :: rest =>
      if String.eqb k k' then (k', a) :: rest else (k', a') :: dict_set rest k a
  end.

(** Dispatcher.__init__: the parser map *)
Definition new_dispatcher : list (string * parser_class) :=
  [("electrical", VariantClass Electrical);
   ("seismic", VariantClass Seismic);
   ("radar", VariantClass Radar)].

Definition extension_map : list (string * string) :=
  [(".dat", "electrical"); (".txt", "electrical"); (".csv", "electrical");
   (".sgy", "seismic"); (".segy", "seismic");
   (".dzt", "radar"); (".rd3", "radar")].

Section WithConstructors.
(** [instantiate cls path] is the call parser_class(file_path). *)
Context `{Unicode} {Instance : Type} (instantiate : parser_class -> string -> result Instance).

(** Both lookup failures raise ParserError; [UnknownDataType] carries
    the tag, respectively the extension, the message names.  An absent
    or empty file_path gives the class itself. *)
Definition get_parser (self : list (string * parser_class)) (data_type : string)
    (file_path : option string) : result (parser_class + Instance) :=
  let data_type_lower := lower data_type in
  match dict_get self data_type_lower with
  | None => raise (ParserError (UnknownDataType data_type))
  | Some parser_class =>
      match file_path with
      | Some path =>
          if String.eqb path "" then ok (inl parser_class)
          else
            try! parser <- instantiate parser_class path;
            ok (inr parser)
      | None => ok (inl parser_class)
      end
  end.

End WithConstructors.

Section WithUnicode.
Context `{Unicode}.

Definition detect_type (file_path : string) : result string :=
  let ext := lower (path_suffix file_path) in
  match dict_get extension_map ext with
  | Some detected_type => ok detected_type
  | None => raise (ParserError (UnknownDataType ext))
  end.

Definition get_supported_types (self : list (string * parser_class)) : list string :=
  map fst self.

Definition register_parser (self : list (string * parser_class)) (data_type : string)
    (cls : parser_class) : result (list (string * parser_class)) :=
  if negb (issubclass_BaseParser cls) then raise (Builtin "TypeError")
  else ok (dict_set self (lower data_type) cls).

End WithUnicode.

(** The constructor call for the three variant classes; a class of a
    client is not constructed here. *)
Definition construct_variant (enc now : string) (st : BaseParser.path_status)
    (cls : parser_class) (path : string) : result BaseParser.Parser :=
  match cls with
  | VariantClass v => BaseParser.new_parser v path enc now st
  | OtherClass _ _ => raise (Builtin "NotImplementedError")
  end.

End Dispatcher.

(* ===================================================================== *)
(** ** Configuration (src/config.py) *)
(* ===================================================================== *)

Module Config.

Record parser_config := mkConfig {
  supported_extensions : list string;
  encoding : string;
  required_columns : list string;
  optional_columns : list string;
  value_ranges : list (string * (Q * Q))
}.

Definition PARSER_CONFIG : list (string * parser_config) :=
  [("electrical",
    mkConfig [".dat"; ".txt"; ".csv"] "utf-8"
      ["station_id"; "depth_m"; "resistivity_ohm_m"]
      ["current_ma"; "voltage_mv"; "latitude"; "longitude"]
      [("depth_m", (0, 10000)); ("resistivity_ohm_m", (1 # 1000, 1000000));
       ("current_ma", (0, 10000)); ("voltage_mv", (0, 100000))]%Q);
   ("seismic",
    mkConfig [".sgy"; ".segy"; ".seg2"] "utf-8"
      ["trace_number"; "time_ms"; "amplitude"]
      ["station_id"; "offset_m"; "elevation_m"]
      [("time_ms", (0, 100000)); ("amplitude", (-1000000, 1000000));
       ("offset_m", (0, 100000))]%Q);
   ("radar",
    mkConfig [".dzt"; ".rd3"; ".dt1"] "utf-8"
      ["trace_number"; "sample_number"; "amplitude"]
      ["distance_m"; "time_ns"; "antenna_freq_mhz"]
      [("sample_number", (0, 100000)); ("amplitude", (-32768, 32767));
       ("distance_m", (0, 10000)); ("time_ns", (0, 1000000));
       ("antenna_freq_mhz", (10, 5000))]%Q)].

Definition get_parser_config (data_type : string) : result parser_config :=
  match Dispatcher.dict_get PARSER_CONFIG data_type with
  | None => raise (Builtin "ValueError")
  | Some config => ok config
  end.

End Config.

(** A case table to run the examples with: besides the ASCII letters,
    the capital letters of Latin-1 (U+00C0 to U+00DE without the
    multiplication sign, the bytes C3 80 to C3 9E in UTF-8) map to their
    small letters. *)
Fixpoint latin1_lower (s : string) : string :=
  match s with
  | EmptyString => EmptyString
  | String c rest =>
      if (nat_of_ascii c =? 195)%nat then
        match rest with
        | String c2 rest2 =>
            let n := nat_of_ascii c2 in
            String c
              (String (if (128 <=? n)%nat && (n <=? 158)%nat && negb (n =? 151)%nat
                       then ascii_of_nat (n + 32) else c2)
                      (latin1_lower rest2))
        | EmptyString => String c EmptyString
        end
      else String (Dispatcher.lower_char c) (latin1_lower rest)
  end.

Definition example_unicode : Dispatcher.Unicode :=
  {| Dispatcher.unicode_lower := latin1_lower |}.

(** The tag ELECTRIQUE with a capital E acute in two spellings: all
    capitals, and all small letters. *)
Definition electrique_capitals : string :=
  String (ascii_of_nat 195) (String (ascii_of_nat 137) "LECTRIQUE").

Definition electrique_small : string :=
  String (ascii_of_nat 195) (String (ascii_of_nat 169) "lectrique").

(** The rows of a table without a null cell. *)
Definition complete (row : list cell) : bool := forallb (fun c => negb (isnull c)) row.

(* ===================================================================== *)
(** ** Properties of the QC engine *)
(* ===================================================================== *)

Section QCFacts.
Context `{PyLib}.
Import QCChecker.

Lemma check_issues (df : DataFrame) :
  issues (check df) =
    (if has_issues (_check_missing_values df)
     then [message_of (_check_missing_values df)] else [])
    ++ (if has_issues (_check_duplicates df)
        then [message_of (_check_duplicates df)] else []).
Proof.
  unfold check.
  destruct (has_issues (_check_missing_values df));
    [| destruct (truthy (has_warnings (_check_missing_values df)))];
    destruct (has_issues (_check_duplicates df)); reflexivity.
Qed.

Lemma check_warnings (df : DataFrame) :
  warnings (check df) =
    (if has_issues (_check_missing_values df) then []
     else if truthy (has_warnings (_check_missing_values df))
          then [message_of (_check_missing_values df)] else [])
    ++ (if w_has_warnings (_check_outliers df) then [w_message (_check_outliers df)] else [])
    ++ (if w_has_warnings (_check_consistency df)
        then [w_message (_check_consistency df)] else []).
Proof.
  unfold check.
  destruct (has_issues (_check_missing_values df));
    [| destruct (truthy (has_warnings (_check_missing_values df)))];
    destruct (w_has_warnings (_check_outliers df));
    destruct (w_has_warnings (_check_consistency df)); reflexivity.
Qed.

Lemma check_passed (df : DataFrame) :
  passed (check df) = (length (issues (check df)) =? 0)%nat.
Proof.
  unfold check.
  destruct (has_issues (_check_missing_values df));
    [| destruct (truthy (has_warnings (_check_missing_values df)))];
    reflexivity.
Qed.

Lemma missing_message_kind (df : DataFrame) :
  is_duplicate_message (message_of (_check_missing_values df)) = false.
Proof.
  unfold _check_missing_values.
  repeat match goal with |- context [if ?b then _ else _] => destruct b end; reflexivity.
Qed.

Lemma outlier_message_kind (df : DataFrame) :
  is_duplicate_message (w_message (_check_outliers df)) = false.
Proof. unfold _check_outliers. destruct (omap _ _); reflexivity. Qed.

Lemma consistency_message_kind (df : DataFrame) :
  is_duplicate_message (w_message (_check_consistency df)) = false.
Proof. unfold _check_consistency. destruct (_ ++ _); reflexivity. Qed.

(** No message of the duplicate check ever reaches the warnings list. *)
Lemma warnings_hold_no_duplicate_message (df : DataFrame) (m : message) :
  In m (warnings (check df)) -> is_duplicate_message m = false.
Proof.
  rewrite check_warnings. intros Hin.
  apply in_app_or in Hin as [Hin | Hin]; [| apply in_app_or in Hin as [Hin | Hin]].
  - destruct (has_issues _); [destruct Hin |].
    destruct (truthy _); [| destruct Hin].
    destruct Hin as [<- | []]. apply missing_message_kind.
  - destruct (w_has_warnings _); [| destruct Hin].
    destruct Hin as [<- | []]. apply outlier_message_kind.
  - destruct (w_has_warnings _); [| destruct Hin].
    destruct Hin as [<- | []]. apply consistency_message_kind.
Qed.

(** The duplicate check itself: what it returns by percentage. *)
Lemma _check_duplicates_cases (df : DataFrame) :
  let duplicates := count_true (duplicated df) in
  let d := percent duplicates (len df) in
  (duplicates = 0%nat -> _check_duplicates df = mkCheck false None NoDuplicates) /\
  ((0 < duplicates)%nat -> (d <= 5)%Q ->
     _check_duplicates df = mkCheck false (Some true) (DuplicateRowsFound duplicates d)) /\
  ((0 < duplicates)%nat -> (5 < d)%Q ->
     _check_duplicates df = mkCheck true None (DuplicateRowsFound duplicates d)).
Proof.
  cbv zeta. unfold _check_duplicates, Qltb.
  repeat split.
  - intros ->. reflexivity.
  - intros Hpos Hle. apply Nat.ltb_lt in Hpos. rewrite Hpos.
    apply Qle_bool_iff in Hle. rewrite Hle. reflexivity.
  - intros Hpos Hlt. apply Nat.ltb_lt in Hpos. rewrite Hpos.
    destruct (Qle_bool _ 5) eqn:E; [| reflexivity].
    apply Qle_bool_iff in E. exfalso. eapply Qlt_not_le; eassumption.
Qed.

(** More than 5 % duplicates: the message is an issue. *)
Lemma duplicates_above_five_is_issue (df : DataFrame) :
  (0 < count_true (duplicated df))%nat ->
  (5 < percent (count_true (duplicated df)) (len df))%Q ->
  In (DuplicateRowsFound (count_true (duplicated df))
        (percent (count_true (duplicated df)) (len df)))
     (issues (check df)).
Proof.
  intros Hpos Hlt.
  destruct (_check_duplicates_cases df) as (_ & _ & Hc).
  rewrite check_issues, (Hc Hpos Hlt). cbn.
  apply in_or_app. right. left. reflexivity.
Qed.

(** At most 5 % duplicates: the check flags a warning, and [check]
    drops it. *)
Lemma duplicates_up_to_five_dropped (df : DataFrame) :
  (0 < count_true (duplicated df))%nat ->
  (percent (count_true (duplicated df)) (len df) <= 5)%Q ->
  has_warnings (_check_duplicates df) = Some true /\
  is_duplicate_message (message_of (_check_duplicates df)) = true /\
  ~ In (message_of (_check_duplicates df)) (warnings (check df)) /\
  ~ In (message_of (_check_duplicates df)) (issues (check df)).
Proof.
  intros Hpos Hle.
  destruct (_check_duplicates_cases df) as (_ & Hc & _).
  specialize (Hc Hpos Hle).
  split; [rewrite Hc; reflexivity |].
  split; [rewrite Hc; reflexivity |].
  split.
  - intros Hin. apply warnings_hold_no_duplicate_message in Hin.
    rewrite Hc in Hin. discriminate.
  - rewrite check_issues. intros Hin. apply in_app_or in Hin as [Hin | Hin].
    + destruct (has_issues (_check_missing_values df)); [| destruct Hin].
      destruct Hin as [Heq | []].
      pose proof (missing_message_kind df) as Hk. rewrite Heq, Hc in Hk. discriminate.
    + rewrite Hc in Hin. destruct Hin.
Qed.

End QCFacts.

Lemma twenty_rows_duplicates :
  count_true (duplicated twenty_rows_one_duplicate) = 1%nat /\
  len twenty_rows_one_duplicate = 20%nat.
Proof. split; vm_compute; reflexivity. Qed.

(** C1 (the code drops the warning).  A table of twenty rows with one
    duplicate row has a duplicate percentage of exactly 5: the duplicate
    check returns has_warnings with its message, and the message is in
    neither the warnings nor the issues of the result of [check]. *)
Theorem C1_five_percent_duplicates_not_warned `{PyLib} :
  let df := twenty_rows_one_duplicate in
  let r := QCChecker.check df in
  (QCChecker.percent (count_true (duplicated df)) (len df) == 5)%Q /\
  QCChecker._check_duplicates df =
    QCChecker.mkCheck false (Some true)
      (QCChecker.DuplicateRowsFound 1 (QCChecker.percent 1 20)) /\
  ~ In (QCChecker.DuplicateRowsFound 1 (QCChecker.percent 1 20)) (QCChecker.warnings r) /\
  (forall m, In m (QCChecker.warnings r) -> QCChecker.is_duplicate_message m = false) /\
  QCChecker.issues r = [].
Proof.
  cbv zeta.
  destruct twenty_rows_duplicates as [Hd Hl].
  split; [rewrite Hd, Hl; vm_compute; reflexivity |].
  split; [vm_compute; reflexivity |].
  split.
  - intros Hin. apply warnings_hold_no_duplicate_message in Hin. discriminate.
  - split; [intros m; apply warnings_hold_no_duplicate_message |].
    rewrite check_issues. vm_compute. reflexivity.
Qed.

(** The whole result on that table, with the example library: passed,
    no issue, no warning. *)
Lemma twenty_rows_check_result :
  QCChecker.check (H := example_lib) twenty_rows_one_duplicate
  = QCChecker.mkResult true [] []
      ["missing_values"; "duplicates"; "outliers"; "consistency"]
      (QCChecker.mkSummary 20 3 0 0).
Proof. vm_compute. reflexivity. Qed.

(** C5.  The result of [check] has passed = true exactly when its issues
    list is empty, whatever its warnings list holds. *)
Theorem C5_passed_iff_no_issues `{PyLib} (df : DataFrame) :
  QCChecker.passed (QCChecker.check df) = true <->
  QCChecker.issues (QCChecker.check df) = [].
Proof.
  rewrite check_passed.
  destruct (QCChecker.issues (QCChecker.check df)); cbn; split;
    intros; try reflexivity; discriminate.
Qed.

(** A result with a warning and no issue: passed. *)
Lemma warning_only_result_passes `{PyLib} :
  let r := QCChecker.check one_missing_value in
  QCChecker.warnings r <> [] /\ QCChecker.issues r = [] /\ QCChecker.passed r = true.
Proof.
  cbv zeta.
  assert (Hi : QCChecker.issues (QCChecker.check one_missing_value) = [])
    by (rewrite check_issues; vm_compute; reflexivity).
  split; [| split; [exact Hi | rewrite check_passed, Hi; reflexivity]].
  rewrite check_warnings.
  replace (QCChecker.has_issues (QCChecker._check_missing_values one_missing_value))
    with false by (vm_compute; reflexivity).
  replace (QCChecker.truthy (QCChecker.has_warnings
             (QCChecker._check_missing_values one_missing_value)))
    with true by (vm_compute; reflexivity).
  discriminate.
Qed.

(* ===================================================================== *)
(** ** Properties of the parsers *)
(* ===================================================================== *)

Section ParserFacts.
Context `{PyLib}.
Import BaseParser.

Lemma new_parser_fresh v path enc now st self :
  new_parser v path enc now st = inr self ->
  variant_of self = v /\ data self = None /\ raw_data self = None /\
  is_loaded self = false /\ is_parsed self = false /\ is_validated self = false.
Proof.
  unfold new_parser. destruct (_validate_file_path path st); cbn; [discriminate |].
  intros [= <-]. cbn. repeat split.
Qed.

(** *** What each method does to the instance *)

Lemma load_ok io self self' :
  load io self = (inr tt, self') ->
  is_loaded self' = true /\ is_parsed self' = is_parsed self /\
  is_validated self' = is_validated self /\ data self' = data self /\
  metadata self' = metadata self.
Proof.
  unfold load, bind, get. destruct io as [e | text]; cbn; [discriminate |].
  intros [= <-]. cbn. repeat split.
Qed.

Lemma load_raises io self e self' :
  load io self = (inl e, self') -> self' = self.
Proof.
  unfold load, bind, get. destruct io as [e' | text]; cbn; [| discriminate].
  intros [= _ <-]. reflexivity.
Qed.

Lemma parse_ok self r self' :
  parse self = (inr r, self') ->
  is_loaded self = true /\ is_loaded self' = true /\ is_parsed self' = true /\
  is_validated self' = is_validated self /\
  (exists d, data self' = Some d) /\
  r = mkParsed (metadata self') (data self').
Proof.
  unfold parse, bind, get. cbn.
  destruct (is_loaded self) eqn:Hl; cbn; [| discriminate].
  destruct (parse_try self) as [e | [df md]]; cbn; [discriminate |].
  intros [= <- <-]. cbn. repeat split; eauto.
Qed.

Lemma parse_raises self e self' :
  parse self = (inl e, self') -> self' = self.
Proof.
  unfold parse, bind, get. cbn.
  destruct (is_loaded self); cbn.
  - destruct (parse_try self) as [e' | [df md]]; cbn; [| discriminate].
    intros [= _ <-]. reflexivity.
  - intros [= _ <-]. reflexivity.
Qed.

Lemma validate_ok table self b self' :
  validate table self = (inr b, self') ->
  is_validated self' = true /\ is_loaded self' = is_loaded self /\
  is_parsed self' = is_parsed self /\ data self' = data self /\
  metadata self' = metadata self /\
  (table = None -> exists d, data self = Some d).
Proof.
  unfold validate, bind, get, lift. cbn.
  destruct table as [d |]; cbn.
  - destruct (validate_checks (variant_of self) d); cbn; [discriminate |].
    intros [= _ <-]. cbn. repeat split. discriminate.
  - destruct (data self) as [d |] eqn:Hd; cbn; [| discriminate].
    destruct (validate_checks (variant_of self) d); cbn; [discriminate |].
    intros [= _ <-]. cbn. repeat split; eauto.
Qed.

Lemma validate_raises table self e self' :
  validate table self = (inl e, self') -> self' = self.
Proof.
  unfold validate, bind, get, lift. cbn.
  destruct table as [d |]; cbn.
  - destruct (validate_checks (variant_of self) d); cbn; [| discriminate].
    intros [= _ <-]. reflexivity.
  - destruct (data self) as [d |]; cbn.
    + destruct (validate_checks (variant_of self) d); cbn; [| discriminate].
      intros [= _ <-]. reflexivity.
    + intros [= _ <-]. reflexivity.
Qed.

(** *** Relations every method respects *)

Lemma respects_ret {A} (R : Parser -> Parser -> Prop) (a : A) :
  (forall s, R s s) -> respects R (ret a).
Proof. intros Hrefl self r self' [= _ <-]. apply Hrefl. Qed.

Lemma respects_get (R : Parser -> Parser -> Prop) :
  (forall s, R s s) -> respects R get.
Proof. intros Hrefl self r self' [= _ <-]. apply Hrefl. Qed.

Lemma respects_bind {A B} (R : Parser -> Parser -> Prop) (m : M A) (k : A -> M B) :
  (forall s1 s2 s3, R s1 s2 -> R s2 s3 -> R s1 s3) ->
  respects R m -> (forall a, respects R (k a)) -> respects R (bind m k).
Proof.
  intros Htrans Hm Hk self r self'. unfold bind.
  destruct (m self) as [[e | a] s1] eqn:Em.
  - intros [= _ <-]. eapply Hm; eassumption.
  - intros Ek. eapply Htrans; [eapply Hm | eapply Hk]; eassumption.
Qed.

Lemma flags_le_refl s : flags_le s s.
Proof. repeat split; auto. Qed.

Lemma flags_le_trans s1 s2 s3 : flags_le s1 s2 -> flags_le s2 s3 -> flags_le s1 s3.
Proof. unfold flags_le. intuition. Qed.

Lemma keeps_inv_refl g s : keeps_inv g s s.
Proof. unfold keeps_inv. auto. Qed.

Lemma keeps_inv_trans g s1 s2 s3 :
  keeps_inv g s1 s2 -> keeps_inv g s2 s3 -> keeps_inv g s1 s3.
Proof. unfold keeps_inv. auto. Qed.

Lemma load_flags io : respects flags_le (load io).
Proof.
  intros self [e | []] self' Hrun.
  - apply load_raises in Hrun as ->. apply flags_le_refl.
  - apply load_ok in Hrun as (Hl & Hp & Hv & _). unfold flags_le.
    rewrite Hl, Hp, Hv. auto.
Qed.

Lemma parse_flags : respects flags_le parse.
Proof.
  intros self [e | r] self' Hrun.
  - apply parse_raises in Hrun as ->. apply flags_le_refl.
  - apply parse_ok in Hrun as (_ & Hl & Hp & Hv & _). unfold flags_le.
    rewrite Hl, Hp, Hv. auto.
Qed.

Lemma validate_flags table : respects flags_le (validate table).
Proof.
  intros self [e | b] self' Hrun.
  - apply validate_raises in Hrun as ->. apply flags_le_refl.
  - apply validate_ok in Hrun as (Hv & Hl & Hp & _). unfold flags_le.
    rewrite Hl, Hp, Hv. auto.
Qed.

Lemma load_inv g io : respects (keeps_inv g) (load io).
Proof.
  intros self [e | []] self' Hrun.
  - apply load_raises in Hrun as ->. apply keeps_inv_refl.
  - apply load_ok in Hrun as (Hl & Hp & Hv & Hd & _).
    unfold keeps_inv, lifecycle_inv, parsed_implies_loaded, data_only_if_parsed,
      validated_implies_parsed.
    rewrite Hl, Hp, Hv, Hd. intuition.
Qed.

Lemma parse_inv g : respects (keeps_inv g) parse.
Proof.
  intros self [e | r] self' Hrun.
  - apply parse_raises in Hrun as ->. apply keeps_inv_refl.
  - apply parse_ok in Hrun as (_ & Hl & Hp & Hv & _).
    unfold keeps_inv, lifecycle_inv, parsed_implies_loaded, data_only_if_parsed,
      validated_implies_parsed.
    rewrite Hl, Hp. intuition.
Qed.

(** validate keeps the invariant when its table is the parser's own, or
    when the instance is parsed, or when explicit tables are unguarded. *)
Lemma validate_inv g table self r self' :
  (g = true -> table <> None -> is_parsed self = true) ->
  validate table self = (r, self') -> keeps_inv g self self'.
Proof.
  intros Hguard Hrun. destruct r as [e | b].
  - apply validate_raises in Hrun as ->. apply keeps_inv_refl.
  - apply validate_ok in Hrun as (Hv & Hl & Hp & Hd & _ & Hnone).
    unfold keeps_inv, lifecycle_inv, parsed_implies_loaded, data_only_if_parsed,
      validated_implies_parsed.
    rewrite Hl, Hp, Hd. intros (Hpl & Hdp & Hvp). repeat split; auto.
    intros Hg _. destruct table as [d |].
    + apply Hguard; [exact Hg | discriminate].
    + apply Hdp. destruct (Hnone eq_refl) as [d ->]. discriminate.
Qed.

Lemma validate_own_inv g : respects (keeps_inv g) (validate None).
Proof.
  intros self r self' Hrun. eapply validate_inv; [| exact Hrun].
  intros _ Hne. exfalso. apply Hne. reflexivity.
Qed.

Lemma process_respects (R : Parser -> Parser -> Prop) skip io :
  (forall s, R s s) ->
  (forall s1 s2 s3, R s1 s2 -> R s2 s3 -> R s1 s3) ->
  respects R (load io) -> respects R parse -> respects R (validate None) ->
  respects R (process skip io).
Proof.
  intros Hrefl Htrans Hload Hparse Hval. unfold process.
  apply respects_bind; [exact Htrans | apply respects_get, Hrefl |]. intros s0.
  apply respects_bind; [exact Htrans | |].
  { destruct (negb (is_loaded s0)); [exact Hload | apply respects_ret, Hrefl]. }
  intros _.
  apply respects_bind; [exact Htrans | apply respects_get, Hrefl |]. intros s1.
  apply respects_bind; [exact Htrans | |].
  { destruct (negb (is_parsed s1)); [exact Hparse | apply respects_ret, Hrefl]. }
  intros result.
  apply respects_bind; [exact Htrans | apply respects_get, Hrefl |]. intros s2.
  apply respects_bind; [exact Htrans | | intros _; apply respects_ret, Hrefl].
  destruct (negb skip && negb (is_validated s2)); [| apply respects_ret, Hrefl].
  apply respects_bind; [exact Htrans | exact Hval | intros _; apply respects_ret, Hrefl].
Qed.

(** No call un-sets a flag. *)
Lemma after_flags c self : flags_le self (after c self).
Proof.
  destruct c as [io | | table | skip io]; cbn.
  - eapply load_flags. apply surjective_pairing.
  - eapply parse_flags. apply surjective_pairing.
  - eapply validate_flags. apply surjective_pairing.
  - eapply process_respects;
      [apply flags_le_refl | apply flags_le_trans | apply load_flags | apply parse_flags
      | apply validate_flags | apply surjective_pairing].
Qed.

Lemma after_inv g c self :
  (g = true -> explicit_table c = true -> is_parsed self = true) ->
  keeps_inv g self (after c self).
Proof.
  intros Hguard. destruct c as [io | | table | skip io]; cbn.
  - eapply load_inv. apply surjective_pairing.
  - eapply parse_inv. apply surjective_pairing.
  - eapply validate_inv; [| apply surjective_pairing].
    intros Hg Hne. apply Hguard; [exact Hg |].
    destruct table; [reflexivity | contradiction].
  - eapply process_respects;
      [apply keeps_inv_refl | apply keeps_inv_trans | apply load_inv | apply parse_inv
      | apply validate_own_inv | apply surjective_pairing].
Qed.

Lemma reachable_inv g self : reachable g self -> lifecycle_inv g self.
Proof.
  induction 1 as [v path enc now st self Hnew | c self Hreach IH Hguard].
  - apply new_parser_fresh in Hnew as (_ & Hd & _ & Hl & Hp & Hv).
    unfold lifecycle_inv, parsed_implies_loaded, data_only_if_parsed,
      validated_implies_parsed.
    rewrite Hd, Hl, Hp, Hv. repeat split; intros; try discriminate; contradiction.
  - apply after_inv; assumption.
Qed.

End ParserFacts.

Lemma example_parser_constructed (v : variant) :
  BaseParser.new_parser v "data/survey.csv" "utf-8" "2024-01-01T00:00:00"
    (BaseParser.PathFile 96) = inr (example_parser v).
Proof. reflexivity. Qed.

(** C2 (as amended).  In every state reachable from a constructed parser
    by load, parse, validate and process calls, is_parsed implies
    is_loaded and no call un-sets a flag; when validate is given an
    explicit table only on parsed instances, is_validated implies
    is_parsed as well. *)
Theorem C2_lifecycle_order_of_reachable `{PyLib} (guarded : bool)
    (self : BaseParser.Parser) :
  BaseParser.reachable guarded self ->
  parsed_implies_loaded self /\
  (guarded = true -> BaseParser.lifecycle_order self) /\
  (forall c, BaseParser.flags_le self (BaseParser.after c self)).
Proof.
  intros Hreach. apply reachable_inv in Hreach as (Hpl & _ & Hvp).
  split; [exact Hpl |]. split.
  - intros Hg. split; [exact (Hvp Hg) | exact Hpl].
  - intros c. apply after_flags.
Qed.

Lemma C2_lifecycle_order_witness :
  BaseParser.reachable (H := example_lib) true example_validated /\
  (parsed_implies_loaded example_validated /\
   (true = true -> BaseParser.lifecycle_order example_validated) /\
   (forall c, BaseParser.flags_le example_validated
                (BaseParser.after (H := example_lib) c example_validated))).
Proof.
  assert (Hreach : BaseParser.reachable (H := example_lib) true example_validated).
  { unfold example_validated.
    repeat (apply BaseParser.reach_call; [| intros _; discriminate]).
    eapply BaseParser.reach_new. apply (example_parser_constructed Electrical). }
  split; [exact Hreach |].
  exact (C2_lifecycle_order_of_reachable (H := example_lib) true example_validated Hreach).
Defined.

(** C2 as stated fails: validate with an explicit table on a parser that
    was only constructed sets is_validated while is_parsed and is_loaded
    are false. *)
Lemma C2_explicit_table_sets_validated_unparsed :
  BaseParser.reachable (H := example_lib) false example_validated_early /\
  BaseParser.is_validated example_validated_early = true /\
  BaseParser.is_parsed example_validated_early = false /\
  ~ BaseParser.lifecycle_order example_validated_early.
Proof.
  split.
  { unfold example_validated_early.
    apply BaseParser.reach_call; [| intros; discriminate].
    eapply BaseParser.reach_new. apply (example_parser_constructed Electrical). }
  split; [vm_compute; reflexivity |].
  split; [vm_compute; reflexivity |].
  intros [Hvp _].
  assert (Hv : BaseParser.is_validated example_validated_early = true)
    by (vm_compute; reflexivity).
  apply Hvp in Hv. vm_compute in Hv. discriminate.
Qed.

(** C3 (as amended).  For every variant the constructor raises at once on
    a missing path and on an empty file: FileNotFoundError, which is not
    in the ParserError family, for the missing path; ParserError for the
    empty file. *)
Theorem C3_construction_errors (v : variant) (path enc now : string) :
  BaseParser.new_parser v path enc now BaseParser.PathMissing
    = raise (FileNotFoundError path) /\
  is_ParserError (FileNotFoundError path) = false /\
  BaseParser.new_parser v path enc now (BaseParser.PathFile 0)
    = raise (ParserError (FileIsEmpty path)) /\
  is_ParserError (ParserError (FileIsEmpty path)) = true.
Proof. repeat split. Qed.

(** C3 as stated fails on a missing path. *)
Lemma C3_missing_path_not_ParserError :
  exists e,
    BaseParser.new_parser Electrical "data/absent.csv" "utf-8" "2024-01-01T00:00:00"
      BaseParser.PathMissing = inl e /\
    is_ParserError e = false.
Proof. eexists. split; reflexivity. Qed.

Lemma load_keeps_data (io : result string) (self : BaseParser.Parser) :
  BaseParser.data (snd (BaseParser.load io self)) = BaseParser.data self.
Proof. destruct io; reflexivity. Qed.

(** C7.  On a parser of any variant that was constructed and, at most,
    loaded, validate() without a table raises ValidationError and leaves
    the instance as it was. *)
Theorem C7_validate_before_parse (v : variant) (path enc now : string)
    (st : BaseParser.path_status) (self : BaseParser.Parser)
    (ios : list (result string)) :
  BaseParser.new_parser v path enc now st = inr self ->
  let loaded := fold_left (fun s io => snd (BaseParser.load io s)) ios self in
  BaseParser.validate None loaded = (raise (ValidationError NoDataToValidate), loaded) /\
  is_ValidationError (ValidationError NoDataToValidate) = true.
Proof.
  intros Hnew. cbv zeta. split; [| reflexivity].
  apply new_parser_fresh in Hnew as (_ & Hd & _).
  set (loaded := fold_left (fun s io => snd (BaseParser.load io s)) ios self).
  assert (Hnone : BaseParser.data loaded = None).
  { subst loaded. revert self Hd.
    induction ios as [| io ios IH]; intros self Hd; [exact Hd |].
    cbn [fold_left]. apply IH. rewrite load_keeps_data. exact Hd. }
  clearbody loaded.
  unfold BaseParser.validate, BaseParser.bind, BaseParser.get. cbn.
  rewrite Hnone. reflexivity.
Qed.

Lemma C7_validate_before_parse_witness :
  BaseParser.new_parser Radar "data/survey.csv" "utf-8" "2024-01-01T00:00:00"
    (BaseParser.PathFile 96) = inr (example_parser Radar) /\
  (let loaded := fold_left (fun s io => snd (BaseParser.load io s))
                   [inr example_text] (example_parser Radar) in
   BaseParser.validate None loaded = (raise (ValidationError NoDataToValidate), loaded) /\
   is_ValidationError (ValidationError NoDataToValidate) = true).
Proof.
  split; [reflexivity |].
  apply (C7_validate_before_parse Radar "data/survey.csv" "utf-8" "2024-01-01T00:00:00"
           (BaseParser.PathFile 96)).
  reflexivity.
Defined.

Section ProcessFacts.
Context `{PyLib}.
Import BaseParser.

Lemma bind_ok {A B} (m : M A) (k : A -> M B) self b self'' :
  bind m k self = (inr b, self'') ->
  exists a self', m self = (inr a, self') /\ k a self' = (inr b, self'').
Proof.
  unfold bind. destruct (m self) as [[e | a] s1]; [discriminate |]. eauto.
Qed.

(** What holds after process() returned. *)
Lemma process_ok skip io self r self' :
  process skip io self = (inr r, self') ->
  is_loaded self' = true /\ is_parsed self' = true /\
  (skip = false -> is_validated self' = true) /\
  r = mkParsed (metadata self') (data self').
Proof.
  unfold process. intros Hrun.
  apply bind_ok in Hrun as (x0 & s0 & [= <- <-] & Hrun).
  apply bind_ok in Hrun as ([] & s1 & Hload & Hrun).
  apply bind_ok in Hrun as (x1 & s1' & [= <- <-] & Hrun).
  apply bind_ok in Hrun as (result & s2 & Hparse & Hrun).
  apply bind_ok in Hrun as (x2 & s2' & [= <- <-] & Hrun).
  apply bind_ok in Hrun as ([] & s3 & Hval & [= <- <-]).
  assert (Hl1 : is_loaded s1 = true).
  { destruct (is_loaded self) eqn:El; cbn [negb] in Hload.
    - injection Hload as <-. exact El.
    - apply load_ok in Hload. tauto. }
  assert (H2 : is_loaded s2 = true /\ is_parsed s2 = true /\
               result = mkParsed (metadata s2) (data s2)).
  { destruct (is_parsed s1) eqn:Ep; cbn [negb] in Hparse.
    - injection Hparse as <- <-. auto.
    - apply parse_ok in Hparse. tauto. }
  destruct H2 as (Hl2 & Hp2 & ->).
  destruct (negb skip && negb (is_validated s2)) eqn:Eg.
  - apply bind_ok in Hval as (b & s3' & Hv & [= <-]).
    apply validate_ok in Hv as (Hv3 & Hl3 & Hp3 & Hd3 & Hm3 & _).
    rewrite Hl3, Hp3, Hd3, Hm3. auto.
  - injection Hval as <-. repeat split; auto.
    intros ->. cbn in Eg. destruct (is_validated s2); [reflexivity | discriminate].
Qed.

(** On a loaded, parsed and (unless skipped) validated instance,
    process() calls nothing and returns the instance's metadata and
    table. *)
Lemma process_noop skip io self :
  is_loaded self = true -> is_parsed self = true ->
  (skip = false -> is_validated self = true) ->
  process skip io self = (inr (mkParsed (metadata self) (data self)), self).
Proof.
  intros Hl Hp Hv.
  cbv beta iota delta [process bind get ret ok]. rewrite Hl.
  cbv beta iota delta [negb bind ret ok]. rewrite Hp.
  cbv beta iota delta [negb bind ret ok].
  destruct skip; [reflexivity |]. rewrite (Hv eq_refl). reflexivity.
Qed.

End ProcessFacts.

(** C8.  After a process() call that returned, a second process() call
    with the same skip_validation returns the same result and leaves the
    instance (flags, table, metadata) as it is, whatever the file system
    would answer. *)
Theorem C8_process_twice `{PyLib} (skip : bool) (io1 io2 : result string)
    (self self' : BaseParser.Parser) (r : BaseParser.parsed) :
  BaseParser.process skip io1 self = (inr r, self') ->
  BaseParser.process skip io2 self' = (inr r, self').
Proof.
  intros Hrun. apply process_ok in Hrun as (Hl & Hp & Hv & ->).
  apply process_noop; assumption.
Qed.

Lemma C8_process_twice_witness :
  exists r self',
    BaseParser.process (H := example_lib) false (inr example_text)
      (example_parser Electrical) = (inr r, self') /\
    BaseParser.process (H := example_lib) false (raise (Builtin "OSError")) self'
      = (inr r, self').
Proof.
  eexists _, _.
  assert (Hrun : BaseParser.process (H := example_lib) false (inr example_text)
                   (example_parser Electrical)
                 = (inr (BaseParser.mkParsed
                           (BaseParser.metadata example_validated)
                           (BaseParser.data example_validated)),
                    example_validated)).
  { vm_compute. reflexivity. }
  split; [exact Hrun |].
  exact (C8_process_twice (H := example_lib) false (inr example_text)
           (raise (Builtin "OSError")) _ _ _ Hrun).
Defined.

(* ===================================================================== *)
(** ** The range check *)
(* ===================================================================== *)

Section RangeFacts.
Import BaseParser.

Lemma Qltb_lt (a b : Q) : Qltb a b = true <-> (a < b)%Q.
Proof.
  unfold Qltb. rewrite negb_true_iff. split.
  - intros Hf. apply Qnot_le_lt. intros Hle. apply Qle_bool_iff in Hle. congruence.
  - intros Hlt. destruct (Qle_bool b a) eqn:E; [| reflexivity].
    apply Qle_bool_iff in E. exfalso. eapply Qlt_not_le; eassumption.
Qed.

Lemma has_column_get (d : DataFrame) (c : string) :
  has_column d c = match get_column d c with Some _ => true | None => false end.
Proof.
  unfold has_column, get_column, columns.
  induction (df_series d) as [| s l IH]; cbn; [reflexivity |].
  destruct (String.eqb c (s_name s)); cbn; [reflexivity | exact IH].
Qed.

Lemma series_cmp_numbers cmp vs x :
  forallb not_string vs = true ->
  series_cmp cmp vs x
  = ok (map (fun c => match c with Num q => cmp q x | _ => false end) vs).
Proof.
  induction vs as [| c vs IH]; cbn; [reflexivity |].
  intros Hns. apply andb_true_iff in Hns as [Hc Hvs].
  destruct c as [| q | t]; cbn in *; try discriminate; rewrite (IH Hvs); reflexivity.
Qed.

Lemma in_range_not_string lo hi vs :
  forallb (in_range lo hi) vs = true -> forallb not_string vs = true.
Proof.
  induction vs as [| c vs IH]; cbn; [reflexivity |].
  intros Hin. apply andb_true_iff in Hin as [Hc Hvs].
  rewrite (IH Hvs). destruct c; cbn in *; try reflexivity; discriminate.
Qed.

(** The number of cells the range check counts in a column without
    strings. *)
Lemma out_of_range_count lo hi vs :
  count_true
    (mask_or (map (fun c => match c with Num q => Qltb q lo | _ => false end) vs)
             (map (fun c => match c with Num q => Qltb hi q | _ => false end) vs))
  = count_true (map (outside lo hi) vs).
Proof.
  unfold count_true, mask_or.
  induction vs as [| c vs IH]; cbn; [reflexivity |].
  destruct c as [| q | t]; cbn; try exact IH.
  destruct (Qltb q lo || Qltb hi q); cbn; rewrite IH; reflexivity.
Qed.

Lemma in_range_none_outside lo hi vs :
  forallb (in_range lo hi) vs = true -> count_true (map (outside lo hi) vs) = 0%nat.
Proof.
  unfold count_true.
  induction vs as [| c vs IH]; cbn; [reflexivity |].
  intros Hin. apply andb_true_iff in Hin as [Hc Hvs].
  destruct c as [| q | t]; cbn in *; try discriminate; try (apply IH; exact Hvs).
  apply andb_true_iff in Hc as [Hlo Hhi].
  unfold Qltb. rewrite Hlo, Hhi. cbn. apply IH; exact Hvs.
Qed.

Lemma get_column_labelled (d : DataFrame) (c : string) :
  get_column d c = hd_error (columns_labelled d c).
Proof.
  unfold get_column, columns_labelled.
  induction (df_series d) as [| s l IH]; cbn; [reflexivity |].
  destruct (String.eqb c (s_name s)); cbn; [reflexivity | exact IH].
Qed.

(** A label carried by one column. *)
Lemma labelled_once (d : DataFrame) (c : string) (s : Series) :
  (length (columns_labelled d c) <=? 1)%nat = true ->
  get_column d c = Some s ->
  columns_labelled d c = [s].
Proof.
  rewrite get_column_labelled. intros Hlen Hget.
  destruct (columns_labelled d c) as [| s0 [| s1 l]]; cbn in *; try discriminate.
  congruence.
Qed.

Lemma labelled_once_get (d : DataFrame) (c : string) (s : Series) :
  columns_labelled d c = [s] -> get_column d c = Some s.
Proof. intros Hone. rewrite get_column_labelled, Hone. reflexivity. Qed.

Lemma getitem_once (d : DataFrame) (c : string) (s : Series) :
  columns_labelled d c = [s] -> getitem d c = ok (ASeries s).
Proof. intros Hone. unfold getitem. rewrite Hone. reflexivity. Qed.

(** A label carried by several columns selects a DataFrame. *)
Lemma getitem_several (d : DataFrame) (c : string) :
  (length (columns_labelled d c) <=? 1)%nat = false ->
  getitem d c = ok (AFrame (columns_labelled d c)).
Proof.
  unfold getitem. destruct (columns_labelled d c) as [| s0 [| s1 l]]; cbn;
    try discriminate; reflexivity.
Qed.

Lemma single_labels_in {A} (d : DataFrame) (rm : list (string * A)) c (a : A) :
  single_labels d rm = true -> In (c, a) rm ->
  (length (columns_labelled d c) <=? 1)%nat = true.
Proof.
  unfold single_labels. rewrite forallb_forall. intros Hs Hin. exact (Hs _ Hin).
Qed.

Lemma single_labels_app {A} (d : DataFrame) (l1 l2 : list (string * A)) :
  single_labels d (l1 ++ l2) = single_labels d l1 && single_labels d l2.
Proof. unfold single_labels. apply forallb_app. Qed.

(** One entry of the range table, on a column without strings whose
    label occurs once. *)
Lemma check_entry d c lo hi rest s :
  columns_labelled d c = [s] ->
  forallb not_string (s_values s) = true ->
  _check_value_ranges d ((c, (lo, hi)) :: rest)
  = let n := count_true (map (outside lo hi) (s_values s)) in
    if (0 <? n)%nat then raise (ValidationError (OutOfRange c n lo hi))
    else _check_value_ranges d rest.
Proof.
  intros Hone Hns. cbn [_check_value_ranges].
  rewrite has_column_get, (labelled_once_get _ _ _ Hone). cbn [negb].
  rewrite (getitem_once _ _ _ Hone).
  unfold series_lt, series_gt. cbn [rbind ok].
  rewrite !series_cmp_numbers by exact Hns. cbn [rbind ok].
  rewrite out_of_range_count. reflexivity.
Qed.

(** One entry of the range table whose label several columns carry: the
    check does not get past it. *)
Lemma check_entry_several d c lo hi rest :
  (length (columns_labelled d c) <=? 1)%nat = false ->
  exists cls, _check_value_ranges d ((c, (lo, hi)) :: rest) = raise (Builtin cls).
Proof.
  intros Hmany. cbn [_check_value_ranges].
  assert (Hhas : has_column d c = true).
  { rewrite has_column_get, get_column_labelled.
    destruct (columns_labelled d c); [discriminate | reflexivity]. }
  rewrite Hhas. cbn [negb]. rewrite (getitem_several _ _ Hmany). cbn [rbind ok].
  assert (Hcmp : forall cmp cols x e, frame_cmp cmp cols x = inl e -> e = Builtin "TypeError").
  { intros cmp cols x. induction cols as [| s cols IH]; intros e; cbn; [discriminate |].
    destruct (series_cmp cmp (s_values s) x) as [e0 | m] eqn:E; cbn.
    - intros [= <-]. clear - E. revert e0 E.
      induction (s_values s) as [| v vs IHvs]; intros e0; cbn; [discriminate |].
      destruct v; cbn; try (intros [= <-]; reflexivity);
        destruct (series_cmp cmp vs x); cbn; try discriminate;
        intros [= <-]; apply IHvs; reflexivity.
    - destruct (frame_cmp cmp cols x) as [e0 | ms]; cbn; [| discriminate].
      intros [= <-]. apply IH. reflexivity. }
  destruct (frame_cmp Qltb _ lo) as [e | below] eqn:Elt; cbn [rbind].
  { exists "TypeError". rewrite (Hcmp _ _ _ _ Elt). reflexivity. }
  destruct (frame_cmp _ _ hi) as [e | above] eqn:Egt; cbn [rbind].
  { exists "TypeError". rewrite (Hcmp _ _ _ _ Egt). reflexivity. }
  exists "ValueError". reflexivity.
Qed.

(** Absent columns are skipped. *)
Lemma check_entry_absent d c r rest :
  has_column d c = false ->
  _check_value_ranges d ((c, r) :: rest) = _check_value_ranges d rest.
Proof. intros Habs. destruct r as [lo hi]. cbn. rewrite Habs. reflexivity. Qed.

Lemma check_clean_prefix d before rest :
  single_labels d before = true ->
  within_ranges d before ->
  _check_value_ranges d (before ++ rest) = _check_value_ranges d rest.
Proof.
  intros Hs Hw. induction Hw as [| [c [lo hi]] before Hc Hbefore IH]; [reflexivity |].
  cbn in Hs. apply andb_true_iff in Hs as [Hone Hs].
  cbn [app]. destruct (get_column d c) as [s |] eqn:Hget.
  - specialize (Hc s Hget). cbn [fst snd] in Hc.
    rewrite (check_entry d c lo hi _ s (labelled_once _ _ _ Hone Hget)
               (in_range_not_string _ _ _ Hc)).
    cbv zeta. rewrite (in_range_none_outside _ _ _ Hc). exact (IH Hs).
  - rewrite check_entry_absent; [exact (IH Hs) |]. rewrite has_column_get, Hget. reflexivity.
Qed.

Lemma check_within_ranges d rm :
  single_labels d rm = true -> within_ranges d rm -> _check_value_ranges d rm = ok tt.
Proof.
  intros Hs Hw. rewrite <- (app_nil_r rm). rewrite check_clean_prefix by assumption.
  reflexivity.
Qed.


Lemma required_columns_present v d :
  has_required v d = true -> _check_required_columns d (required v) = ok tt.
Proof.
  unfold has_required, _check_required_columns. intros Hreq.
  replace (List.filter (fun col => negb (has_column d col)) (required v)) with (@nil string);
    [reflexivity |].
  induction (required v) as [| c l IH]; cbn in *; [reflexivity |].
  apply andb_true_iff in Hreq as [Hc Hl]. rewrite Hc. cbn. apply IH. exact Hl.
Qed.


(** No value of a column inside [lo, hi] is below or at [x] when [x] is
    below [lo]. *)
Lemma in_range_any_lt lo hi x vs :
  (x <= lo)%Q -> forallb (in_range lo hi) vs = true ->
  series_lt vs x = ok (map (fun _ => false) vs).
Proof.
  intros Hx Hin. unfold series_lt.
  rewrite series_cmp_numbers by (eapply in_range_not_string; exact Hin).
  f_equal. induction vs as [| c vs IH]; cbn in *; [reflexivity |].
  apply andb_true_iff in Hin as [Hc Hvs]. rewrite (IH Hvs). f_equal.
  destruct c as [| q | t]; try reflexivity.
  cbn in Hc. apply andb_true_iff in Hc as [Hlo _]. apply Qle_bool_iff in Hlo.
  destruct (Qltb q x) eqn:E; [| reflexivity].
  apply Qltb_lt in E. exfalso. eapply Qlt_not_le; [exact E |].
  eapply Qle_trans; eassumption.
Qed.

Lemma in_range_any_le lo hi x vs :
  (x < lo)%Q -> forallb (in_range lo hi) vs = true ->
  series_le vs x = ok (map (fun _ => false) vs).
Proof.
  intros Hx Hin. unfold series_le.
  rewrite series_cmp_numbers by (eapply in_range_not_string; exact Hin).
  f_equal. induction vs as [| c vs IH]; cbn in *; [reflexivity |].
  apply andb_true_iff in Hin as [Hc Hvs]. rewrite (IH Hvs). f_equal.
  destruct c as [| q | t]; try reflexivity.
  cbn in Hc. apply andb_true_iff in Hc as [Hlo _]. apply Qle_bool_iff in Hlo.
  destruct (Qle_bool q x) eqn:E; [| reflexivity].
  apply Qle_bool_iff in E. exfalso. eapply Qlt_not_le; [exact Hx |].
  eapply Qle_trans; eassumption.
Qed.

Lemma mask_any_all_false {A} (l : list A) : mask_any (map (fun _ => false) l) = false.
Proof. induction l; cbn; auto. Qed.

Lemma within_ranges_lookup d rm c lo hi s :
  within_ranges d rm -> In (c, (lo, hi)) rm -> get_column d c = Some s ->
  forallb (in_range lo hi) (s_values s) = true.
Proof.
  intros Hw Hin Hget. unfold within_ranges in Hw. rewrite List.Forall_forall in Hw.
  exact (Hw _ Hin s Hget).
Qed.

Lemma any_lt_clean d rm c lo hi :
  single_labels d rm = true ->
  within_ranges d rm -> In (c, (lo, hi)) rm -> has_column d c = true -> (0 <= lo)%Q ->
  any_lt d c 0 = ok false.
Proof.
  intros Hs Hw Hin Hc Hlo. rewrite has_column_get in Hc.
  destruct (get_column d c) as [s |] eqn:Hget; [| discriminate].
  unfold any_lt, any_cmp.
  rewrite (getitem_once _ _ _ (labelled_once _ _ _ (single_labels_in _ _ _ _ Hs Hin) Hget)).
  cbn [rbind ok]. fold series_lt.
  rewrite (in_range_any_lt lo hi 0 _ Hlo (within_ranges_lookup _ _ _ _ _ _ Hw Hin Hget)).
  cbn [rbind ok]. rewrite mask_any_all_false. reflexivity.
Qed.

Lemma any_le_clean d rm c lo hi :
  single_labels d rm = true ->
  within_ranges d rm -> In (c, (lo, hi)) rm -> has_column d c = true -> (0 < lo)%Q ->
  any_le d c 0 = ok false.
Proof.
  intros Hs Hw Hin Hc Hlo. rewrite has_column_get in Hc.
  destruct (get_column d c) as [s |] eqn:Hget; [| discriminate].
  unfold any_le, any_cmp.
  rewrite (getitem_once _ _ _ (labelled_once _ _ _ (single_labels_in _ _ _ _ Hs Hin) Hget)).
  cbn [rbind ok]. fold series_le.
  rewrite (in_range_any_le lo hi 0 _ Hlo (within_ranges_lookup _ _ _ _ _ _ Hw Hin Hget)).
  cbn [rbind ok]. rewrite mask_any_all_false. reflexivity.
Qed.

(** A table inside its ranges, bounds included, passes the sign checks
    as well. *)
Lemma sign_checks_clean v d :
  has_required v d = true -> single_labels d (range_map v) = true ->
  within_ranges d (range_map v) -> sign_checks v d = ok tt.
Proof.
  intros Hreq Hs Hw. unfold has_required in Hreq.
  destruct v; cbn in Hreq; repeat (apply andb_true_iff in Hreq as [? Hreq]);
    unfold sign_checks.
  - rewrite (any_lt_clean d _ "depth_m" 0 10000 Hs Hw) by (cbn; auto || easy).
    cbn [rbind ok].
    rewrite (any_le_clean d _ "resistivity_ohm_m" (1 # 1000) 1000000 Hs Hw)
      by (cbn; auto || easy).
    reflexivity.
  - rewrite (any_lt_clean d _ "time_ms" 0 100000 Hs Hw) by (cbn; auto || easy).
    reflexivity.
  - rewrite (any_lt_clean d _ "sample_number" 0 100000 Hs Hw) by (cbn; auto || easy).
    reflexivity.
Qed.


End RangeFacts.

(** The two predicates of the statements, in terms of the order on
    numbers: the interval is closed. *)
Lemma in_range_spec (lo hi q : Q) :
  in_range lo hi (Num q) = true <-> (lo <= q)%Q /\ (q <= hi)%Q.
Proof. cbn. rewrite andb_true_iff, !Qle_bool_iff. reflexivity. Qed.

Lemma outside_spec (lo hi q : Q) :
  outside lo hi (Num q) = true <-> (q < lo)%Q \/ (hi < q)%Q.
Proof. cbn. rewrite orb_true_iff, !Qltb_lt. reflexivity. Qed.




(** The error names the first violating column of the range table: with
    a depth and a resistivity below their minima, it names depth_m. *)
Lemma error_names_first_violating_column :
  In ("resistivity_ohm_m", ((1 # 1000)%Q, 1000000%Q)) (BaseParser.range_map Electrical) /\
  get_column two_columns_out_of_range "resistivity_ohm_m"
    = Some (num_series "resistivity_ohm_m" [0%Q]) /\
  (0 < 1 # 1000)%Q /\
  BaseParser.validate (Some two_columns_out_of_range) (example_parser Electrical)
    = (raise (ValidationError (OutOfRange "depth_m" 1 0 10000)), example_parser Electrical).
Proof.
  split; [cbn; auto |]. split; [reflexivity |]. split; [reflexivity |].
  vm_compute. reflexivity.
Qed.

(** The required-column check comes before the range check: without the
    required columns, a value out of range is not reported. *)
Lemma missing_columns_reported_first :
  BaseParser.validate (Some only_current) (example_parser Electrical)
  = (raise (ValidationError
              (MissingRequiredColumns ["station_id"; "depth_m"; "resistivity_ohm_m"])),
     example_parser Electrical).
Proof. vm_compute. reflexivity. Qed.

(* ===================================================================== *)
(** ** Properties of the standardizer *)
(* ===================================================================== *)

Section StoreFacts.
Import Standardizer.

Lemma fresh_unused (h : gmap positive obj) : h !! fresh (dom h) = None.
Proof. apply not_elem_of_dom. apply is_fresh. Qed.

Lemma st_bind_ok {A B} (m : St A) (k : A -> St B) h b h'' :
  bind m k h = (inr b, h'') ->
  exists a h', m h = (inr a, h') /\ k a h' = (inr b, h'').
Proof.
  unfold bind. destruct (m h) as [[e | a] h1]; [discriminate |]. eauto.
Qed.

Lemma st_bind_run {A B} (m : St A) (k : A -> St B) h a h' :
  m h = (inr a, h') -> bind m k h = k a h'.
Proof. unfold bind. intros ->. reflexivity. Qed.

Lemma post_ret {A} h0 (Q : A -> Prop) a : Q a -> post h0 Q (ret a).
Proof. intros HQ h r h' Hsub [= <- <-]. split; [exact Hsub |]. intros a' [= <-]. exact HQ. Qed.

Lemma post_throw {A} h0 (Q : A -> Prop) e : post h0 Q (throw e).
Proof. intros h r h' Hsub [= <- <-]. split; [exact Hsub |]. intros a' [=]. Qed.

Lemma post_bind {A B} h0 (Q : A -> Prop) (Q' : B -> Prop) (m : St A) (k : A -> St B) :
  post h0 Q m -> (forall a, Q a -> post h0 Q' (k a)) -> post h0 Q' (bind m k).
Proof.
  intros Hm Hk h r h' Hsub Hrun. unfold bind in Hrun.
  destruct (m h) as [[e | a] h1] eqn:Em.
  - injection Hrun as <- <-. destruct (Hm h _ _ Hsub Em) as [Hs _].
    split; [exact Hs |]. intros a [=].
  - destruct (Hm h _ _ Hsub Em) as [Hs HQ].
    exact (Hk a (HQ a eq_refl) h1 r h' Hs Hrun).
Qed.

Lemma post_weaken {A} h0 (Q Q' : A -> Prop) (m : St A) :
  post h0 Q m -> (forall a, Q a -> Q' a) -> post h0 Q' m.
Proof.
  intros Hm Himp h r h' Hsub Hrun. destruct (Hm h r h' Hsub Hrun) as [Hs HQ].
  split; [exact Hs |]. intros a Hr. apply Himp, HQ, Hr.
Qed.

Lemma post_alloc h0 o : post h0 (unused h0) (alloc o).
Proof.
  intros h r h' Hsub [= <- <-].
  assert (Hnone : h0 !! fresh (dom h) = None)
    by (eapply lookup_weaken_None; [apply fresh_unused | exact Hsub]).
  split; [apply insert_subseteq_r; assumption |].
  intros a [= <-]. exact Hnone.
Qed.

Lemma post_read_frame h0 l : post h0 (fun _ => True) (read_frame l).
Proof.
  intros h r h' Hsub. unfold read_frame.
  destruct (h !! l) as [[m | d] |]; intros [= <- <-]; split; auto.
Qed.

Lemma post_read_dict h0 l : post h0 (fun _ => True) (read_dict l).
Proof.
  intros h r h' Hsub. unfold read_dict.
  destruct (h !! l) as [[m | d] |]; intros [= <- <-]; split; auto.
Qed.

(** Writing at an address [h0] does not use leaves [h0] as it is. *)
Lemma post_write h0 l o :
  unused h0 l -> post h0 (fun _ : unit => True) (fun h => (ok tt, <[l := o]> h)).
Proof.
  intros Hl h r h' Hsub [= <- <-]. split; [| auto].
  apply insert_subseteq_r; assumption.
Qed.

Lemma post_dict_setitem h0 l k v :
  unused h0 l -> post h0 (fun _ => True) (dict_setitem l k v).
Proof.
  intros Hl. unfold dict_setitem.
  eapply post_bind; [apply post_read_dict |]. intros m _. apply post_write, Hl.
Qed.

Lemma post_frame_setitem h0 l c f :
  unused h0 l -> post h0 (fun _ => True) (frame_setitem l c f).
Proof.
  intros Hl. unfold frame_setitem.
  eapply post_bind; [apply post_read_frame |]. intros d _.
  destruct (get_column d c); [apply post_write, Hl | apply post_throw].
Qed.

Lemma post_frame_method h0 l f : post h0 (unused h0) (frame_method l f).
Proof.
  unfold frame_method.
  eapply post_bind; [apply post_read_frame |]. intros d _.
  destruct (f d); [apply post_throw | apply post_alloc].
Qed.

Lemma post_apply_common_standards h0 l : post h0 (unused h0) (_apply_common_standards l).
Proof.
  unfold _apply_common_standards.
  eapply post_bind; [apply post_frame_method |]. intros l1 _.
  eapply post_bind; [apply post_frame_method |]. intros l2 _.
  eapply post_bind; [apply post_frame_method |]. intros l3 Hl3.
  apply post_ret, Hl3.
Qed.

Section WithLib.
Context `{PyLib}.

Lemma post_convert_if_present h0 l c f :
  unused h0 l -> post h0 (fun _ => True) (convert_if_present l c f).
Proof.
  intros Hl. unfold convert_if_present.
  eapply post_bind; [apply post_read_frame |]. intros d _.
  destruct (has_column d c); [apply post_frame_setitem, Hl | apply post_ret; exact I].
Qed.

Lemma post_three_conversions h0 l c1 f1 c2 f2 c3 f3 :
  unused h0 l ->
  post h0 (unused h0)
    (convert_if_present l c1 f1 ;;; convert_if_present l c2 f2 ;;;
     convert_if_present l c3 f3 ;;; ret l).
Proof.
  intros Hl.
  eapply post_bind; [apply post_convert_if_present, Hl |]. intros _ _.
  eapply post_bind; [apply post_convert_if_present, Hl |]. intros _ _.
  eapply post_bind; [apply post_convert_if_present, Hl |]. intros _ _.
  apply post_ret, Hl.
Qed.

Lemma post_standardize h0 parsed_data data_type now :
  post h0 (fun out => unused h0 (metadata_at out) /\ unused h0 (data_at out))
       (standardize parsed_data data_type now).
Proof.
  unfold standardize.
  eapply post_bind; [apply post_frame_method |]. intros df Hdf.
  eapply post_bind; [apply post_read_dict |]. intros m _.
  eapply post_bind; [apply post_alloc |]. intros metadata Hmd.
  eapply post_bind; [apply post_dict_setitem, Hmd |]. intros _ _.
  eapply post_bind; [apply post_dict_setitem, Hmd |]. intros _ _.
  eapply post_bind; [apply post_dict_setitem, Hmd |]. intros _ _.
  eapply post_bind; [apply post_apply_common_standards |]. intros df1 Hdf1.
  eapply post_bind with (Q := unused h0).
  - destruct (String.eqb data_type "electrical");
      [apply post_three_conversions, Hdf1 |].
    destruct (String.eqb data_type "seismic");
      [apply post_three_conversions, Hdf1 |].
    destruct (String.eqb data_type "radar");
      [apply post_three_conversions, Hdf1 |].
    apply post_ret, Hdf1.
  - intros df2 Hdf2. apply post_ret. split; assumption.
Qed.

(** A run of standardize that returned has read its two arguments. *)
Lemma standardize_reads_input h parsed_data data_type now out h' :
  standardize parsed_data data_type now h = (inr out, h') ->
  (exists d, h !! data_at parsed_data = Some (OFrame d)) /\
  (exists m, h !! metadata_at parsed_data = Some (ODict m)).
Proof.
  intros Hrun. unfold standardize in Hrun.
  apply st_bind_ok in Hrun as (df & h1 & Hcopy & Hrun).
  apply st_bind_ok in Hrun as (m & h2 & Hread & _).
  unfold frame_method in Hcopy.
  apply st_bind_ok in Hcopy as (d & h0 & Hrd & Halloc).
  unfold read_frame in Hrd.
  destruct (h !! data_at parsed_data) as [[m0 | d0] |] eqn:Hd; try discriminate.
  injection Hrd as <- <-. injection Halloc as <- <-.
  split; [eauto |].
  unfold read_dict in Hread.
  destruct (decide (fresh (dom h) = metadata_at parsed_data)) as [Heq | Hne].
  - rewrite <- Heq, lookup_insert_eq in Hread. discriminate.
  - rewrite lookup_insert_ne in Hread by exact Hne.
    destruct (h !! metadata_at parsed_data) as [[m' | d'] |]; try discriminate. eauto.
Qed.

End WithLib.
End StoreFacts.

(** C9.  standardize leaves every object of the store it is called in as
    it is (the table and the metadata dict of its argument among them),
    whether it returns or raises; the table and the metadata it returns
    live at addresses that held nothing before the call, so they are not
    the argument's. *)
Theorem C9_standardize_leaves_input `{PyLib} (h h' : gmap positive Standardizer.obj)
    (parsed_data : Standardizer.dataset) (data_type now : string)
    (r : result Standardizer.dataset) :
  Standardizer.standardize parsed_data data_type now h = (r, h') ->
  (forall l o, h !! l = Some o -> h' !! l = Some o) /\
  (forall out, r = inr out ->
     h !! Standardizer.metadata_at out = None /\
     h !! Standardizer.data_at out = None /\
     Standardizer.metadata_at out <> Standardizer.metadata_at parsed_data /\
     Standardizer.data_at out <> Standardizer.data_at parsed_data).
Proof.
  intros Hrun.
  destruct (post_standardize h parsed_data data_type now h r h' (reflexivity h) Hrun)
    as [Hsub Hout].
  split.
  - intros l o Hl. eapply lookup_weaken; eassumption.
  - intros out ->. destruct (Hout out eq_refl) as [Hm Hd].
    apply standardize_reads_input in Hrun as [[d Hrd] [m Hrm]].
    repeat split; try assumption.
    + intros Heq. unfold unused in Hm. rewrite Heq, Hrm in Hm. discriminate.
    + intros Heq. unfold unused in Hd. rewrite Heq, Hrd in Hd. discriminate.
Qed.

Lemma C9_standardize_leaves_input_witness :
  exists out h',
    Standardizer.standardize (H := example_lib) example_dataset "electrical"
      "2024-01-01T00:00:00" example_heap = (inr out, h') /\
    (forall l o, example_heap !! l = Some o -> h' !! l = Some o) /\
    example_heap !! Standardizer.metadata_at out = None /\
    example_heap !! Standardizer.data_at out = None /\
    Standardizer.metadata_at out <> Standardizer.metadata_at example_dataset /\
    Standardizer.data_at out <> Standardizer.data_at example_dataset.
Proof.
  eexists _, _.
  assert (Hrun : Standardizer.standardize (H := example_lib) example_dataset "electrical"
                   "2024-01-01T00:00:00" example_heap
                 = (inr (Standardizer.mkDataset 4 7),
                    snd (Standardizer.standardize (H := example_lib) example_dataset
                           "electrical" "2024-01-01T00:00:00" example_heap))).
  { rewrite (surjective_pairing (Standardizer.standardize _ _ _ _)) at 1.
    f_equal; vm_compute; reflexivity. }
  split; [exact Hrun |].
  destruct (C9_standardize_leaves_input (H := example_lib) _ _ _ _ _ _ Hrun)
    as [Hkept Hnew].
  split; [exact Hkept |]. exact (Hnew _ eq_refl).
Defined.

(** The example run returns: the copies live at 3 and 4, the result
    table at 7. *)
Lemma example_standardize_returns :
  fst (Standardizer.standardize (H := example_lib) example_dataset "electrical"
         "2024-01-01T00:00:00" example_heap)
  = inr (Standardizer.mkDataset 4 7).
Proof. vm_compute. reflexivity. Qed.

Section CommonStandards.
Import Standardizer.

Lemma labels_eqb_eq a b : labels_eqb a b = true -> a = b.
Proof.
  revert b. induction a as [| x a IH]; intros [| y b]; cbn; try discriminate; [reflexivity |].
  intros Hab. apply andb_true_iff in Hab as [Hxy Hrest].
  apply String.eqb_eq in Hxy as ->. f_equal. apply IH, Hrest.
Qed.

(** Picking the columns of a table by its own labels gives the columns
    back when no label occurs twice. *)
Lemma pick_own_columns (dflt : string -> Series) (l : list Series) :
  unique_labels (map s_name l) = true ->
  map (fun c => match find (fun s => String.eqb c (s_name s)) l with
                | Some s => s
                | None => dflt c
                end) (map s_name l) = l.
Proof.
  induction l as [| s l IH]; cbn; [reflexivity |].
  intros Hu. apply andb_true_iff in Hu as [Hs Hl].
  rewrite String.eqb_refl. f_equal.
  rewrite <- (IH Hl) at 2. apply map_ext_in. intros c Hc.
  destruct (String.eqb c (s_name s)) eqn:E; [| reflexivity].
  apply String.eqb_eq in E as ->. exfalso.
  apply negb_true_iff in Hs.
  assert (Ht : existsb (String.eqb (s_name s)) (map s_name l) = true).
  { apply existsb_exists. exists (s_name s). split; [exact Hc | apply String.eqb_refl]. }
  congruence.
Qed.

Lemma reindex_sorted (d : DataFrame) :
  unique_labels (columns d) = true ->
  reindex d (sorted (columns d))
  = ok (mkFrame (df_index d)
          (map (fun c => match get_column d c with
                         | Some s => s
                         | None => mkSeries c number (repeat NaN (len d))
                         end) (sorted (columns d)))).
Proof.
  intros Hu. unfold reindex.
  destruct (labels_eqb (columns d) (sorted (columns d))) eqn:E.
  - apply labels_eqb_eq in E. rewrite <- E. unfold get_column, columns in *.
    rewrite pick_own_columns by exact Hu. destruct d; reflexivity.
  - rewrite Hu. reflexivity.
Qed.

Lemma frame_method_run (h : gmap positive obj) l f d d' :
  h !! l = Some (OFrame d) -> f d = inr d' ->
  frame_method l f h = (inr (fresh (dom h)), <[fresh (dom h) := OFrame d']> h).
Proof.
  intros Hl Hf. unfold frame_method, bind, read_frame. rewrite Hl.
  cbv beta iota delta [ok]. rewrite Hf. reflexivity.
Qed.

Lemma dict_setitem_run (h : gmap positive obj) l k v m :
  h !! l = Some (ODict m) ->
  dict_setitem l k v h = (inr tt, <[l := ODict (<[k := v]> m)]> h).
Proof.
  intros Hl. unfold dict_setitem, bind, read_dict. rewrite Hl. reflexivity.
Qed.

(** Common normalization on the table at [l]: a new table, the store
    otherwise as it was. *)
Lemma apply_common_standards_run (h : gmap positive obj) l d :
  h !! l = Some (OFrame d) ->
  unique_labels (columns d) = true ->
  exists l' h',
    _apply_common_standards l h = (inr l', h') /\
    h' !! l' = Some (OFrame (common_standards d)) /\
    h ⊆ h'.
Proof.
  intros Hl Hu. unfold _apply_common_standards.
  set (d1 := mkFrame (df_index d)
               (map (fun c => match get_column d c with
                              | Some s => s
                              | None => mkSeries c number (repeat NaN (len d))
                              end) (sorted (columns d)))).
  set (l1 := fresh (dom h)). set (h1 := <[l1 := OFrame d1]> h).
  set (l2 := fresh (dom h1)). set (h2 := <[l2 := OFrame (dropna_all d1)]> h1).
  set (l3 := fresh (dom h2)).
  set (h3 := <[l3 := OFrame (reset_index (dropna_all d1))]> h2).
  exists l3, h3.
  assert (H1 : frame_method l (fun d => reindex d (sorted (columns d))) h = (inr l1, h1))
    by (eapply frame_method_run; [exact Hl | apply reindex_sorted, Hu]).
  assert (H2 : frame_method l1 (fun d => ok (dropna_all d)) h1 = (inr l2, h2))
    by (eapply frame_method_run; [apply lookup_insert_eq | reflexivity]).
  assert (H3 : frame_method l2 (fun d => ok (reset_index d)) h2 = (inr l3, h3))
    by (eapply frame_method_run; [apply lookup_insert_eq | reflexivity]).
  rewrite (st_bind_run _ _ _ _ _ H1), (st_bind_run _ _ _ _ _ H2),
    (st_bind_run _ _ _ _ _ H3).
  split; [reflexivity |]. split; [apply lookup_insert_eq |].
  transitivity h1; [apply insert_subseteq, fresh_unused |].
  transitivity h2; apply insert_subseteq, fresh_unused.
Qed.

Section WithLib.
Context `{PyLib}.

(** standardize on an unrecognized tag, step by step. *)
Lemma standardize_unknown_tag_run (h : gmap positive obj) parsed_data data_type now m d :
  unknown_tag data_type ->
  h !! metadata_at parsed_data = Some (ODict m) ->
  h !! data_at parsed_data = Some (OFrame d) ->
  unique_labels (columns d) = true ->
  exists out h',
    standardize parsed_data data_type now h = (inr out, h') /\
    h' !! data_at out = Some (OFrame (common_standards d)) /\
    h' !! metadata_at out = Some (ODict (stamped m data_type now)).
Proof.
  intros (He & Hs & Hr) Hm Hd Hu. unfold standardize.
  set (l1 := fresh (dom h)). set (h1 := <[l1 := OFrame d]> h).
  set (l2 := fresh (dom h1)).
  assert (Hl1 : h !! l1 = None) by apply fresh_unused.
  assert (Hl2 : h1 !! l2 = None) by apply fresh_unused.
  assert (Hne1 : l1 <> metadata_at parsed_data) by (intros E; rewrite E, Hm in Hl1; discriminate).
  assert (Hne2 : l2 <> l1).
  { intros E. rewrite E in Hl2. unfold h1 in Hl2. rewrite lookup_insert_eq in Hl2.
    discriminate. }
  (* the two copies *)
  rewrite (st_bind_run _ _ h l1 h1)
    by (eapply frame_method_run; [exact Hd | reflexivity]).
  rewrite (st_bind_run _ _ h1 m h1)
    by (unfold read_dict, h1; rewrite lookup_insert_ne by exact Hne1; rewrite Hm; reflexivity).
  rewrite (st_bind_run _ _ h1 l2 (<[l2 := ODict m]> h1)) by reflexivity.
  (* the three stamps *)
  rewrite (st_bind_run _ _ _ tt _ (dict_setitem_run _ l2 _ _ m (lookup_insert_eq _ _ _))).
  rewrite insert_insert_eq.
  rewrite (st_bind_run _ _ _ tt _ (dict_setitem_run _ l2 _ _ _ (lookup_insert_eq _ _ _))).
  rewrite insert_insert_eq.
  rewrite (st_bind_run _ _ _ tt _ (dict_setitem_run _ l2 _ _ _ (lookup_insert_eq _ _ _))).
  rewrite insert_insert_eq.
  fold (stamped m data_type now).
  set (h5 := <[l2 := ODict (stamped m data_type now)]> h1).
  (* common normalization *)
  assert (Hd5 : h5 !! l1 = Some (OFrame d)).
  { unfold h5, h1. rewrite lookup_insert_ne by exact Hne2. apply lookup_insert_eq. }
  destruct (apply_common_standards_run h5 l1 d Hd5 Hu) as (l' & h' & Hrun & Hl' & Hsub).
  rewrite (st_bind_run _ _ _ _ _ Hrun).
  (* no branch of the dispatch is taken *)
  apply String.eqb_neq in He, Hs, Hr. rewrite He, Hs, Hr.
  exists (mkDataset l2 l'), h'. split; [reflexivity |]. split; [exact Hl' |].
  cbn. eapply lookup_weaken; [| exact Hsub]. apply lookup_insert_eq.
Qed.

End WithLib.
End CommonStandards.

(** C10.  For every tag other than electrical, seismic and radar,
    standardize returns without raising on a stored table whose column
    labels are distinct: the table it returns is the common normalization
    of the input (columns in sorted order, rows that are entirely null
    dropped, index reset) with no cell converted, and the metadata it
    returns is the input metadata stamped, data_type being the given
    tag. *)
Theorem C10_unknown_tag_common_only `{PyLib} (h : gmap positive Standardizer.obj)
    (parsed_data : Standardizer.dataset) (data_type now : string)
    (m : gmap string mval) (d : DataFrame) :
  unknown_tag data_type ->
  h !! Standardizer.metadata_at parsed_data = Some (Standardizer.ODict m) ->
  h !! Standardizer.data_at parsed_data = Some (Standardizer.OFrame d) ->
  Standardizer.unique_labels (columns d) = true ->
  exists out h',
    Standardizer.standardize parsed_data data_type now h = (inr out, h') /\
    h' !! Standardizer.data_at out
      = Some (Standardizer.OFrame (Standardizer.common_standards d)) /\
    h' !! Standardizer.metadata_at out
      = Some (Standardizer.ODict (Standardizer.stamped m data_type now)) /\
    Standardizer.stamped m data_type now !! "data_type" = Some (MStr data_type).
Proof.
  intros Htag Hm Hd Hu.
  destruct (standardize_unknown_tag_run h parsed_data data_type now m d Htag Hm Hd Hu)
    as (out & h' & Hrun & Hdata & Hmeta).
  exists out, h'. repeat split; try assumption.
  unfold Standardizer.stamped. apply lookup_insert_eq.
Qed.

Lemma C10_unknown_tag_common_only_witness :
  unknown_tag "magnetic" /\
  example_heap !! Standardizer.metadata_at example_dataset
    = Some (Standardizer.ODict (<["data_type" := MStr "electrical_resistivity"]> ∅)) /\
  example_heap !! Standardizer.data_at example_dataset
    = Some (Standardizer.OFrame electrical_scenario) /\
  Standardizer.unique_labels (columns electrical_scenario) = true /\
  exists out h',
    Standardizer.standardize (H := example_lib) example_dataset "magnetic"
      "2024-01-01T00:00:00" example_heap = (inr out, h') /\
    h' !! Standardizer.data_at out
      = Some (Standardizer.OFrame (Standardizer.common_standards electrical_scenario)) /\
    h' !! Standardizer.metadata_at out
      = Some (Standardizer.ODict
                (Standardizer.stamped (<["data_type" := MStr "electrical_resistivity"]> ∅)
                   "magnetic" "2024-01-01T00:00:00")) /\
    Standardizer.stamped (<["data_type" := MStr "electrical_resistivity"]> ∅)
      "magnetic" "2024-01-01T00:00:00" !! "data_type" = Some (MStr "magnetic").
Proof.
  assert (Htag : unknown_tag "magnetic") by (repeat split; discriminate).
  assert (Hm : example_heap !! Standardizer.metadata_at example_dataset
               = Some (Standardizer.ODict (<["data_type" := MStr "electrical_resistivity"]> ∅)))
    by (vm_compute; reflexivity).
  assert (Hd : example_heap !! Standardizer.data_at example_dataset
               = Some (Standardizer.OFrame electrical_scenario))
    by (vm_compute; reflexivity).
  assert (Hu : Standardizer.unique_labels (columns electrical_scenario) = true)
    by reflexivity.
  split; [exact Htag |]. split; [exact Hm |]. split; [exact Hd |]. split; [exact Hu |].
  exact (C10_unknown_tag_common_only (H := example_lib) example_heap example_dataset
           "magnetic" "2024-01-01T00:00:00" _ _ Htag Hm Hd Hu).
Defined.

(** The dispatch on the tag at work: as electrical, the text depths
    become numbers (null where the text is no number); under a tag that
    is not recognized they stay as they are. *)
Lemma recognized_tag_converts :
  standardized_table (H := example_lib) text_heap example_dataset "electrical"
  = Some (mkFrame (range_index 2)
            [mkSeries "depth_m" number [Num (1 # 2); NaN];
             str_series "station_id" ["S001"; "S002"]]) /\
  standardized_table (H := example_lib) text_heap example_dataset "magnetic"
  = Some (mkFrame (range_index 2)
            [str_series "depth_m" ["0.5"; "deep"];
             str_series "station_id" ["S001"; "S002"]]).
Proof. split; vm_compute; reflexivity. Qed.

Section WriteFacts.
Import Standardizer.

(** The writer write_output calls is the one of its format. *)
Lemma writer_failure (env : io_env) (fmt : string) (df : DataFrame) (path : string) e :
  (if String.eqb fmt "csv" then df_write env "csv" df path
   else if String.eqb fmt "json" then df_write env "json" df path
   else if String.eqb fmt "excel" then df_write env "excel" df path
   else if String.eqb fmt "parquet" then df_write env "parquet" df path
   else ok tt) = inl e ->
  df_write env fmt df path = inl e.
Proof.
  destruct (String.eqb fmt "csv") eqn:E1;
    [apply String.eqb_eq in E1 as ->; auto |].
  destruct (String.eqb fmt "json") eqn:E2;
    [apply String.eqb_eq in E2 as ->; auto |].
  destruct (String.eqb fmt "excel") eqn:E3;
    [apply String.eqb_eq in E3 as ->; auto |].
  destruct (String.eqb fmt "parquet") eqn:E4;
    [apply String.eqb_eq in E4 as ->; auto |].
  discriminate.
Qed.

(** BaseParser.save_data, the other path that writes a table, wraps the
    failure of the writer. *)
Lemma save_data_wraps (env : io_env) (path : string) (self : BaseParser.Parser)
    (d : DataFrame) e :
  BaseParser.data self = Some d ->
  mkdir env (path_parent path) = ok tt ->
  df_write env "csv" d path = raise e ->
  BaseParser.save_data env path "csv" self = raise (ParserError (FailedToSave e)).
Proof.
  intros Hd Hmk Hw. unfold BaseParser.save_data. rewrite Hd, Hmk. cbn. rewrite Hw.
  reflexivity.
Qed.

End WriteFacts.

(** C4 (as amended).  When write_output fails, the exception it raises is
    the very exception one of the calls it makes raised (creating the
    directory, the table writer of the format, opening the metadata file,
    json.dump): it is passed on as it is, not wrapped. *)
Theorem C4_write_output_passes_failure_on (self : Standardizer.Standardizer)
    (env : io_env) (data : Standardizer.standardized) (output_path : string)
    (include_metadata : bool) (e : exn) :
  Standardizer.write_output self env data output_path include_metadata = raise e ->
  In (raise e) (Standardizer.underlying_failures self env data output_path).
Proof.
  unfold Standardizer.write_output, Standardizer.underlying_failures, raise.
  destruct (mkdir env (path_parent output_path)) as [e0 | []] eqn:Emk; cbn [rbind].
  { intros [= ->]. left. reflexivity. }
  match goal with
  | |- context [rbind ?w _] => destruct w as [e1 | []] eqn:Ew
  end; cbn [rbind].
  { intros [= ->]. right. left. apply writer_failure. exact Ew. }
  destruct (include_metadata && Standardizer.has_metadata data); [| discriminate].
  destruct (open_w env (Standardizer.metadata_path_of output_path)) as [e2 | []] eqn:Eo;
    cbn [rbind].
  { intros [= ->]. right. right. left. reflexivity. }
  intros Hj. right. right. right. left. exact Hj.
Qed.

Lemma C4_write_output_passes_failure_on_witness :
  Standardizer.write_output (Standardizer.mkStandardizer "csv") full_disk_env
    with_plain_metadata "out/result.csv" true = raise (Builtin "OSError") /\
  In (raise (Builtin "OSError"))
     (Standardizer.underlying_failures (Standardizer.mkStandardizer "csv") full_disk_env
        with_plain_metadata "out/result.csv").
Proof.
  assert (Hfail : Standardizer.write_output (Standardizer.mkStandardizer "csv") full_disk_env
                    with_plain_metadata "out/result.csv" true = raise (Builtin "OSError"))
    by reflexivity.
  split; [exact Hfail |].
  exact (C4_write_output_passes_failure_on _ _ _ _ _ _ Hfail).
Defined.

(** C4 as stated fails: a metadata value the JSON encoder rejects makes
    write_output raise TypeError, which is not in the ParserError
    family. *)
Lemma C4_type_error_is_not_wrapped :
  Standardizer.write_output (Standardizer.mkStandardizer "csv") working_env
    with_datetime "out/result.csv" true = raise (Builtin "TypeError") /\
  is_ParserError (Builtin "TypeError") = false.
Proof. split; vm_compute; reflexivity. Qed.

(** The same for a failure of the file system. *)
Lemma permission_error_is_not_wrapped :
  Standardizer.write_output (Standardizer.mkStandardizer "csv") readonly_env
    with_plain_metadata "out/result.csv" true = raise (Builtin "PermissionError") /\
  is_ParserError (Builtin "PermissionError") = false.
Proof. split; reflexivity. Qed.

(* ===================================================================== *)
(** ** More on the QC engine *)
(* ===================================================================== *)

Section QCThresholds.
Context `{PyLib}.
Import QCChecker.

Lemma sum_of_positive_counts (l : list (string * nat)) :
  sum_nat (map snd (List.filter (fun p => (0 <? snd p)%nat) l)) = sum_nat (map snd l).
Proof.
  unfold sum_nat. induction l as [| [c n] l IH]; cbn; [reflexivity |].
  destruct n as [| n]; cbn in *; lia.
Qed.

Lemma some_positive_count (l : list (string * nat)) :
  (0 <? length (List.filter (fun p => (0 <? snd p)%nat) l))%nat
  = (0 <? sum_nat (map snd l))%nat.
Proof.
  induction l as [| [c n] l IH]; cbn; [reflexivity |].
  destruct n as [| n]; cbn; [exact IH | reflexivity].
Qed.

Lemma null_counts_of_series (df : DataFrame) :
  map snd (map (fun s => (s_name s, null_count s)) (df_series df))
  = map null_count (df_series df).
Proof. rewrite map_map. reflexivity. Qed.

(** The missing-values check, by the share of null cells. *)
Lemma _check_missing_values_cases (df : DataFrame) :
  (total_nulls df = 0%nat ->
     _check_missing_values df = mkCheck false None NoMissingValues) /\
  ((0 < total_nulls df)%nat -> (missing_pct df <= 10)%Q ->
     _check_missing_values df
     = mkCheck false (Some true)
         (MissingValuesFound (total_nulls df) (missing_pct df) (affected_columns df))) /\
  ((0 < total_nulls df)%nat -> (10 < missing_pct df)%Q ->
     _check_missing_values df
     = mkCheck true None
         (MissingValuesFound (total_nulls df) (missing_pct df) (affected_columns df))).
Proof.
  unfold _check_missing_values, missing_pct, total_nulls, affected_columns. cbv zeta.
  rewrite some_positive_count, sum_of_positive_counts, null_counts_of_series.
  repeat split.
  - intros ->. reflexivity.
  - intros Hpos Hle. apply Nat.ltb_lt in Hpos. rewrite Hpos.
    unfold Qltb. apply Qle_bool_iff in Hle. rewrite Hle. reflexivity.
  - intros Hpos Hlt. apply Nat.ltb_lt in Hpos. rewrite Hpos.
    apply Qltb_lt in Hlt. rewrite Hlt. reflexivity.
Qed.

Lemma duplicate_message_kind (df : DataFrame) :
  is_missing_message (message_of (_check_duplicates df)) = false.
Proof.
  unfold _check_duplicates.
  repeat match goal with |- context [if ?b then _ else _] => destruct b end; reflexivity.
Qed.

Lemma outlier_message_not_missing (df : DataFrame) :
  is_missing_message (w_message (_check_outliers df)) = false.
Proof. unfold _check_outliers. destruct (omap _ _); reflexivity. Qed.

Lemma consistency_message_not_missing (df : DataFrame) :
  is_missing_message (w_message (_check_consistency df)) = false.
Proof. unfold _check_consistency. destruct (_ ++ _); reflexivity. Qed.

Lemma has_issues_missing_iff (df : DataFrame) :
  has_issues (_check_missing_values df) = false <->
  ((0 < total_nulls df)%nat -> (missing_pct df <= 10)%Q).
Proof.
  destruct (_check_missing_values_cases df) as (H0 & Hw & Hi).
  destruct (Nat.eq_0_gt_0_cases (total_nulls df)) as [Hz | Hpos].
  - rewrite (H0 Hz). split; [intros _ Hlt; lia | reflexivity].
  - destruct (Qlt_le_dec 10 (missing_pct df)) as [Hlt | Hle].
    + rewrite (Hi Hpos Hlt). split; [discriminate |].
      intros Himp. exfalso. eapply Qlt_not_le; [exact Hlt | exact (Himp Hpos)].
    + rewrite (Hw Hpos Hle). split; [intros _ _; exact Hle | reflexivity].
Qed.

Lemma has_issues_duplicates_iff (df : DataFrame) :
  has_issues (_check_duplicates df) = false <->
  ((0 < duplicate_count df)%nat -> (duplicate_pct df <= 5)%Q).
Proof.
  destruct (_check_duplicates_cases df) as (H0 & Hw & Hi). cbv zeta in *.
  fold (duplicate_count df) in *. fold (duplicate_pct df) in *.
  destruct (Nat.eq_0_gt_0_cases (duplicate_count df)) as [Hz | Hpos].
  - rewrite (H0 Hz). split; [intros _ Hlt; lia | reflexivity].
  - destruct (Qlt_le_dec 5 (duplicate_pct df)) as [Hlt | Hle].
    + rewrite (Hi Hpos Hlt). split; [discriminate |].
      intros Himp. exfalso. eapply Qlt_not_le; [exact Hlt | exact (Himp Hpos)].
    + rewrite (Hw Hpos Hle). split; [intros _ _; exact Hle | reflexivity].
Qed.

End QCThresholds.

(** X1.  The missing-values check through [check]: without null cells
    no missing-values message is reported; with null cells making up at
    most 10 % of all cells (exactly 10 % included) the message is a
    warning and no issue; above 10 % it is an issue and the result does
    not pass. *)
Theorem X1_missing_values_threshold `{PyLib} (df : DataFrame) :
  let r := QCChecker.check df in
  let message :=
    QCChecker.MissingValuesFound (total_nulls df) (missing_pct df) (affected_columns df) in
  (total_nulls df = 0%nat ->
     forall m, In m (QCChecker.issues r ++ QCChecker.warnings r) ->
               is_missing_message m = false) /\
  ((0 < total_nulls df)%nat -> (missing_pct df <= 10)%Q ->
     In message (QCChecker.warnings r) /\ ~ In message (QCChecker.issues r)) /\
  ((0 < total_nulls df)%nat -> (10 < missing_pct df)%Q ->
     In message (QCChecker.issues r) /\ QCChecker.passed r = false).
Proof.
  cbv zeta. destruct (_check_missing_values_cases df) as (H0 & Hw & Hi).
  split; [| split].
  - intros Hz m Hin. rewrite check_issues, check_warnings, (H0 Hz) in Hin. cbn in Hin.
    repeat (apply in_app_or in Hin as [Hin | Hin]);
      repeat match type of Hin with
             | In _ (if ?b then _ else _) => destruct b
             | In _ [] => destruct Hin
             | In _ [_] => destruct Hin as [<- | []]
             end;
      first [apply duplicate_message_kind | apply outlier_message_not_missing
            | apply consistency_message_not_missing].
  - intros Hpos Hle. rewrite check_issues, check_warnings, (Hw Hpos Hle). cbn. split.
    + left. reflexivity.
    + intros Hin. destruct (QCChecker.has_issues (QCChecker._check_duplicates df)) eqn:E;
        [| destruct Hin].
      destruct Hin as [Heq | []].
      pose proof (duplicate_message_kind df) as Hk. rewrite Heq in Hk. discriminate.
  - intros Hpos Hlt. rewrite check_passed, check_issues, (Hi Hpos Hlt). cbn.
    split; [left |]; reflexivity.
Qed.

Lemma X1_missing_values_threshold_witness :
  total_nulls one_missing_value = 1%nat /\
  (missing_pct one_missing_value <= 10)%Q /\
  In (QCChecker.MissingValuesFound (total_nulls one_missing_value)
        (missing_pct one_missing_value) (affected_columns one_missing_value))
     (QCChecker.warnings (QCChecker.check (H := example_lib) one_missing_value)).
Proof.
  assert (Hle : (missing_pct one_missing_value <= 10)%Q) by (vm_compute; discriminate).
  split; [reflexivity |]. split; [exact Hle |].
  refine (proj1 (proj1 (proj2 (X1_missing_values_threshold (H := example_lib)
                                 one_missing_value)) _ Hle)).
  vm_compute. constructor.
Defined.

(** X2.  The verdict of [check] depends on the missing-values and the
    duplicate percentages alone: the result passes exactly when null
    cells, if any, are at most 10 % of the cells and duplicate rows, if
    any, are at most 5 % of the rows.  Outliers and consistency findings
    never make it fail. *)
Theorem X2_passed_by_thresholds `{PyLib} (df : DataFrame) :
  QCChecker.passed (QCChecker.check df) = true <->
  ((0 < total_nulls df)%nat -> (missing_pct df <= 10)%Q) /\
  ((0 < duplicate_count df)%nat -> (duplicate_pct df <= 5)%Q).
Proof.
  rewrite <- has_issues_missing_iff, <- has_issues_duplicates_iff.
  rewrite check_passed, check_issues.
  destruct (QCChecker.has_issues (QCChecker._check_missing_values df));
    destruct (QCChecker.has_issues (QCChecker._check_duplicates df)); cbn;
    intuition discriminate.
Qed.

(** X3.  Whatever the table, [check] reports the four checks in the same
    order, its summary counts are the lengths of the two lists and the
    shape of the table, and it holds at most two issues and at most
    three warnings. *)
Theorem X3_result_shape `{PyLib} (df : DataFrame) :
  let r := QCChecker.check df in
  QCChecker.checks_run r = ["missing_values"; "duplicates"; "outliers"; "consistency"] /\
  QCChecker.issues_found (QCChecker.summary_of r) = length (QCChecker.issues r) /\
  QCChecker.warnings_found (QCChecker.summary_of r) = length (QCChecker.warnings r) /\
  QCChecker.total_records (QCChecker.summary_of r) = len df /\
  QCChecker.total_columns (QCChecker.summary_of r) = length (columns df) /\
  (length (QCChecker.issues r) <= 2)%nat /\
  (length (QCChecker.warnings r) <= 3)%nat.
Proof.
  cbv zeta. unfold QCChecker.check.
  destruct (QCChecker.has_issues (QCChecker._check_missing_values df));
    [| destruct (QCChecker.truthy (QCChecker.has_warnings
                                     (QCChecker._check_missing_values df)))];
    destruct (QCChecker.has_issues (QCChecker._check_duplicates df));
    destruct (QCChecker.w_has_warnings (QCChecker._check_outliers df));
    destruct (QCChecker.w_has_warnings (QCChecker._check_consistency df));
    cbn; repeat split; lia.
Qed.

Section DuplicatedFacts.

Lemma duplicated_from_length seen rs : length (duplicated_from seen rs) = length rs.
Proof. revert seen. induction rs as [| r rs IH]; intros seen; cbn; auto. Qed.

(** A row is flagged exactly when an equal row was seen or precedes
    it. *)
Lemma duplicated_from_nth seen rs i :
  nth i (duplicated_from seen rs) false = true <->
  (i < length rs)%nat /\
  (existsb (row_eqb (nth i rs [])) seen = true \/
   exists j, (j < i)%nat /\ row_eqb (nth i rs []) (nth j rs []) = true).
Proof.
  revert seen i. induction rs as [| r rs IH]; intros seen i.
  - destruct i; cbn; split; intros; try discriminate; lia.
  - destruct i as [| i]; cbn [duplicated_from nth length].
    + split.
      * intros Hex. split; [lia | left; exact Hex].
      * intros [_ [Hex | (j & Hj & _)]]; [exact Hex | lia].
    + rewrite IH. cbn [existsb]. split.
      * intros [Hlt [Hex | (j & Hj & Heq)]].
        -- split; [lia |]. apply orb_true_iff in Hex as [Hr | Hs].
           ++ right. exists 0%nat. split; [lia | exact Hr].
           ++ left. exact Hs.
        -- split; [lia |]. right. exists (S j). split; [lia | exact Heq].
      * intros [Hlt [Hex | (j & Hj & Heq)]].
        -- split; [lia |]. left. rewrite Hex. apply orb_true_r.
        -- split; [lia |]. destruct j as [| j].
           ++ left. cbn in Heq. rewrite Heq. reflexivity.
           ++ right. exists j. split; [lia | exact Heq].
Qed.

Lemma rows_length (df : DataFrame) : length (rows df) = len df.
Proof. unfold rows. rewrite length_map, length_seq. reflexivity. Qed.

Lemma rows_nth (df : DataFrame) i :
  (i < len df)%nat -> nth i (rows df) [] = row_at df i.
Proof.
  intros Hi. unfold rows.
  rewrite (nth_indep _ [] (row_at df 0)) by (rewrite length_map, length_seq; exact Hi).
  rewrite map_nth, seq_nth by exact Hi. reflexivity.
Qed.

(** With a column, or without a row, the mask is that of the rows. *)
Lemma duplicated_with_columns (df : DataFrame) :
  df_series df <> [] -> duplicated df = duplicated_from [] (rows df).
Proof.
  intros Hcols. unfold duplicated, df_empty.
  destruct (len df =? 0)%nat eqn:Elen; cbn [orb].
  - apply Nat.eqb_eq in Elen. unfold rows. rewrite Elen. reflexivity.
  - destruct (df_series df); [contradiction | reflexivity].
Qed.

Lemma duplicated_nth (df : DataFrame) (i : nat) :
  df_series df <> [] ->
  nth i (duplicated df) false = true <->
  (i < len df)%nat /\
  exists j, (j < i)%nat /\ row_eqb (row_at df i) (row_at df j) = true.
Proof.
  intros Hcols. rewrite (duplicated_with_columns df Hcols).
  rewrite duplicated_from_nth, rows_length. split.
  - intros [Hi [Hex | (j & Hj & Heq)]]; [discriminate |].
    split; [exact Hi |]. exists j. split; [exact Hj |].
    rewrite !rows_nth in Heq by lia. exact Heq.
  - intros [Hi (j & Hj & Heq)]. split; [exact Hi |]. right.
    exists j. split; [exact Hj |]. rewrite !rows_nth by lia. exact Heq.
Qed.

Lemma count_true_zero (mask : list bool) :
  count_true mask = 0%nat <-> forall i, nth i mask false = false.
Proof.
  unfold count_true. induction mask as [| b mask IH]; cbn.
  - split; [intros _ [| i]; reflexivity | reflexivity].
  - destruct b; cbn.
    + split; [discriminate | intros Hall; specialize (Hall 0%nat); discriminate].
    + rewrite IH. split.
      * intros Hall [| i]; [reflexivity | apply Hall].
      * intros Hall i. exact (Hall (S i)).
Qed.

End DuplicatedFacts.

(** X4.  The duplicate check counts the rows that repeat an earlier
    one.  On a table with at least one column, df.duplicated() flags the
    row at position i exactly when a row at an earlier position is equal
    to it (all cells equal, null equal to null), so the first occurrence
    of a row is never flagged, and _check_duplicates answers "No
    duplicates found" exactly when no two rows are equal.  On a table
    without columns nothing is flagged, whatever its number of rows. *)
Theorem X4_duplicated_keeps_first (df : DataFrame) :
  (df_series df <> [] ->
   forall i, nth i (duplicated df) false = true <->
             (i < len df)%nat /\
             exists j, (j < i)%nat /\ row_eqb (row_at df i) (row_at df j) = true) /\
  (df_series df <> [] ->
   (QCChecker.message_of (QCChecker._check_duplicates df) = QCChecker.NoDuplicates <->
    forall i j, (j < i)%nat -> (i < len df)%nat ->
                row_eqb (row_at df i) (row_at df j) = false)) /\
  (df_series df = [] ->
   QCChecker._check_duplicates df = QCChecker.mkCheck false None QCChecker.NoDuplicates).
Proof.
  split; [| split].
  - intros Hcols i. apply duplicated_nth. exact Hcols.
  - intros Hcols. unfold QCChecker._check_duplicates. cbv zeta.
    destruct (0 <? count_true (duplicated df))%nat eqn:Ecount.
    + split.
      * destruct (Qltb 5 _); discriminate.
      * intros Hnone. exfalso. apply Nat.ltb_lt in Ecount.
        assert (Hz : count_true (duplicated df) = 0%nat); [| lia].
        apply count_true_zero. intros i.
        destruct (nth i (duplicated df) false) eqn:Ei; [| reflexivity].
        apply (duplicated_nth df i Hcols) in Ei as [Hi (j & Hj & Heq)].
        rewrite (Hnone i j Hj Hi) in Heq. discriminate.
    + split; [| reflexivity].
      intros _ i j Hj Hi. apply Nat.ltb_ge in Ecount.
      assert (Hz : count_true (duplicated df) = 0%nat) by lia.
      destruct (row_eqb (row_at df i) (row_at df j)) eqn:Heq; [| reflexivity].
      rewrite count_true_zero in Hz. rewrite <- (Hz i).
      symmetry. apply (duplicated_nth df i Hcols). split; [exact Hi |].
      exists j. split; assumption.
  - intros Hnone. unfold QCChecker._check_duplicates, duplicated, df_empty.
    rewrite Hnone. cbn [length Nat.eqb]. rewrite orb_true_r. reflexivity.
Qed.

Lemma X4_duplicated_keeps_first_witness :
  df_series twenty_rows_one_duplicate <> [] /\
  (nth 19 (duplicated twenty_rows_one_duplicate) false = true <->
   (19 < len twenty_rows_one_duplicate)%nat /\
   exists j, (j < 19)%nat /\
             row_eqb (row_at twenty_rows_one_duplicate 19)
                     (row_at twenty_rows_one_duplicate j) = true).
Proof.
  split; [discriminate |].
  apply (proj1 (X4_duplicated_keeps_first twenty_rows_one_duplicate)). discriminate.
Defined.

(* ===================================================================== *)
(** ** More on validation *)
(* ===================================================================== *)

Section ValidationFacts.
Import BaseParser.

Lemma series_cmp_ok_not_string cmp vs x m :
  series_cmp cmp vs x = inr m -> forallb not_string vs = true.
Proof.
  revert m. induction vs as [| c vs IH]; intros m; cbn; [reflexivity |].
  destruct c as [| q | t]; cbn; try discriminate;
    destruct (series_cmp cmp vs x) as [e | m'] eqn:E; cbn; try discriminate;
    intros _; exact (IH m' eq_refl).
Qed.

Lemma none_outside_in_range lo hi vs :
  forallb not_string vs = true ->
  count_true (map (outside lo hi) vs) = 0%nat ->
  forallb (in_range lo hi) vs = true.
Proof.
  unfold count_true.
  induction vs as [| c vs IH]; cbn; [reflexivity |].
  intros Hns. apply andb_true_iff in Hns as [Hc Hvs].
  destruct c as [| q | t]; cbn in *; try discriminate; try (exact (IH Hvs)).
  unfold Qltb.
  destruct (Qle_bool lo q), (Qle_bool q hi); cbn; try discriminate; exact (IH Hvs).
Qed.

(** What a range check that returned says about the table. *)
Lemma check_ok_single_labels d rm :
  _check_value_ranges d rm = ok tt -> single_labels d rm = true.
Proof.
  induction rm as [| [c [lo hi]] rm IH]; [reflexivity |].
  cbn [single_labels forallb fst].
  destruct (length (columns_labelled d c) <=? 1)%nat eqn:Hlen.
  - cbn [andb]. cbn [_check_value_ranges].
    destruct (negb (has_column d c)); [exact IH |].
    destruct (getitem d c) as [e | [s | cols]] eqn:Hitem; cbn [rbind]; [discriminate | |].
    + destruct (series_lt (s_values s) lo) as [e | below]; cbn [rbind]; [discriminate |].
      destruct (series_gt (s_values s) hi) as [e | above]; cbn [rbind]; [discriminate |].
      destruct (0 <? _)%nat; [discriminate | exact IH].
    + destruct (frame_cmp Qltb cols lo); cbn [rbind]; [discriminate |].
      destruct (frame_cmp _ cols hi); cbn [rbind]; discriminate.
  - destruct (check_entry_several d c lo hi rm Hlen) as [cls Hraise].
    rewrite Hraise. discriminate.
Qed.

Lemma check_ok_within_ranges d rm :
  _check_value_ranges d rm = ok tt -> within_ranges d rm.
Proof.
  intros Hok. pose proof (check_ok_single_labels d rm Hok) as Hs. revert Hok Hs.
  induction rm as [| [c [lo hi]] rm IH]; [constructor |].
  intros Hok Hs. cbn in Hs. apply andb_true_iff in Hs as [Hone Hs]. revert Hok.
  destruct (get_column d c) as [s |] eqn:Hget.
  - cbn [_check_value_ranges]. rewrite has_column_get, Hget. cbn [negb].
    rewrite (getitem_once _ _ _ (labelled_once _ _ _ Hone Hget)). cbn [rbind ok].
    destruct (series_lt (s_values s) lo) as [e | below] eqn:Elt; [discriminate |].
    assert (Hns : forallb not_string (s_values s) = true)
      by (eapply series_cmp_ok_not_string; exact Elt).
    unfold series_lt in Elt. rewrite series_cmp_numbers in Elt by exact Hns.
    injection Elt as <-. unfold series_gt. rewrite series_cmp_numbers by exact Hns.
    cbn [rbind ok]. rewrite out_of_range_count.
    destruct (0 <? count_true (map (outside lo hi) (s_values s)))%nat eqn:Ecount;
      [discriminate |].
    intros Hrest. constructor; [| exact (IH Hrest Hs)].
    cbn [fst snd]. intros s' Hs'. rewrite Hget in Hs'. injection Hs' as <-.
    apply none_outside_in_range; [exact Hns |].
    apply Nat.ltb_ge in Ecount. lia.
  - rewrite check_entry_absent by (rewrite has_column_get, Hget; reflexivity).
    intros Hrest. constructor; [| exact (IH Hrest Hs)].
    cbn [fst]. intros s' Hs'. rewrite Hget in Hs'. discriminate.
Qed.

Lemma required_check_ok_iff v d :
  _check_required_columns d (required v) = ok tt <-> has_required v d = true.
Proof.
  split; [| apply required_columns_present].
  unfold _check_required_columns, has_required.
  induction (required v) as [| c l IH]; cbn; [reflexivity |].
  destruct (has_column d c); cbn; [exact IH | discriminate].
Qed.

Lemma required_check_absent v d :
  has_required v d = false ->
  _check_required_columns d (required v)
  = raise (ValidationError (MissingRequiredColumns (absent_required v d))) /\
  absent_required v d <> [].
Proof.
  intros Hreq. unfold _check_required_columns. fold (absent_required v d).
  destruct (absent_required v d) as [| c l] eqn:E; [| split; [reflexivity | discriminate]].
  exfalso. assert (Hok : _check_required_columns d (required v) = ok tt).
  { unfold _check_required_columns. fold (absent_required v d). rewrite E. reflexivity. }
  apply required_check_ok_iff in Hok. congruence.
Qed.

(** validate on a table, in terms of its checks. *)
Lemma validate_table d self :
  validate (Some d) self
  = match validate_checks (variant_of self) d with
    | inl e => (raise e, self)
    | inr _ => (ok true, mark_validated self)
    end.
Proof.
  unfold validate, bind, get, lift. cbn.
  destruct (validate_checks (variant_of self) d); reflexivity.
Qed.

Lemma validate_checks_ok_iff v d :
  validate_checks v d = ok tt <->
  has_required v d = true /\ single_labels d (range_map v) = true /\
  within_ranges d (range_map v).
Proof.
  unfold validate_checks. split.
  - destruct (_check_required_columns d (required v)) as [e | []] eqn:Ereq; [discriminate |].
    apply required_check_ok_iff in Ereq. cbn [rbind].
    destruct (_check_value_ranges d (range_map v)) as [e | []] eqn:Erange; [discriminate |].
    intros _. split; [exact Ereq |].
    split; [apply check_ok_single_labels | apply check_ok_within_ranges]; exact Erange.
  - intros (Hreq & Hs & Hw).
    rewrite (required_columns_present _ _ Hreq), (check_within_ranges _ _ Hs Hw).
    cbn [rbind]. apply sign_checks_clean; assumption.
Qed.

(** The sign checks never raise: when they are reached, the range check
    has passed. *)
Lemma validate_checks_no_sign_error v d e :
  validate_checks v d = inl e -> is_sign_error e = false.
Proof.
  unfold validate_checks.
  destruct (_check_required_columns d (required v)) as [e0 | []] eqn:Ereq.
  - unfold _check_required_columns in Ereq.
    destruct (List.filter _ _); [discriminate |]. injection Ereq as <-.
    intros [= <-]. reflexivity.
  - cbn [rbind]. apply required_check_ok_iff in Ereq.
    destruct (_check_value_ranges d (range_map v)) as [e1 | []] eqn:Erange.
    + intros [= <-]. clear Ereq. revert Erange.
      induction (range_map v) as [| [c [lo hi]] rm IH]; [discriminate |].
      destruct (length (columns_labelled d c) <=? 1)%nat eqn:Hlen;
        [| destruct (check_entry_several d c lo hi rm Hlen) as [cls ->];
           intros [= <-]; reflexivity].
      cbn [_check_value_ranges]. destruct (negb (has_column d c)); [exact IH |].
      destruct (getitem d c) as [e2 | [s | cols]] eqn:Hitem; cbn [rbind ok raise].
      { intros [= <-]. revert Hitem. unfold getitem.
        destruct (columns_labelled d c) as [| s0 [| s1 l]]; try discriminate.
        intros [= <-]. reflexivity. }
      2:{ exfalso. revert Hitem Hlen. unfold getitem.
          destruct (columns_labelled d c) as [| s0 [| s1 l]]; discriminate. }
      destruct (series_lt (s_values s) lo) as [e2 | below] eqn:Elt; cbn [rbind].
      { intros [= <-]. unfold series_lt in Elt. clear - Elt.
        revert Elt. induction (s_values s) as [| x vs IHvs]; cbn; [discriminate |].
        destruct x; cbn; try (intros [= <-]; reflexivity);
          destruct (series_cmp Qltb vs lo); cbn; try discriminate;
          intros [= <-]; apply IHvs; reflexivity. }
      destruct (series_gt (s_values s) hi) as [e3 | above] eqn:Egt; cbn [rbind].
      { intros [= <-]. unfold series_gt in Egt. clear - Egt.
        revert Egt. induction (s_values s) as [| x vs IHvs]; cbn; [discriminate |].
        destruct x; cbn; try (intros [= <-]; reflexivity);
          destruct (series_cmp _ vs hi); cbn; try discriminate;
          intros [= <-]; apply IHvs; reflexivity. }
      destruct (0 <? _)%nat; [intros [= <-]; reflexivity | exact IH].
    + cbn [rbind]. pose proof (check_ok_single_labels _ _ Erange) as Hs.
      apply check_ok_within_ranges in Erange.
      rewrite (sign_checks_clean _ _ Ereq Hs Erange). discriminate.
Qed.

End ValidationFacts.

(** X5.  validate accepts a table exactly when the table has every
    required column of the variant, no range-checked label is carried
    by two columns, and every value of every present range-checked
    column lies in its closed interval (null cells aside); it then
    returns true and sets is_validated, nothing else. *)
Theorem X5_validate_accepts_iff (self : BaseParser.Parser) (d : DataFrame) :
  ((exists b self', BaseParser.validate (Some d) self = (inr b, self')) <->
   has_required (BaseParser.variant_of self) d = true /\
   single_labels d (BaseParser.range_map (BaseParser.variant_of self)) = true /\
   within_ranges d (BaseParser.range_map (BaseParser.variant_of self))) /\
  (forall b self', BaseParser.validate (Some d) self = (inr b, self') ->
                   b = true /\ self' = mark_validated self).
Proof.
  rewrite validate_table, <- validate_checks_ok_iff.
  destruct (BaseParser.validate_checks (BaseParser.variant_of self) d) as [e | []].
  - split; [split |].
    + intros (b & self' & Heq). discriminate.
    + discriminate.
    + intros b self' Heq. discriminate.
  - split; [split |].
    + reflexivity.
    + intros _. eauto.
    + intros b self' [= <- <-]. split; reflexivity.
Qed.

(** X6.  The errors of the variant-specific sign checks ("Depth values
    cannot be negative", "Resistivity values must be positive", "Time
    values cannot be negative", "Sample numbers cannot be negative") are
    never raised by validate: a value they would reject is already
    reported by the range check as out of range. *)
Theorem X6_sign_errors_never_raised (table : option DataFrame) (self self' : BaseParser.Parser)
    (e : exn) :
  BaseParser.validate table self = (inl e, self') -> is_sign_error e = false.
Proof.
  destruct table as [d |].
  - rewrite validate_table.
    destruct (BaseParser.validate_checks (BaseParser.variant_of self) d) as [e0 | []] eqn:E;
      [| discriminate].
    intros [= <- _]. eapply validate_checks_no_sign_error. exact E.
  - unfold BaseParser.validate, BaseParser.bind, BaseParser.get. cbn.
    destruct (BaseParser.data self) as [d |] eqn:Hd.
    + pose proof (validate_table d self) as Ht.
      unfold BaseParser.validate, BaseParser.bind, BaseParser.get in Ht. cbn in Ht.
      rewrite Ht.
      destruct (BaseParser.validate_checks (BaseParser.variant_of self) d) as [e0 | []] eqn:E;
        [| discriminate].
      intros [= <- _]. eapply validate_checks_no_sign_error. exact E.
    + intros [= <- _]. reflexivity.
Qed.

Lemma X6_sign_errors_never_raised_witness :
  BaseParser.validate (Some two_columns_out_of_range) (example_parser Electrical)
    = (inl (ValidationError (OutOfRange "depth_m" 1 0 10000)), example_parser Electrical) /\
  is_sign_error (ValidationError (OutOfRange "depth_m" 1 0 10000)) = false.
Proof.
  assert (Hrun : BaseParser.validate (Some two_columns_out_of_range)
                   (example_parser Electrical)
                 = (inl (ValidationError (OutOfRange "depth_m" 1 0 10000)),
                    example_parser Electrical))
    by (vm_compute; reflexivity).
  split; [exact Hrun |].
  exact (X6_sign_errors_never_raised _ _ _ _ Hrun).
Defined.

(** X7.  When the table lacks a required column, validate raises
    ValidationError listing every missing required column, in the order
    of the variant's required list, before any value is looked at, and
    leaves the instance as it was. *)
Theorem X7_missing_columns_listed (self : BaseParser.Parser) (d : DataFrame) :
  has_required (BaseParser.variant_of self) d = false ->
  BaseParser.validate (Some d) self
  = (raise (ValidationError
              (MissingRequiredColumns (absent_required (BaseParser.variant_of self) d))),
     self) /\
  absent_required (BaseParser.variant_of self) d <> [] /\
  (forall c, In c (absent_required (BaseParser.variant_of self) d) <->
             In c (BaseParser.required (BaseParser.variant_of self)) /\
             has_column d c = false).
Proof.
  intros Hreq. destruct (required_check_absent _ _ Hreq) as [Hraise Hne].
  split; [| split; [exact Hne |]].
  - rewrite validate_table. unfold BaseParser.validate_checks. rewrite Hraise. reflexivity.
  - intros c. unfold absent_required. rewrite filter_In, negb_true_iff. reflexivity.
Qed.

Lemma X7_missing_columns_listed_witness :
  has_required Electrical only_current = false /\
  BaseParser.validate (Some only_current) (example_parser Electrical)
  = (raise (ValidationError
              (MissingRequiredColumns (absent_required Electrical only_current))),
     example_parser Electrical).
Proof.
  split; [reflexivity |].
  exact (proj1 (X7_missing_columns_listed (example_parser Electrical) only_current eq_refl)).
Defined.

(* ===================================================================== *)
(** ** More on the parsers *)
(* ===================================================================== *)

Section ParserErrors.
Context `{PyLib}.
Import BaseParser.





End ParserErrors.

(** X8.  load, parse and validate are all-or-nothing: when one of them
    raises, the instance (flags, raw text, table, metadata) is exactly
    as it was before the call. *)
Theorem X8_failed_call_changes_nothing `{PyLib} (io : result string)
    (table : option DataFrame) (self self' : BaseParser.Parser) (e : exn) :
  BaseParser.load io self = (inl e, self') \/
  BaseParser.parse self = (inl e, self') \/
  BaseParser.validate table self = (inl e, self') ->
  self' = self.
Proof.
  intros [Hl | [Hp | Hv]].
  - eapply load_raises; exact Hl.
  - eapply parse_raises; exact Hp.
  - eapply validate_raises; exact Hv.
Qed.

Lemma X8_failed_call_changes_nothing_witness :
  (BaseParser.load (raise (Builtin "UnicodeDecodeError")) (example_parser Seismic)
   = (inl (ParserError (FailedToLoad Seismic (Builtin "UnicodeDecodeError"))),
      example_parser Seismic) \/
   BaseParser.parse (H := example_lib) (example_parser Seismic)
   = (inl (ParserError (FailedToLoad Seismic (Builtin "UnicodeDecodeError"))),
      example_parser Seismic) \/
   BaseParser.validate None (example_parser Seismic)
   = (inl (ParserError (FailedToLoad Seismic (Builtin "UnicodeDecodeError"))),
      example_parser Seismic)) /\
  example_parser Seismic = example_parser Seismic.
Proof.
  assert (Hrun : BaseParser.load (raise (Builtin "UnicodeDecodeError"))
                   (example_parser Seismic)
                 = (inl (ParserError (FailedToLoad Seismic (Builtin "UnicodeDecodeError"))),
                    example_parser Seismic)) by reflexivity.
  split; [left; exact Hrun |].
  exact (X8_failed_call_changes_nothing (H := example_lib) _ None _ _ _ (or_introl Hrun)).
Defined.



Section AliasFacts.
Import BaseParser.

Lemma find_in_filtered {A} (p q : A -> bool) (l : list A) :
  (forall x, p x = true -> q x = true) -> find p (List.filter q l) = find p l.
Proof.
  intros Hpq. induction l as [| x l IH]; cbn; [reflexivity |].
  destruct (q x) eqn:Eq; cbn.
  - destruct (p x); [reflexivity | exact IH].
  - destruct (p x) eqn:Ep; [| exact IH]. apply Hpq in Ep. congruence.
Qed.

Lemma has_own_column (d : DataFrame) (s : Series) :
  In s (df_series d) -> has_column d (s_name s) = true.
Proof.
  intros Hin. unfold has_column, columns. apply existsb_exists.
  exists (s_name s). split; [apply in_map; exact Hin | apply String.eqb_refl].
Qed.

(** Renaming does not depend on which aliases occur in the table: every
    label is replaced by its canonical name. *)
Lemma rename_is_relabel (v : variant) (d : DataFrame) :
  _standardize_column_names d (column_map v)
  = mkFrame (df_index d) (map (relabel v) (df_series d)).
Proof.
  unfold _standardize_column_names. f_equal. apply map_ext_in. intros s Hin.
  unfold relabel, canonical. f_equal.
  rewrite find_in_filtered; [reflexivity |].
  intros kv Hkv. apply String.eqb_eq in Hkv. rewrite <- Hkv.
  apply has_own_column. exact Hin.
Qed.

(** The targets of the alias tables are canonical themselves. *)
Lemma targets_are_canonical (v : variant) :
  forallb (fun kv => String.eqb (canonical v (snd kv)) (snd kv)) (column_map v) = true.
Proof. destruct v; vm_compute; reflexivity. Qed.

Lemma canonical_idempotent (v : variant) (label : string) :
  canonical v (canonical v label) = canonical v label.
Proof.
  unfold canonical at 2 3.
  destruct (find (fun kv => String.eqb label (fst kv)) (column_map v)) as [kv |] eqn:E.
  - apply find_some in E as [Hin _].
    pose proof (targets_are_canonical v) as Ht. rewrite forallb_forall in Ht.
    apply String.eqb_eq. exact (Ht kv Hin).
  - unfold canonical. rewrite E. reflexivity.
Qed.

End AliasFacts.

(** X10.  Column renaming in parse replaces every label by its canonical
    name under the alias table of the variant (a label that is no alias
    stays as it is) and touches nothing else: index, column order, types
    and values are kept; renaming a renamed table changes nothing. *)
Theorem X10_rename_to_canonical (v : variant) (d : DataFrame) :
  let renamed := BaseParser._standardize_column_names d (BaseParser.column_map v) in
  columns renamed = map (canonical v) (columns d) /\
  df_index renamed = df_index d /\
  map s_values (df_series renamed) = map s_values (df_series d) /\
  map s_dtype (df_series renamed) = map s_dtype (df_series d) /\
  BaseParser._standardize_column_names renamed (BaseParser.column_map v) = renamed.
Proof.
  cbv zeta. rewrite !rename_is_relabel. unfold columns. cbn [df_series df_index].
  rewrite !map_map. cbn [relabel s_name s_values s_dtype].
  repeat split. f_equal. apply map_ext. intros s. unfold relabel. cbn.
  rewrite canonical_idempotent. reflexivity.
Qed.

Section MetadataFacts.
Context `{PyLib}.
Import BaseParser.

Lemma update_lookup_other (md : list (string * mval)) (m : gmap string mval) k :
  ~ In k (map fst md) ->
  fold_left (fun m kv => <[fst kv := snd kv]> m) md m !! k = m !! k.
Proof.
  revert m. induction md as [| [k' v] md IH]; intros m Hk; cbn; [reflexivity |].
  cbn in Hk. rewrite IH by tauto. apply lookup_insert_ne. tauto.
Qed.

Lemma update_lookup_some (md : list (string * mval)) (m : gmap string mval) k :
  is_Some (m !! k) ->
  is_Some (fold_left (fun m kv => <[fst kv := snd kv]> m) md m !! k).
Proof.
  revert m. induction md as [| [k' v] md IH]; intros m Hk; cbn; [exact Hk |].
  apply IH. destruct (decide (k' = k)) as [-> | Hne].
  - rewrite lookup_insert_eq. eauto.
  - rewrite lookup_insert_ne by exact Hne. exact Hk.
Qed.



(** A summary is a plain value exactly when one column at most carries
    the label. *)
Lemma nunique_of_plain df c v :
  nunique_of df c = inr v ->
  (no_foreign v = true <-> (length (columns_labelled df c) <=? 1)%nat = true).
Proof.
  unfold nunique_of. rewrite has_column_get, get_column_labelled. unfold getitem.
  destruct (columns_labelled df c) as [| s0 [| s1 l]]; cbn; intros [= <-];
    split; (reflexivity || discriminate).
Qed.

Lemma frame_reduce_value reduce cols v :
  frame_reduce reduce cols = inr v -> v = MOther "Series".
Proof.
  induction cols as [| s cols IH]; cbn; [intros [= <-]; reflexivity |].
  destruct (reduce (s_values s)); cbn; [discriminate | exact IH].
Qed.

Lemma range_of_plain df c v :
  range_of df c = inr v ->
  (no_foreign v = true <-> (length (columns_labelled df c) <=? 1)%nat = true).
Proof.
  unfold range_of. rewrite has_column_get, get_column_labelled. unfold getitem.
  destruct (columns_labelled df c) as [| s0 [| s1 l]]; cbn [hd_error rbind ok].
  - intros [= <-]. split; reflexivity.
  - destruct (series_min (s_values s0)) as [e | lo]; cbn; [discriminate |].
    destruct (series_max (s_values s0)) as [e | hi]; cbn; [discriminate |].
    intros [= <-]. destruct lo, hi; split; reflexivity.
  - destruct (frame_reduce series_min _) as [e | lo] eqn:Elo; cbn [rbind]; [discriminate |].
    destruct (frame_reduce series_max _) as [e | hi] eqn:Ehi; cbn [rbind]; [discriminate |].
    intros [= <-]. apply frame_reduce_value in Elo as ->. split; discriminate.
Qed.

(** The dict parse() merges into the metadata. *)
Lemma parse_metadata_shape v df md :
  parse_metadata v df = inr md ->
  (forall k, In k constructor_keys -> ~ In k (map fst md)) /\
  (forall m : gmap string mval,
      fold_left (fun m kv => <[fst kv := snd kv]> m) md m !! "record_count"
      = Some (MInt (len df))) /\
  NoDup (map fst md) /\
  (Forall (fun kv => no_foreign (snd kv) = true) md <-> summarised_once v df = true).
Proof.
  unfold parse_metadata, summarised_once. destruct v; cbn [summarised forallb].
  - destruct (nunique_of df "station_id") as [e | a] eqn:Ea; cbn [rbind]; [discriminate |].
    destruct (range_of df "depth_m") as [e | b] eqn:Eb; cbn [rbind]; [discriminate |].
    destruct (range_of df "resistivity_ohm_m") as [e | c] eqn:Ec; cbn [rbind];
      [discriminate |].
    intros [= <-]. apply nunique_of_plain in Ea. apply range_of_plain in Eb, Ec.
    split; [| split; [| split]].
    + intros k Hk Hin. cbn in Hk, Hin. intuition (subst; discriminate).
    + intros m. cbn. rewrite !lookup_insert_ne by discriminate. apply lookup_insert_eq.
    + cbn [map fst]. apply (bool_decide_unpack _). vm_compute. exact I.
    + rewrite !Forall_cons_iff, !andb_true_iff. cbn [snd]. rewrite Ea, Eb, Ec.
      split; [intros (_ & _ & ? & ? & ? & _) | intros (? & ? & ? & _)];
        repeat split; first [assumption | reflexivity | constructor].
  - destruct (nunique_of df "trace_number") as [e | a] eqn:Ea; cbn [rbind]; [discriminate |].
    destruct (range_of df "time_ms") as [e | b] eqn:Eb; cbn [rbind]; [discriminate |].
    destruct (range_of df "amplitude") as [e | c] eqn:Ec; cbn [rbind]; [discriminate |].
    intros [= <-]. apply nunique_of_plain in Ea. apply range_of_plain in Eb, Ec.
    split; [| split; [| split]].
    + intros k Hk Hin. cbn in Hk, Hin. intuition (subst; discriminate).
    + intros m. cbn. rewrite !lookup_insert_ne by discriminate. apply lookup_insert_eq.
    + cbn [map fst]. apply (bool_decide_unpack _). vm_compute. exact I.
    + rewrite !Forall_cons_iff, !andb_true_iff. cbn [snd]. rewrite Ea, Eb, Ec.
      split; [intros (_ & _ & ? & ? & ? & _) | intros (? & ? & ? & _)];
        repeat split; first [assumption | reflexivity | constructor].
  - destruct (nunique_of df "trace_number") as [e | a] eqn:Ea; cbn [rbind]; [discriminate |].
    destruct (nunique_of df "sample_number") as [e | a'] eqn:Ea'; cbn [rbind];
      [discriminate |].
    destruct (range_of df "amplitude") as [e | b] eqn:Eb; cbn [rbind]; [discriminate |].
    destruct (range_of df "distance_m") as [e | c] eqn:Ec; cbn [rbind]; [discriminate |].
    intros [= <-]. apply nunique_of_plain in Ea, Ea'. apply range_of_plain in Eb, Ec.
    split; [| split; [| split]].
    + intros k Hk Hin. cbn in Hk, Hin. intuition (subst; discriminate).
    + intros m. cbn. rewrite !lookup_insert_ne by discriminate. apply lookup_insert_eq.
    + cbn [map fst]. apply (bool_decide_unpack _). vm_compute. exact I.
    + rewrite !Forall_cons_iff, !andb_true_iff. cbn [snd]. rewrite Ea, Ea', Eb, Ec.
      split; [intros (_ & _ & ? & ? & ? & ? & _) | intros (? & ? & ? & ? & _)];
        repeat split; first [assumption | reflexivity | constructor].
Qed.

(** parse() that returned, in full. *)
Lemma parse_ok_detail self r self' :
  parse self = (inr r, self') ->
  exists raw md,
    read_csv (default "" (raw_data self)) = inr raw /\
    parse_metadata (variant_of self)
      (_standardize_column_names raw (column_map (variant_of self))) = inr md /\
    data self' = Some (_standardize_column_names raw (column_map (variant_of self))) /\
    metadata self'
    = fold_left (fun m kv => <[fst kv := snd kv]> m) md (metadata self).
Proof.
  unfold parse, bind, get. cbn.
  destruct (is_loaded self); cbn; [| discriminate].
  unfold parse_try.
  destruct (read_csv (default "" (raw_data self))) as [e | raw]; cbn; [discriminate |].
  destruct (parse_metadata _ _) as [e | md] eqn:Emd; cbn; [discriminate |].
  intros [= _ <-]. exists raw, md. cbn. auto.
Qed.

Lemma metadata_kept_refl s : metadata_kept s s.
Proof. split; auto. Qed.

Lemma metadata_kept_trans s1 s2 s3 :
  metadata_kept s1 s2 -> metadata_kept s2 s3 -> metadata_kept s1 s3.
Proof.
  intros [Ha1 Hb1] [Ha2 Hb2]. split.
  - intros k Hk. auto.
  - intros k Hk. rewrite (Hb2 k Hk). auto.
Qed.



Lemma same_metadata_kept s s' : metadata s' = metadata s -> metadata_kept s s'.
Proof. intros Heq. unfold metadata_kept. rewrite Heq. auto. Qed.


Lemma load_metadata io self r self' :
  load io self = (r, self') -> metadata self' = metadata self.
Proof.
  destruct r as [e | []]; intros Hrun.
  - apply load_raises in Hrun as ->. reflexivity.
  - apply load_ok in Hrun. tauto.
Qed.

Lemma validate_metadata table self r self' :
  validate table self = (r, self') -> metadata self' = metadata self.
Proof.
  destruct r as [e | b]; intros Hrun.
  - apply validate_raises in Hrun as ->. reflexivity.
  - apply validate_ok in Hrun. tauto.
Qed.

Lemma parse_metadata_kept : respects metadata_kept parse.
Proof.
  intros self [e | r] self' Hrun.
  - apply parse_raises in Hrun as ->. apply metadata_kept_refl.
  - apply parse_ok_detail in Hrun as (raw & md & _ & Hmd & _ & Hm).
    apply parse_metadata_shape in Hmd as (Hkeys & _ & _ & _).
    split; rewrite Hm.
    + intros k. apply update_lookup_some.
    + intros k Hk. apply update_lookup_other, Hkeys, Hk.
Qed.



Lemma after_respects (R : Parser -> Parser -> Prop) :
  (forall s, R s s) ->
  (forall s1 s2 s3, R s1 s2 -> R s2 s3 -> R s1 s3) ->
  (forall io, respects R (load io)) -> respects R parse ->
  (forall table, respects R (validate table)) ->
  forall c self, R self (after c self).
Proof.
  intros Hrefl Htrans Hload Hparse Hval c self.
  destruct c as [io | | table | skip io]; cbn.
  - eapply Hload. apply surjective_pairing.
  - eapply Hparse. apply surjective_pairing.
  - eapply Hval. apply surjective_pairing.
  - eapply process_respects;
      [exact Hrefl | exact Htrans | apply Hload | exact Hparse | apply Hval
      | apply surjective_pairing].
Qed.

Lemma after_metadata_kept c self : metadata_kept self (after c self).
Proof.
  apply after_respects.
  - apply metadata_kept_refl.
  - apply metadata_kept_trans.
  - intros io s r s' Hrun. eapply same_metadata_kept, load_metadata, Hrun.
  - apply parse_metadata_kept.
  - intros table s r s' Hrun. eapply same_metadata_kept, validate_metadata, Hrun.
Qed.



End MetadataFacts.

(** X11.  No call removes a metadata key, and the entries the
    constructor sets (file_name, file_path, created_at) keep their value
    through every load, parse, validate and process call. *)
Theorem X11_metadata_only_grows `{PyLib} (c : BaseParser.call) (self : BaseParser.Parser) :
  metadata_kept self (BaseParser.after c self).
Proof. apply after_metadata_kept. Qed.

(** X12.  When parse returns, the table of the instance is the table the
    CSV reader produced with its columns renamed to canonical names, and
    metadata['record_count'] is its number of rows. *)
Theorem X12_parse_result `{PyLib} (self self' : BaseParser.Parser) (r : BaseParser.parsed) :
  BaseParser.parse self = (inr r, self') ->
  exists raw,
    read_csv (default "" (BaseParser.raw_data self)) = inr raw /\
    BaseParser.data self'
    = Some (mkFrame (df_index raw)
              (map (relabel (BaseParser.variant_of self)) (df_series raw))) /\
    BaseParser.metadata self' !! "record_count" = Some (MInt (len raw)) /\
    r = BaseParser.mkParsed (BaseParser.metadata self') (BaseParser.data self').
Proof.
  intros Hrun. pose proof (parse_ok _ _ _ Hrun) as (_ & _ & _ & _ & _ & Hr).
  apply parse_ok_detail in Hrun as (raw & md & Hcsv & Hmd & Hd & Hm).
  exists raw. split; [exact Hcsv |].
  rewrite rename_is_relabel in Hd, Hmd. split; [exact Hd |]. split; [| exact Hr].
  apply parse_metadata_shape in Hmd as (_ & Hcount & _ & _).
  rewrite Hm. apply Hcount.
Qed.

Lemma X12_parse_result_witness :
  exists r self',
    BaseParser.parse (H := example_lib)
      (snd (BaseParser.load (inr example_text) (example_parser Electrical)))
    = (inr r, self') /\
    BaseParser.metadata self' !! "record_count" = Some (MInt 3).
Proof.
  eexists _, _.
  assert (Hrun : BaseParser.parse (H := example_lib)
                   (snd (BaseParser.load (inr example_text) (example_parser Electrical)))
                 = (inr (BaseParser.mkParsed
                           (BaseParser.metadata example_validated)
                           (BaseParser.data example_validated)),
                    BaseParser.after (H := example_lib) BaseParser.CallParse
                      (BaseParser.after (H := example_lib)
                         (BaseParser.CallLoad (inr example_text))
                         (example_parser Electrical))))
    by (vm_compute; reflexivity).
  split; [exact Hrun |].
  destruct (X12_parse_result (H := example_lib) _ _ _ Hrun) as (raw & Hcsv & _ & Hc & _).
  injection Hcsv as <-. exact Hc.
Defined.



(** A file with the header station,depth,Depth,resistivity: load and
    parse return, and the metadata then holds a tuple of two Series
    under depth_range_m. *)
Lemma two_depth_headers_metadata :
  let self := BaseParser.after (H := two_headers_lib) BaseParser.CallParse
                (BaseParser.after (H := two_headers_lib)
                   (BaseParser.CallLoad (inr example_text)) (example_parser Electrical)) in
  BaseParser.is_parsed self = true /\
  BaseParser.data self = Some depth_twice /\
  BaseParser.metadata self !! "depth_range_m"
  = Some (MTuple [MOther "Series"; MOther "Series"]) /\
  ~ plain_metadata (BaseParser.metadata self).
Proof.
  cbv zeta. split; [reflexivity |]. split; [reflexivity |].
  assert (Hlook : BaseParser.metadata
                    (BaseParser.after (H := two_headers_lib) BaseParser.CallParse
                       (BaseParser.after (H := two_headers_lib)
                          (BaseParser.CallLoad (inr example_text))
                          (example_parser Electrical))) !! "depth_range_m"
                  = Some (MTuple [MOther "Series"; MOther "Series"]))
    by (vm_compute; reflexivity).
  split; [exact Hlook |].
  intros Hplain. specialize (Hplain _ _ Hlook). discriminate.
Qed.

(* ===================================================================== *)
(** ** More on the standardizer *)
(* ===================================================================== *)

Section JsonFacts.
Import Standardizer.

Lemma convert_serializable :
  forall o, no_foreign o = true -> json_serializable (convert_numpy_types o) = true.
Proof.
  fix IH 1. intros o. destruct o as [| b | x | s | x | xs | items | items | entries | cls];
    cbn; intros Hnf; try reflexivity; try discriminate.
  - induction xs as [| x xs IHxs]; cbn; auto.
  - induction items as [| i items IHl]; cbn in *; [reflexivity |].
    apply andb_true_iff in Hnf as [Hi Hl]. rewrite (IH i Hi). exact (IHl Hl).
  - induction items as [| i items IHl]; cbn in *; [reflexivity |].
    apply andb_true_iff in Hnf as [Hi Hl]. rewrite (IH i Hi). exact (IHl Hl).
  - induction entries as [| [k v] entries IHl]; cbn in *; [reflexivity |].
    apply andb_true_iff in Hnf as [Hv Hl]. rewrite (IH v Hv). exact (IHl Hl).
Qed.

Lemma convert_idempotent :
  forall o, convert_numpy_types (convert_numpy_types o) = convert_numpy_types o.
Proof.
  fix IH 1. intros o. destruct o as [| b | x | s | x | xs | items | items | entries | cls];
    cbn; try reflexivity; f_equal.
  - induction xs as [| x xs IHxs]; cbn; [reflexivity |]. rewrite IHxs. reflexivity.
  - induction items as [| i items IHl]; cbn; [reflexivity |]. rewrite (IH i), IHl.
    reflexivity.
  - induction items as [| i items IHl]; cbn; [reflexivity |]. rewrite (IH i), IHl.
    reflexivity.
  - induction entries as [| [k v] entries IHl]; cbn; [reflexivity |].
    rewrite (IH v), IHl. reflexivity.
Qed.

(** json.dump accepts the converted metadata when the metadata is
    plain. *)
Lemma json_dump_of_plain (env : io_env) (m : gmap string mval) (path : string) :
  plain_metadata m -> json_dump env (convert_numpy_types <$> m) path = file_write env path.
Proof.
  intros Hm. unfold json_dump.
  replace (forallb _ (map_to_list (convert_numpy_types <$> m))) with true; [reflexivity |].
  symmetry. apply forallb_forall. intros [k v] Hin.
  apply list_elem_of_In, elem_of_map_to_list, lookup_fmap_Some in Hin as (v0 & <- & Hv0).
  cbn. apply convert_serializable. exact (Hm k v0 Hv0).
Qed.

End JsonFacts.

(** X14.  convert_numpy_types turns every value that holds no object of
    a foreign class (numpy numbers and arrays, tuples, lists and dicts
    of them at any depth) into a value json's encoder accepts, and
    converting a converted value changes nothing. *)
Theorem X14_convert_numpy_types_json_safe (o : mval) :
  (no_foreign o = true ->
   Standardizer.json_serializable (Standardizer.convert_numpy_types o) = true) /\
  Standardizer.convert_numpy_types (Standardizer.convert_numpy_types o)
  = Standardizer.convert_numpy_types o.
Proof. split; [apply convert_serializable | apply convert_idempotent]. Qed.

(** The writer write_output calls is that of the format of the
    instance, when it has one. *)
Lemma write_output_table (self : Standardizer.Standardizer) (env : io_env) (d : DataFrame)
    (output_path : string) :
  (if String.eqb (Standardizer.output_format self) "csv"
   then df_write env "csv" d output_path
   else if String.eqb (Standardizer.output_format self) "json"
        then df_write env "json" d output_path
        else if String.eqb (Standardizer.output_format self) "excel"
             then df_write env "excel" d output_path
             else if String.eqb (Standardizer.output_format self) "parquet"
                  then df_write env "parquet" d output_path
                  else ok tt)
  = if existsb (String.eqb (Standardizer.output_format self)) Standardizer._supported_formats
    then df_write env (Standardizer.output_format self) d output_path
    else ok tt.
Proof.
  unfold Standardizer._supported_formats. cbn [existsb].
  repeat match goal with
         | |- context [String.eqb ?a ?b] =>
             let E := fresh "E" in
             destruct (String.eqb a b) eqn:E;
             [apply String.eqb_eq in E; rewrite E; reflexivity |]
         end.
  reflexivity.
Qed.

(** X15.  With plain metadata, write_output fails only when the file
    system does: if the directory can be created, the table writer of
    the format of the instance succeeds, and the metadata file can be
    opened and written, write_output returns; json.dump raises no
    TypeError. *)
Theorem X15_write_output_succeeds (self : Standardizer.Standardizer) (env : io_env)
    (m : gmap string mval) (d : DataFrame) (output_path : string)
    (include_metadata : bool) :
  plain_metadata m ->
  mkdir env (path_parent output_path) = ok tt ->
  df_write env (Standardizer.output_format self) d output_path = ok tt ->
  open_w env (Standardizer.metadata_path_of output_path) = ok tt ->
  file_write env (Standardizer.metadata_path_of output_path) = ok tt ->
  Standardizer.write_output self env (Standardizer.mkStandardized (Some m) d)
    output_path include_metadata = ok tt.
Proof.
  intros Hm Hmk Hw Ho Hf. unfold Standardizer.write_output. rewrite Hmk. cbn [rbind ok].
  cbn [Standardizer.std_data Standardizer.std_metadata].
  rewrite write_output_table, Hw.
  destruct (existsb _ _); cbn [rbind ok];
    (destruct (include_metadata && _); [| reflexivity];
     rewrite Ho; cbn [rbind ok default]; rewrite json_dump_of_plain by exact Hm; exact Hf).
Qed.

Lemma X15_write_output_succeeds_witness :
  plain_metadata (<["data_type" := MStr "electrical"]> ∅) /\
  df_write json_only_env "json" electrical_scenario "out/result.json" = ok tt /\
  df_write json_only_env "csv" electrical_scenario "out/result.json"
    = raise (Builtin "OSError") /\
  Standardizer.write_output (Standardizer.mkStandardizer "json") json_only_env
    with_plain_metadata "out/result.json" true = ok tt.
Proof.
  assert (Hm : plain_metadata (<["data_type" := MStr "electrical"]> ∅)).
  { intros k v. rewrite lookup_insert. case_decide.
    - intros [= <-]. reflexivity.
    - rewrite lookup_empty. discriminate. }
  split; [exact Hm |]. split; [reflexivity |]. split; [reflexivity |].
  exact (X15_write_output_succeeds (Standardizer.mkStandardizer "json") json_only_env _
           electrical_scenario "out/result.json" true Hm eq_refl eq_refl eq_refl eq_refl).
Defined.

(** X16.  The constructor accepts exactly csv, json, excel and parquet
    and raises ValueError otherwise; on a constructed standardizer
    write_output, with or without the metadata file, calls the table
    writer of its format once the directory is there: a failure of that
    writer is the failure of write_output, and write_output returns only
    if that writer did.  The branch of write_output that writes no table
    is never taken. *)
Theorem X16_constructed_format_is_written (fmt : string) :
  (In fmt ["csv"; "json"; "excel"; "parquet"] ->
   Standardizer.new_standardizer fmt = ok (Standardizer.mkStandardizer fmt)) /\
  (~ In fmt ["csv"; "json"; "excel"; "parquet"] ->
   Standardizer.new_standardizer fmt = raise (Builtin "ValueError")) /\
  (forall self env data output_path include_metadata,
     Standardizer.new_standardizer fmt = inr self ->
     mkdir env (path_parent output_path) = ok tt ->
     (forall e, df_write env fmt (Standardizer.std_data data) output_path = inl e ->
                Standardizer.write_output self env data output_path include_metadata
                = inl e) /\
     (Standardizer.write_output self env data output_path include_metadata = ok tt ->
      df_write env fmt (Standardizer.std_data data) output_path = ok tt) /\
     Standardizer.write_output self env data output_path false
     = df_write env fmt (Standardizer.std_data data) output_path).
Proof.
  assert (Hin : existsb (String.eqb fmt) Standardizer._supported_formats = true <->
                In fmt ["csv"; "json"; "excel"; "parquet"]).
  { rewrite existsb_exists. split.
    - intros (x & Hx & Heq). apply String.eqb_eq in Heq as ->. exact Hx.
    - intros Hx. exists fmt. split; [exact Hx | apply String.eqb_refl]. }
  unfold Standardizer.new_standardizer. split; [| split].
  - intros Hfmt. apply Hin in Hfmt. rewrite Hfmt. reflexivity.
  - intros Hfmt. destruct (existsb _ _) eqn:E; [| reflexivity].
    exfalso. apply Hfmt, Hin. reflexivity.
  - intros self env data output_path include_metadata.
    destruct (existsb _ _) eqn:E; cbn [negb]; [| discriminate].
    intros [= <-] Hmk.
    unfold Standardizer.write_output. rewrite Hmk. cbn [rbind ok].
    rewrite write_output_table. cbn [Standardizer.output_format]. rewrite E.
    split; [| split].
    + intros e ->. reflexivity.
    + destruct (df_write env fmt (Standardizer.std_data data) output_path) as [e | []];
        [discriminate | reflexivity].
    + cbn [andb].
      destruct (df_write env fmt (Standardizer.std_data data) output_path) as [e | []];
        reflexivity.
Qed.

Lemma X16_constructed_format_is_written_witness :
  Standardizer.new_standardizer "csv" = inr (Standardizer.mkStandardizer "csv") /\
  mkdir full_disk_env (path_parent "out/result.csv") = ok tt /\
  Standardizer.write_output (Standardizer.mkStandardizer "csv") full_disk_env
    with_plain_metadata "out/result.csv" true
  = inl (Builtin "OSError").
Proof.
  split; [reflexivity |]. split; [reflexivity |].
  exact (proj1 (proj2 (proj2 (X16_constructed_format_is_written "csv"))
                  (Standardizer.mkStandardizer "csv") full_disk_env with_plain_metadata
                  "out/result.csv" true eq_refl eq_refl)
           (Builtin "OSError") eq_refl).
Defined.

Section RowFacts.
Import Standardizer.

Lemma rows_as_rows_of (d : DataFrame) :
  rows d = rows_of (len d) (map s_values (df_series d)).
Proof.
  unfold rows, rows_of, row_at. apply map_ext. intros i. rewrite map_map. reflexivity.
Qed.

Lemma rows_of_S n cols :
  rows_of (S n) cols = map (hd NaN) cols :: rows_of n (map (@tl cell) cols).
Proof.
  unfold rows_of. cbn [seq map]. f_equal.
  - apply map_ext. intros [| x vs]; reflexivity.
  - rewrite <- seq_shift, map_map. apply map_ext. intros i.
    rewrite map_map. apply map_ext. intros [| x vs]; [destruct i |]; reflexivity.
Qed.

Lemma count_true_cons b mask :
  count_true (b :: mask) = if b then S (count_true mask) else count_true mask.
Proof. unfold count_true. destruct b; reflexivity. Qed.

Lemma select_length {A} (mask : list bool) (l : list A) :
  length l = length mask -> length (select mask l) = count_true mask.
Proof.
  revert l. induction mask as [| b mask IH]; intros [| x l]; cbn [length]; intros Hlen;
    try discriminate; [reflexivity |].
  injection Hlen as Hlen. rewrite count_true_cons.
  destruct b; cbn [select length]; rewrite (IH l Hlen); reflexivity.
Qed.

Lemma select_by_predicate {A} (p : A -> bool) (l : list A) :
  select (map p l) l = List.filter p l.
Proof.
  induction l as [| x l IH]; cbn; [reflexivity |]. destruct (p x); rewrite IH; reflexivity.
Qed.

(** Picking rows column by column is picking rows. *)
Lemma rows_of_select mask cols :
  Forall (fun vs => length vs = length mask) cols ->
  rows_of (count_true mask) (map (select mask) cols) = select mask (rows_of (length mask) cols).
Proof.
  revert cols. induction mask as [| b mask IH]; intros cols Hlen; [reflexivity |].
  assert (Htl : Forall (fun vs => length vs = length mask) (map (@tl cell) cols)).
  { apply List.Forall_forall. intros vs Hin. apply in_map_iff in Hin as (ws & <- & Hws).
    rewrite List.Forall_forall in Hlen. specialize (Hlen ws Hws).
    destruct ws; cbn in *; [discriminate | lia]. }
  cbn [length]. rewrite rows_of_S, count_true_cons. destruct b.
  - rewrite rows_of_S. cbn [select]. f_equal.
    + rewrite map_map. apply map_ext_in. intros vs Hin.
      rewrite List.Forall_forall in Hlen. specialize (Hlen vs Hin).
      destruct vs; [discriminate | reflexivity].
    + rewrite <- (IH _ Htl). f_equal. rewrite !map_map. apply map_ext_in. intros vs Hin.
      rewrite List.Forall_forall in Hlen. specialize (Hlen vs Hin).
      destruct vs; [discriminate | reflexivity].
  - cbn [select]. rewrite <- (IH _ Htl). f_equal. rewrite !map_map.
    apply map_ext_in. intros vs Hin.
    rewrite List.Forall_forall in Hlen. specialize (Hlen vs Hin).
    destruct vs; [discriminate | reflexivity].
Qed.

Lemma select_rows_spec (mask : list bool) (d : DataFrame) :
  rectangular d -> length mask = len d ->
  rows (select_rows mask d) = select mask (rows d) /\
  len (select_rows mask d) = count_true mask /\
  rectangular (select_rows mask d) /\
  columns (select_rows mask d) = columns d.
Proof.
  intros Hrect Hmask.
  assert (Hlen : len (select_rows mask d) = count_true mask).
  { unfold len, select_rows. cbn. apply select_length. symmetry. exact Hmask. }
  split; [| split; [exact Hlen | split]].
  - rewrite !rows_as_rows_of, Hlen, <- Hmask. unfold select_rows. cbn [df_series].
    rewrite map_map. cbn [s_values]. rewrite <- (map_map s_values (select mask)).
    apply rows_of_select. apply List.Forall_forall. intros vs Hin.
    apply in_map_iff in Hin as (s & <- & Hs).
    unfold rectangular in Hrect. rewrite List.Forall_forall in Hrect.
    rewrite (Hrect s Hs). symmetry. exact Hmask.
  - unfold rectangular. rewrite Hlen. unfold select_rows. cbn [df_series].
    apply List.Forall_forall. intros s Hin. apply in_map_iff in Hin as (s0 & <- & Hs0).
    cbn [s_values]. apply select_length.
    unfold rectangular in Hrect. rewrite List.Forall_forall in Hrect.
    rewrite (Hrect s0 Hs0). symmetry. exact Hmask.
  - unfold columns, select_rows. cbn [df_series]. rewrite map_map. reflexivity.
Qed.

Lemma dropna_all_is_select (d : DataFrame) :
  dropna_all d = select_rows (map has_value (rows d)) d.
Proof. reflexivity. Qed.

End RowFacts.

(** X17.  df.dropna(how='all') as standardize applies it: on a table
    whose columns all have one cell per row, the rows kept are exactly
    the rows with at least one cell that is not null, in their order;
    the columns and their order are kept and the result is a table
    again. *)
Theorem X17_dropna_keeps_rows_with_values (d : DataFrame) :
  rectangular d ->
  rows (Standardizer.dropna_all d) = List.filter has_value (rows d) /\
  columns (Standardizer.dropna_all d) = columns d /\
  rectangular (Standardizer.dropna_all d) /\
  (len (Standardizer.dropna_all d) <= len d)%nat.
Proof.
  intros Hrect. rewrite dropna_all_is_select.
  destruct (select_rows_spec (map has_value (rows d)) d Hrect) as (Hrows & Hlen & Hr & Hc).
  { rewrite length_map. apply rows_length. }
  split; [rewrite Hrows; apply select_by_predicate |].
  split; [exact Hc |]. split; [exact Hr |].
  rewrite Hlen. unfold count_true.
  rewrite <- (rows_length d), <- (length_map has_value (rows d)). apply filter_length_le.
Qed.

Lemma X17_dropna_keeps_rows_with_values_witness :
  rectangular one_missing_value /\
  rows (Standardizer.dropna_all one_missing_value)
  = List.filter has_value (rows one_missing_value).
Proof.
  assert (Hrect : rectangular one_missing_value) by (repeat constructor).
  split; [exact Hrect |].
  exact (proj1 (X17_dropna_keeps_rows_with_values one_missing_value Hrect)).
Defined.

Section ConversionFacts.
Import Standardizer.

Lemma get_column_setitem (d : DataFrame) (c c' : string) (s : Series) :
  get_column (setitem d c s) c'
  = if String.eqb c c'
    then match get_column d c with
         | Some _ => Some (mkSeries c (s_dtype s) (s_values s))
         | None => None
         end
    else get_column d c'.
Proof.
  unfold get_column, setitem. cbn [df_series].
  induction (df_series d) as [| t l IH]; cbn [map find].
  - destruct (String.eqb c c'); reflexivity.
  - destruct (String.eqb c (s_name t)) eqn:Ect.
    + cbn [s_name]. apply String.eqb_eq in Ect. subst c.
      rewrite (String.eqb_sym c' (s_name t)).
      destruct (String.eqb (s_name t) c') eqn:Ecc; [reflexivity |].
      rewrite IH. reflexivity.
    + destruct (String.eqb c' (s_name t)) eqn:Ec't.
      * apply String.eqb_eq in Ec't. subst c'. rewrite Ect. reflexivity.
      * rewrite IH. reflexivity.
Qed.

Lemma columns_setitem (d : DataFrame) (c : string) (s : Series) :
  columns (setitem d c s) = columns d.
Proof.
  unfold columns, setitem. cbn [df_series]. rewrite map_map. apply map_ext. intros t.
  destruct (String.eqb c (s_name t)) eqn:E; [| reflexivity].
  apply String.eqb_eq in E. exact E.
Qed.

Lemma columns_convert_column (d : DataFrame) (c : string) (f : Series -> Series) :
  columns (convert_column d c f) = columns d.
Proof.
  unfold convert_column. destruct (get_column d c); [apply columns_setitem | reflexivity].
Qed.

Lemma index_convert_column (d : DataFrame) (c : string) (f : Series -> Series) :
  df_index (convert_column d c f) = df_index d.
Proof. unfold convert_column. destruct (get_column d c); reflexivity. Qed.

Lemma numeric_at_other (d : DataFrame) (c c' : string) (f : Series -> Series) :
  c <> c' -> numeric_at d c' -> numeric_at (convert_column d c f) c'.
Proof.
  intros Hne Hnum. unfold convert_column.
  destruct (get_column d c) as [s |]; [| exact Hnum].
  intros s'. rewrite get_column_setitem.
  apply String.eqb_neq in Hne. rewrite Hne. apply Hnum.
Qed.

Section WithLib.
Context `{PyLib}.

Lemma to_numeric_no_text (s : Series) :
  s_dtype (to_numeric_coerce s) = number /\
  forallb not_string (s_values (to_numeric_coerce s)) = true.
Proof.
  split; [reflexivity |]. unfold to_numeric_coerce. cbn [s_values].
  induction (s_values s) as [| c vs IH]; cbn; [reflexivity |].
  rewrite IH. destruct c as [| q | t]; cbn; try reflexivity.
  destruct (parse_number t); reflexivity.
Qed.

Lemma numeric_at_converted (d : DataFrame) (c : string) :
  numeric_at (convert_column d c to_numeric_coerce) c.
Proof.
  unfold convert_column. destruct (get_column d c) as [s |] eqn:Hget.
  - intros s'. rewrite get_column_setitem, String.eqb_refl, Hget.
    intros [= <-]. cbn [s_dtype s_values]. apply to_numeric_no_text.
  - intros s' Hs'. rewrite Hget in Hs'. discriminate.
Qed.

Lemma variant_conversions_numeric (v : variant) (d : DataFrame) (c : string) :
  In c (numeric_columns v) -> numeric_at (variant_conversions v d) c.
Proof.
  destruct v; cbn; intros Hin; repeat destruct Hin as [<- | Hin]; try contradiction;
    unfold variant_conversions;
    repeat first
      [ apply numeric_at_converted
      | apply numeric_at_other; [discriminate |] ].
Qed.

Lemma variant_conversions_shape (v : variant) (d : DataFrame) :
  columns (variant_conversions v d) = columns d /\
  df_index (variant_conversions v d) = df_index d.
Proof.
  destruct v; unfold variant_conversions;
    rewrite !columns_convert_column, !index_convert_column; split; reflexivity.
Qed.

Lemma convert_if_present_run (h : gmap positive obj) l d c f :
  h !! l = Some (OFrame d) ->
  convert_if_present l c f h = (inr tt, <[l := OFrame (convert_column d c f)]> h).
Proof.
  intros Hl. unfold convert_if_present, convert_column.
  rewrite (st_bind_run _ _ h d h) by (unfold read_frame; rewrite Hl; reflexivity).
  rewrite has_column_get. destruct (get_column d c) as [s |] eqn:Hget.
  - unfold frame_setitem.
    rewrite (st_bind_run _ _ h d h) by (unfold read_frame; rewrite Hl; reflexivity).
    rewrite Hget. reflexivity.
  - unfold ret, ok. rewrite insert_id by exact Hl. reflexivity.
Qed.

Lemma three_conversions_run (h : gmap positive obj) l d c1 f1 c2 f2 c3 f3 :
  h !! l = Some (OFrame d) ->
  (convert_if_present l c1 f1 ;;; convert_if_present l c2 f2 ;;;
   convert_if_present l c3 f3 ;;; ret l) h
  = (inr l,
     <[l := OFrame (convert_column (convert_column (convert_column d c1 f1) c2 f2) c3 f3)]> h).
Proof.
  intros Hl.
  rewrite (st_bind_run _ _ _ _ _ (convert_if_present_run h l d c1 f1 Hl)).
  rewrite (st_bind_run _ _ _ _ _
             (convert_if_present_run _ l _ c2 f2 (lookup_insert_eq _ _ _))).
  rewrite insert_insert_eq.
  rewrite (st_bind_run _ _ _ _ _
             (convert_if_present_run _ l _ c3 f3 (lookup_insert_eq _ _ _))).
  rewrite insert_insert_eq. reflexivity.
Qed.

(** standardize up to the dispatch on the tag. *)
Lemma standardize_reaches_dispatch (h : gmap positive obj) parsed_data data_type now m d :
  h !! metadata_at parsed_data = Some (ODict m) ->
  h !! data_at parsed_data = Some (OFrame d) ->
  unique_labels (columns d) = true ->
  exists metadata df h',
    h' !! df = Some (OFrame (common_standards d)) /\
    h' !! metadata = Some (ODict (stamped m data_type now)) /\
    standardize parsed_data data_type now h
    = bind (if String.eqb data_type "electrical" then _standardize_electrical df
            else if String.eqb data_type "seismic" then _standardize_seismic df
            else if String.eqb data_type "radar" then _standardize_radar df
            else ret df)
           (fun df => ret (mkDataset metadata df)) h'.
Proof.
  intros Hm Hd Hu. unfold standardize.
  set (l1 := fresh (dom h)). set (h1 := <[l1 := OFrame d]> h).
  set (l2 := fresh (dom h1)).
  assert (Hl1 : h !! l1 = None) by apply fresh_unused.
  assert (Hl2 : h1 !! l2 = None) by apply fresh_unused.
  assert (Hne1 : l1 <> metadata_at parsed_data) by (intros E; rewrite E, Hm in Hl1; discriminate).
  assert (Hne2 : l2 <> l1).
  { intros E. rewrite E in Hl2. unfold h1 in Hl2. rewrite lookup_insert_eq in Hl2.
    discriminate. }
  rewrite (st_bind_run _ _ h l1 h1)
    by (eapply frame_method_run; [exact Hd | reflexivity]).
  rewrite (st_bind_run _ _ h1 m h1)
    by (unfold read_dict, h1; rewrite lookup_insert_ne by exact Hne1; rewrite Hm; reflexivity).
  rewrite (st_bind_run _ _ h1 l2 (<[l2 := ODict m]> h1)) by reflexivity.
  rewrite (st_bind_run _ _ _ tt _ (dict_setitem_run _ l2 _ _ m (lookup_insert_eq _ _ _))).
  rewrite insert_insert_eq.
  rewrite (st_bind_run _ _ _ tt _ (dict_setitem_run _ l2 _ _ _ (lookup_insert_eq _ _ _))).
  rewrite insert_insert_eq.
  rewrite (st_bind_run _ _ _ tt _ (dict_setitem_run _ l2 _ _ _ (lookup_insert_eq _ _ _))).
  rewrite insert_insert_eq.
  fold (stamped m data_type now).
  set (h5 := <[l2 := ODict (stamped m data_type now)]> h1).
  assert (Hd5 : h5 !! l1 = Some (OFrame d)).
  { unfold h5, h1. rewrite lookup_insert_ne by exact Hne2. apply lookup_insert_eq. }
  destruct (apply_common_standards_run h5 l1 d Hd5 Hu) as (l' & h' & Hrun & Hl' & Hsub).
  rewrite (st_bind_run _ _ _ _ _ Hrun).
  exists l2, l', h'. split; [exact Hl' |]. split; [| reflexivity].
  eapply lookup_weaken; [| exact Hsub]. apply lookup_insert_eq.
Qed.

Lemma standardize_variant_run (h : gmap positive obj) parsed_data v now m d :
  h !! metadata_at parsed_data = Some (ODict m) ->
  h !! data_at parsed_data = Some (OFrame d) ->
  unique_labels (columns d) = true ->
  exists out h',
    standardize parsed_data (tag_of v) now h = (inr out, h') /\
    h' !! data_at out = Some (OFrame (variant_conversions v (common_standards d))) /\
    h' !! metadata_at out = Some (ODict (stamped m (tag_of v) now)).
Proof.
  intros Hm Hd Hu.
  destruct (standardize_reaches_dispatch h parsed_data (tag_of v) now m d Hm Hd Hu)
    as (l2 & l' & h' & Hl' & Hl2 & ->).
  assert (Hne : l' <> l2) by (intros E; rewrite E, Hl2 in Hl'; discriminate).
  exists (mkDataset l2 l').
  destruct v; cbn [tag_of String.eqb Ascii.eqb Bool.eqb];
    unfold _standardize_electrical, _standardize_seismic, _standardize_radar;
    rewrite (st_bind_run _ _ _ _ _ (three_conversions_run h' l' _ _ _ _ _ _ _ Hl'));
    eexists; (split; [reflexivity |]); cbn [data_at metadata_at];
    (split; [apply lookup_insert_eq | rewrite lookup_insert_ne by exact Hne; exact Hl2]).
Qed.

End WithLib.
End ConversionFacts.

(** X18.  For each of the three recognized tags, standardize returns on
    a stored table with distinct column labels: the returned table is
    the common normalization followed by the conversions of the variant;
    it has the sorted labels of the input, and each column the variant
    converts to numbers is of numeric type and holds no text (values
    that are no numbers have become null); the metadata is stamped with
    the tag. *)
Theorem X18_recognized_tag_converts `{PyLib} (h : gmap positive Standardizer.obj)
    (parsed_data : Standardizer.dataset) (v : variant) (now : string)
    (m : gmap string mval) (d : DataFrame) :
  h !! Standardizer.metadata_at parsed_data = Some (Standardizer.ODict m) ->
  h !! Standardizer.data_at parsed_data = Some (Standardizer.OFrame d) ->
  Standardizer.unique_labels (columns d) = true ->
  exists out h' d',
    Standardizer.standardize parsed_data (tag_of v) now h = (inr out, h') /\
    h' !! Standardizer.data_at out = Some (Standardizer.OFrame d') /\
    h' !! Standardizer.metadata_at out
      = Some (Standardizer.ODict (Standardizer.stamped m (tag_of v) now)) /\
    d' = variant_conversions v (Standardizer.common_standards d) /\
    columns d' = columns (Standardizer.common_standards d) /\
    (forall c, In c (numeric_columns v) -> numeric_at d' c).
Proof.
  intros Hm Hd Hu.
  destruct (standardize_variant_run h parsed_data v now m d Hm Hd Hu)
    as (out & h' & Hrun & Hdata & Hmeta).
  exists out, h', (variant_conversions v (Standardizer.common_standards d)).
  split; [exact Hrun |]. split; [exact Hdata |]. split; [exact Hmeta |].
  split; [reflexivity |]. split; [apply variant_conversions_shape |].
  intros c Hc. apply variant_conversions_numeric. exact Hc.
Qed.

Lemma X18_recognized_tag_converts_witness :
  text_heap !! Standardizer.metadata_at example_dataset = Some (Standardizer.ODict ∅) /\
  text_heap !! Standardizer.data_at example_dataset = Some (Standardizer.OFrame depths_as_text) /\
  Standardizer.unique_labels (columns depths_as_text) = true /\
  exists out h' d',
    Standardizer.standardize (H := example_lib) example_dataset "electrical"
      "2024-01-01T00:00:00" text_heap = (inr out, h') /\
    h' !! Standardizer.data_at out = Some (Standardizer.OFrame d') /\
    numeric_at d' "depth_m".
Proof.
  assert (Hm : text_heap !! Standardizer.metadata_at example_dataset
               = Some (Standardizer.ODict ∅)) by (vm_compute; reflexivity).
  assert (Hd : text_heap !! Standardizer.data_at example_dataset
               = Some (Standardizer.OFrame depths_as_text)) by (vm_compute; reflexivity).
  assert (Hu : Standardizer.unique_labels (columns depths_as_text) = true) by reflexivity.
  split; [exact Hm |]. split; [exact Hd |]. split; [exact Hu |].
  destruct (X18_recognized_tag_converts (H := example_lib) text_heap example_dataset
              Electrical "2024-01-01T00:00:00" _ _ Hm Hd Hu)
    as (out & h' & d' & Hrun & Hdata & _ & _ & _ & Hnum).
  exists out, h', d'. split; [exact Hrun |]. split; [exact Hdata |].
  apply Hnum. left. reflexivity.
Defined.

Section SortedFacts.
Import Standardizer.

Lemma insert_label_perm c l : Permutation (insert_label c l) (c :: l).
Proof.
  induction l as [| x l IH]; cbn; [reflexivity |].
  destruct (String.leb c x); [reflexivity |].
  rewrite IH. apply perm_swap.
Qed.

Lemma sorted_perm l : Permutation (sorted l) l.
Proof.
  unfold sorted. induction l as [| x l IH]; cbn; [reflexivity |].
  rewrite insert_label_perm. apply perm_skip. exact IH.
Qed.

Lemma insert_label_sorted c l :
  Sorted (fun a b => String.leb a b = true) l ->
  Sorted (fun a b => String.leb a b = true) (insert_label c l).
Proof.
  induction 1 as [| x l Hl IH Hhd]; cbn; [repeat constructor |].
  destruct (String.leb c x) eqn:E.
  - constructor; [constructor; assumption | constructor; exact E].
  - constructor; [exact IH |].
    assert (Hxc : String.leb x c = true)
      by (destruct (String.leb_total c x) as [Hcx | Hxc]; [congruence | exact Hxc]).
    destruct Hhd as [| y l Hxy]; cbn.
    + constructor. exact Hxc.
    + destruct (String.leb c y); constructor; assumption.
Qed.

Lemma sorted_is_sorted l : Sorted (fun a b => String.leb a b = true) (sorted l).
Proof.
  unfold sorted. induction l as [| x l IH]; cbn; [constructor |].
  apply insert_label_sorted. exact IH.
Qed.

Lemma picked_column_name (d : DataFrame) (c : string) :
  s_name (match get_column d c with
          | Some s => s
          | None => mkSeries c number (repeat NaN (len d))
          end) = c.
Proof.
  destruct (get_column d c) as [s |] eqn:Hget; [| reflexivity].
  unfold get_column in Hget. apply find_some in Hget as [_ Heq].
  apply String.eqb_eq in Heq. symmetry. exact Heq.
Qed.

End SortedFacts.

(** The shape of the table common normalization computes. *)
Lemma common_standards_shape (d : DataFrame) :
  let d' := Standardizer.common_standards d in
  columns d' = Standardizer.sorted (columns d) /\
  Sorted (fun a b => String.leb a b = true) (columns d') /\
  Permutation (columns d') (columns d) /\
  df_index d' = map Z.of_nat (seq 0 (len d')) /\
  (len d' <= len d)%nat.
Proof.
  cbv zeta.
  assert (Hcols : columns (Standardizer.common_standards d)
                  = Standardizer.sorted (columns d)).
  { unfold Standardizer.common_standards, Standardizer.reset_index,
      Standardizer.dropna_all, columns. cbn [df_series].
    rewrite !map_map. cbn [s_name].
    rewrite <- (map_id (Standardizer.sorted (map s_name (df_series d)))) at 2.
    apply map_ext. intros c. apply picked_column_name. }
  split; [exact Hcols |]. rewrite Hcols.
  split; [apply sorted_is_sorted |]. split; [apply sorted_perm |].
  unfold Standardizer.common_standards, Standardizer.reset_index, len. cbn [df_index].
  split.
  - rewrite length_map, length_seq. reflexivity.
  - rewrite length_map, length_seq. unfold Standardizer.dropna_all. cbn [df_index].
    generalize (map (existsb (fun c => negb (isnull c)))
                  (rows (mkFrame (df_index d)
                     (map (fun c => match get_column d c with
                                    | Some s => s
                                    | None => mkSeries c number (repeat NaN (length (df_index d)))
                                    end) (Standardizer.sorted (columns d)))))).
    intros mask. generalize (df_index d). clear. intros l. revert l.
    induction mask as [| b mask IH]; intros [| x l]; cbn; try lia.
    destruct b; cbn; specialize (IH l); lia.
Qed.

(** X19.  _apply_common_standards on a stored table with distinct
    column labels returns a new table and leaves the store otherwise as
    it was: the column labels of the result are the labels of the input
    in ascending order (a sorted rearrangement of them), and its row
    index is 0, 1, ..., n-1 for its n rows, whatever the index of the
    input was.  On a table with a repeated label whose labels are not in
    ascending order already, reindex raises ValueError and the store is
    as before. *)
Theorem X19_common_standards_shape (h : gmap positive Standardizer.obj) (df : positive)
    (d : DataFrame) :
  h !! df = Some (Standardizer.OFrame d) ->
  (Standardizer.unique_labels (columns d) = true ->
   exists out h' d',
     Standardizer._apply_common_standards df h = (inr out, h') /\
     h' !! out = Some (Standardizer.OFrame d') /\
     h ⊆ h' /\
     columns d' = Standardizer.sorted (columns d) /\
     Sorted (fun a b => String.leb a b = true) (columns d') /\
     Permutation (columns d') (columns d) /\
     df_index d' = map Z.of_nat (seq 0 (len d')) /\
     (len d' <= len d)%nat) /\
  (Standardizer.unique_labels (columns d) = false ->
   Standardizer.labels_eqb (columns d) (Standardizer.sorted (columns d)) = false ->
   Standardizer._apply_common_standards df h = (raise (Builtin "ValueError"), h)).
Proof.
  intros Hdf. split.
  - intros Hu.
    destruct (apply_common_standards_run h df d Hdf Hu) as (out & h' & Hrun & Hout & Hsub).
    exists out, h', (Standardizer.common_standards d).
    split; [exact Hrun |]. split; [exact Hout |]. split; [exact Hsub |].
    exact (common_standards_shape d).
  - intros Hu Hne.
    assert (Hrun : Standardizer.frame_method df
                     (fun d => Standardizer.reindex d (Standardizer.sorted (columns d))) h
                   = (raise (Builtin "ValueError"), h)).
    { unfold Standardizer.frame_method, Standardizer.bind, Standardizer.read_frame.
      rewrite Hdf. unfold ok. cbv beta iota. unfold Standardizer.reindex.
      rewrite Hne, Hu. reflexivity. }
    unfold Standardizer._apply_common_standards.
    unfold Standardizer.bind at 1. rewrite Hrun. reflexivity.
Qed.

Lemma X19_common_standards_shape_witness :
  example_heap !! 2%positive = Some (Standardizer.OFrame electrical_scenario) /\
  Standardizer.unique_labels (columns electrical_scenario) = true /\
  exists out h' d',
    Standardizer._apply_common_standards 2%positive example_heap = (inr out, h') /\
    h' !! out = Some (Standardizer.OFrame d') /\
    columns d' = ["depth_m"; "resistivity_ohm_m"; "station_id"].
Proof.
  split; [reflexivity |]. split; [reflexivity |].
  destruct (proj1 (X19_common_standards_shape example_heap 2%positive electrical_scenario
                     eq_refl) eq_refl)
    as (out & h' & d' & Hrun & Hout & _ & Hcols & _).
  exists out, h', d'. split; [exact Hrun |]. split; [exact Hout |]. exact Hcols.
Defined.

(* ===================================================================== *)
(** ** The cleaning helpers *)
(* ===================================================================== *)

Section CleaningFacts.
Import Cleaning.

Lemma cell_eqb_trans a b c :
  cell_eqb a b = true -> cell_eqb b c = true -> cell_eqb a c = true.
Proof.
  destruct a as [| x | s], b as [| y | t], c as [| z | u]; cbn; try discriminate; auto.
  - rewrite !Qeq_bool_iff. apply Qeq_trans.
  - rewrite !String.eqb_eq. congruence.
Qed.

Lemma row_eqb_trans r1 r2 r3 :
  row_eqb r1 r2 = true -> row_eqb r2 r3 = true -> row_eqb r1 r3 = true.
Proof.
  revert r2 r3. induction r1 as [| a r1 IH]; intros [| b r2] [| c r3]; cbn;
    try discriminate; auto.
  rewrite !andb_true_iff. intros [Hab H12] [Hbc H23].
  split; [eapply cell_eqb_trans; eassumption | eapply IH; eassumption].
Qed.

(** Rows kept by keep='first' hold no duplicate. *)
Lemma first_occurrences_distinct (seen kept rs : list (list cell)) :
  (forall r, existsb (row_eqb r) seen = existsb (row_eqb r) kept) ->
  count_true
    (duplicated_from kept (Standardizer.select (map negb (duplicated_from seen rs)) rs))
  = 0%nat.
Proof.
  revert seen kept. induction rs as [| r rs IH]; intros seen kept Hsame; [reflexivity |].
  cbn [duplicated_from map Standardizer.select].
  destruct (existsb (row_eqb r) seen) eqn:Hdup; cbn [negb].
  - apply IH. intros x. cbn [existsb].
    destruct (row_eqb x r) eqn:Hxr; [| apply Hsame]. cbn [orb].
    rewrite <- Hsame. symmetry. apply existsb_exists.
    apply existsb_exists in Hdup as (s & Hs & Hrs).
    exists s. split; [exact Hs | eapply row_eqb_trans; eassumption].
  - cbn [duplicated_from]. rewrite count_true_cons, <- Hsame, Hdup.
    apply IH. intros x. cbn [existsb]. rewrite Hsame. reflexivity.
Qed.

Lemma count_true_negb (mask : list bool) :
  count_true (map negb mask) = (length mask - count_true mask)%nat.
Proof.
  induction mask as [| b mask IH]; [reflexivity |].
  cbn [map length]. rewrite !count_true_cons, IH.
  assert (Hle : (count_true mask <= length mask)%nat)
    by (unfold count_true; apply filter_length_le).
  destruct b; cbn [negb]; lia.
Qed.

Lemma frame_eta (d : DataFrame) : mkFrame (df_index d) (df_series d) = d.
Proof. destruct d; reflexivity. Qed.

(** A column of the rows picked by a mask holds no null when every
    picked position holds none. *)
Lemma select_no_null (mask : list bool) (vs : list cell) :
  (forall i, nth i mask false = true -> isnull (nth i vs NaN) = false) ->
  List.filter isnull (Standardizer.select mask vs) = [].
Proof.
  revert vs. induction mask as [| b mask IH]; intros [| x vs] Hpos; try reflexivity.
  cbn [Standardizer.select].
  assert (Hrest : forall i, nth i mask false = true -> isnull (nth i vs NaN) = false)
    by (intros i Hi; exact (Hpos (S i) Hi)).
  destruct b.
  - pose proof (Hpos 0%nat eq_refl) as Hx. cbn [nth] in Hx.
    cbn [List.filter]. rewrite Hx. apply IH, Hrest.
  - apply IH, Hrest.
Qed.

Lemma complete_row_cells (d : DataFrame) (i : nat) (s : Series) :
  nth i (map complete (rows d)) false = true ->
  In s (df_series d) -> isnull (nth i (s_values s) NaN) = false.
Proof.
  intros Hi Hs.
  destruct (Nat.lt_ge_cases i (len d)) as [Hlt | Hge].
  - rewrite (nth_indep _ false (complete [])) in Hi
      by (rewrite length_map, rows_length; exact Hlt).
    rewrite map_nth, rows_nth in Hi by exact Hlt.
    unfold complete, row_at in Hi. rewrite forallb_forall in Hi.
    apply negb_true_iff. apply Hi. apply (in_map (fun s => nth i (s_values s) NaN)). exact Hs.
  - rewrite nth_overflow in Hi by (rewrite length_map, rows_length; exact Hge).
    discriminate.
Qed.

Lemma sum_of_zeros (l : list nat) :
  (forall n, In n l -> n = 0%nat) -> QCChecker.sum_nat l = 0%nat.
Proof.
  unfold QCChecker.sum_nat. induction l as [| n l IH]; intros Hz; [reflexivity |].
  cbn. rewrite (Hz n (or_introl eq_refl)), IH; [reflexivity |].
  intros m Hm. apply Hz. right. exact Hm.
Qed.

Lemma dropna_any_no_null (d : DataFrame) : total_nulls (dropna_any d) = 0%nat.
Proof.
  unfold total_nulls. apply sum_of_zeros. intros n Hn.
  apply in_map_iff in Hn as (s' & <- & Hs').
  unfold dropna_any, select_rows in Hs'. cbn [df_series] in Hs'.
  apply in_map_iff in Hs' as (s & <- & Hs).
  unfold QCChecker.null_count. cbn [s_values].
  rewrite select_no_null; [reflexivity |].
  intros i Hi. eapply complete_row_cells; eassumption.
Qed.

Lemma fillna_value_no_null (d : DataFrame) (value : cell) :
  isnull value = false -> total_nulls (fillna_value d value) = 0%nat.
Proof.
  intros Hv. unfold total_nulls. apply sum_of_zeros. intros n Hn.
  apply in_map_iff in Hn as (s' & <- & Hs').
  unfold fillna_value in Hs'. cbn [df_series] in Hs'.
  apply in_map_iff in Hs' as (s & <- & Hs).
  unfold QCChecker.null_count. cbn [s_values].
  induction (s_values s) as [| c vs IH]; [reflexivity |].
  cbn [map List.filter]. destruct (isnull c) eqn:Ec; [rewrite Hv | rewrite Ec]; exact IH.
Qed.

End CleaningFacts.

(** X20.  _remove_duplicates with its defaults (all columns, keep the
    first occurrence), on a table with at least one column and one cell
    per row in each column: the table it returns holds no duplicate
    row, so the duplicate check of the QC engine finds none in it; it
    has as many rows fewer as the input had duplicates and the same
    columns. *)
Theorem X20_remove_duplicates_leaves_none (d : DataFrame) :
  rectangular d -> df_series d <> [] ->
  exists d',
    Cleaning._remove_duplicates d None Cleaning.KeepFirst = ok d' /\
    duplicate_count d' = 0%nat /\
    QCChecker._check_duplicates d' = QCChecker.mkCheck false None QCChecker.NoDuplicates /\
    len d' = (len d - duplicate_count d)%nat /\
    columns d' = columns d.
Proof.
  intros Hrect Hcols.
  assert (Hnone : forall d', duplicate_count d' = 0%nat ->
            QCChecker._check_duplicates d'
            = QCChecker.mkCheck false None QCChecker.NoDuplicates).
  { intros d' Hz. destruct (_check_duplicates_cases d') as (H0 & _). exact (H0 Hz). }
  unfold Cleaning._remove_duplicates, Cleaning.drop_duplicates, df_empty.
  assert (Hsome : (length (df_series d) =? 0)%nat = false)
    by (destruct (df_series d); [contradiction | reflexivity]).
  rewrite Hsome, orb_false_r.
  destruct (len d =? 0)%nat eqn:Elen.
  - apply Nat.eqb_eq in Elen.
    assert (Hz : duplicate_count d = 0%nat).
    { unfold duplicate_count. rewrite (duplicated_with_columns d Hcols).
      unfold rows. rewrite Elen. reflexivity. }
    exists d. cbn [rbind ok]. split; [reflexivity |]. split; [exact Hz |].
    split; [apply Hnone, Hz |]. split; [lia | reflexivity].
  - cbn [rbind ok]. rewrite frame_eta. cbn [rbind ok Cleaning.duplicated_rows].
    pose proof (duplicated_with_columns d Hcols) as Hdup.
    destruct (select_rows_spec (map negb (duplicated_from [] (rows d))) d Hrect)
      as (Hrows & Hlen & _ & Hc).
    { rewrite length_map, duplicated_from_length. apply rows_length. }
    assert (Hz : duplicate_count (select_rows (map negb (duplicated_from [] (rows d))) d)
                 = 0%nat).
    { unfold duplicate_count. rewrite duplicated_with_columns.
      - rewrite Hrows. apply first_occurrences_distinct. reflexivity.
      - unfold select_rows. cbn [df_series].
        destruct (df_series d); [contradiction | discriminate]. }
    eexists. split; [reflexivity |]. split; [exact Hz |].
    split; [apply Hnone, Hz |]. split; [| exact Hc].
    rewrite Hlen, count_true_negb. unfold duplicate_count.
    rewrite Hdup, duplicated_from_length, rows_length. reflexivity.
Qed.

Lemma X20_remove_duplicates_leaves_none_witness :
  rectangular twenty_rows_one_duplicate /\
  df_series twenty_rows_one_duplicate <> [] /\
  exists d',
    Cleaning._remove_duplicates twenty_rows_one_duplicate None Cleaning.KeepFirst = ok d' /\
    duplicate_count d' = 0%nat /\
    len d' = (len twenty_rows_one_duplicate - duplicate_count twenty_rows_one_duplicate)%nat.
Proof.
  assert (Hrect : rectangular twenty_rows_one_duplicate) by (repeat constructor).
  assert (Hcols : df_series twenty_rows_one_duplicate <> []) by discriminate.
  split; [exact Hrect |]. split; [exact Hcols |].
  destruct (X20_remove_duplicates_leaves_none twenty_rows_one_duplicate Hrect Hcols)
    as (d' & Hrun & Hz & _ & Hlen & _).
  exists d'. auto.
Defined.

(** X21.  _handle_missing_values: a strategy other than drop, fill,
    forward and backward raises ValueError, and so does fill without a
    fill value; after drop no null cell is left, so the missing-values
    check of the QC engine finds none, and on a table with one cell per
    row in each column the rows kept are exactly those without a null
    cell; after fill with a value that is not null no null cell is left
    and index and columns are as before. *)
Theorem X21_handle_missing_values (d : DataFrame) (strategy : string)
    (fill_value : option cell) :
  (~ In strategy ["drop"; "fill"; "forward"; "backward"] ->
   Cleaning._handle_missing_values d strategy fill_value = raise (Builtin "ValueError")) /\
  Cleaning._handle_missing_values d "fill" None = raise (Builtin "ValueError") /\
  (exists d',
     Cleaning._handle_missing_values d "drop" fill_value = ok d' /\
     total_nulls d' = 0%nat /\
     QCChecker._check_missing_values d'
     = QCChecker.mkCheck false None QCChecker.NoMissingValues /\
     (rectangular d -> rows d' = List.filter complete (rows d))) /\
  (forall value, isnull value = false ->
     exists d',
       Cleaning._handle_missing_values d "fill" (Some value) = ok d' /\
       total_nulls d' = 0%nat /\
       columns d' = columns d /\ df_index d' = df_index d).
Proof.
  split; [| split; [reflexivity | split]].
  - intros Hnot. unfold Cleaning._handle_missing_values.
    destruct (String.eqb strategy "drop") eqn:E1;
      [apply String.eqb_eq in E1; exfalso; apply Hnot; cbn; auto |].
    destruct (String.eqb strategy "fill") eqn:E2;
      [apply String.eqb_eq in E2; exfalso; apply Hnot; cbn; auto |].
    destruct (String.eqb strategy "forward") eqn:E3;
      [apply String.eqb_eq in E3; exfalso; apply Hnot; cbn; auto |].
    destruct (String.eqb strategy "backward") eqn:E4;
      [apply String.eqb_eq in E4; exfalso; apply Hnot; cbn; auto |].
    reflexivity.
  - exists (Cleaning.dropna_any d). split; [reflexivity |].
    pose proof (dropna_any_no_null d) as Hz. split; [exact Hz |]. split.
    + destruct (_check_missing_values_cases (Cleaning.dropna_any d)) as (H0 & _).
      exact (H0 Hz).
    + intros Hrect.
      change (Cleaning.dropna_any d) with (select_rows (map complete (rows d)) d).
      destruct (select_rows_spec (map complete (rows d)) d Hrect) as (Hrows & _).
      { rewrite length_map. apply rows_length. }
      rewrite Hrows. apply select_by_predicate.
  - intros value Hv. exists (Cleaning.fillna_value d value). split; [reflexivity |].
    split; [apply fillna_value_no_null, Hv |]. split; [| reflexivity].
    unfold columns, Cleaning.fillna_value. cbn [df_series]. rewrite map_map. reflexivity.
Qed.

(** X22.  BaseParser.save_data: without a table it raises ParserError
    ("No data to save"); with a table, a failure to create the output
    directory, which happens before the try block, is raised as it is;
    once the directory is there, an unsupported format raises
    ParserError ("Failed to save data") wrapping ValueError, a failure
    of the table writer of the format raises ParserError wrapping it,
    and save_data returns when that writer does. *)
Theorem X22_save_data_errors (env : io_env) (output_path format : string)
    (self : BaseParser.Parser) :
  (BaseParser.data self = None ->
   BaseParser.save_data env output_path format self = raise (ParserError NoDataToSave)) /\
  (forall d, BaseParser.data self = Some d ->
     (forall e, mkdir env (path_parent output_path) = inl e ->
                BaseParser.save_data env output_path format self = raise e) /\
     (mkdir env (path_parent output_path) = ok tt ->
      (~ In format ["csv"; "json"; "excel"; "parquet"] ->
       BaseParser.save_data env output_path format self
       = raise (ParserError (FailedToSave (Builtin "ValueError")))) /\
      (In format ["csv"; "json"; "excel"; "parquet"] ->
       (forall cause, df_write env format d output_path = inl cause ->
                      BaseParser.save_data env output_path format self
                      = raise (ParserError (FailedToSave cause))) /\
       (df_write env format d output_path = ok tt ->
        BaseParser.save_data env output_path format self = ok tt)))).
Proof.
  unfold BaseParser.save_data. split; [intros ->; reflexivity |].
  intros d ->. split; [intros e ->; reflexivity |].
  intros ->. cbn [rbind ok]. split.
  - intros Hfmt. cbn in Hfmt.
    repeat match goal with
           | |- context [String.eqb format ?b] =>
               let E := fresh "E" in
               destruct (String.eqb format b) eqn:E;
               [apply String.eqb_eq in E; exfalso; apply Hfmt; rewrite E; tauto |]
           end.
    reflexivity.
  - intros Hfmt. cbn in Hfmt.
    destruct Hfmt as [<- | [<- | [<- | [<- | []]]]]; cbn [String.eqb Ascii.eqb Bool.eqb];
      (split; [intros cause -> | intros ->]; reflexivity).
Qed.

Lemma X22_save_data_errors_witness :
  BaseParser.data example_validated = Some electrical_scenario /\
  mkdir full_disk_env (path_parent "out/result.csv") = ok tt /\
  In "csv" ["csv"; "json"; "excel"; "parquet"] /\
  df_write full_disk_env "csv" electrical_scenario "out/result.csv"
    = inl (Builtin "OSError") /\
  BaseParser.save_data full_disk_env "out/result.csv" "csv" example_validated
  = raise (ParserError (FailedToSave (Builtin "OSError"))).
Proof.
  assert (Hin : In "csv" ["csv"; "json"; "excel"; "parquet"]) by (left; reflexivity).
  split; [reflexivity |]. split; [reflexivity |]. split; [exact Hin |].
  split; [reflexivity |].
  exact (proj1 (proj2 (proj2 (proj2 (X22_save_data_errors full_disk_env "out/result.csv"
                                       "csv" example_validated)
                                electrical_scenario eq_refl) eq_refl) Hin)
           (Builtin "OSError") eq_refl).
Defined.

Lemma X21_handle_missing_values_witness :
  isnull (Num 0) = false /\
  exists d',
    Cleaning._handle_missing_values one_missing_value "fill" (Some (Num 0)) = ok d' /\
    total_nulls d' = 0%nat.
Proof.
  split; [reflexivity |].
  destruct (proj2 (proj2 (proj2 (X21_handle_missing_values one_missing_value "fill"
                                   (Some (Num 0))))) (Num 0) eq_refl)
    as (d' & Hrun & Hz & _).
  exists d'. auto.
Defined.

(* ===================================================================== *)
(** ** The dispatcher and the configuration *)
(* ===================================================================== *)

Section DispatcherFacts.
Import Dispatcher.
Context `{Unicode}.

Lemma dict_get_set_eq {A} (d : list (string * A)) k a :
  dict_get (dict_set d k a) k = Some a.
Proof.
  induction d as [| [k' a'] d IH]; cbn.
  - rewrite String.eqb_refl. reflexivity.
  - destruct (String.eqb k k') eqn:E; cbn; rewrite E; [reflexivity | exact IH].
Qed.

Lemma dict_get_set_ne {A} (d : list (string * A)) k k' a :
  k' <> k -> dict_get (dict_set d k a) k' = dict_get d k'.
Proof.
  intros Hne. induction d as [| [k0 a0] d IH]; cbn.
  - apply String.eqb_neq in Hne. rewrite Hne. reflexivity.
  - destruct (String.eqb k k0) eqn:E; cbn.
    + apply String.eqb_eq in E. subst k0.
      apply String.eqb_neq in Hne. rewrite Hne. reflexivity.
    + rewrite IH. reflexivity.
Qed.

Lemma dict_set_keys {A} (d : list (string * A)) k a :
  map fst (dict_set d k a)
  = match dict_get d k with
    | Some _ => map fst d
    | None => map fst d ++ [k]
    end.
Proof.
  induction d as [| [k0 a0] d IH]; cbn; [reflexivity |].
  destruct (String.eqb k k0) eqn:E; cbn; [reflexivity |].
  rewrite IH. destruct (dict_get d k); reflexivity.
Qed.

Lemma detected_types (ext t : string) :
  dict_get extension_map ext = Some t -> exists v, t = tag_of v.
Proof.
  unfold extension_map. cbn [dict_get].
  repeat match goal with
         | |- (if ?b then _ else _) = _ -> _ => destruct b
         end;
    intros [= <-];
    first [now exists Electrical | now exists Seismic | now exists Radar].
Qed.

Lemma default_lookup (v : variant) :
  dict_get new_dispatcher (tag_of v) = Some (VariantClass v).
Proof. destruct v; reflexivity. Qed.

Lemma lower_tag (v : variant) : lower (tag_of v) = tag_of v.
Proof. destruct v; reflexivity. Qed.

End DispatcherFacts.

(** X23.  detect_type either fails with ParserError naming the
    lower-cased suffix of the path, or returns a tag that the default
    dispatcher has a parser for: get_parser on a detected type never
    fails as unknown, and the tag is one standardize recognizes. *)
Theorem X23_detected_type_is_registered `{Dispatcher.Unicode} {I : Type}
    (instantiate : Dispatcher.parser_class -> string -> result I) (file_path : string) :
  match Dispatcher.detect_type file_path with
  | inr t =>
      exists v, t = tag_of v /\
                Dispatcher.get_parser instantiate Dispatcher.new_dispatcher t None
                = ok (inl (Dispatcher.VariantClass v))
  | inl e =>
      e = ParserError
            (UnknownDataType (Dispatcher.lower (Dispatcher.path_suffix file_path)))
  end.
Proof.
  unfold Dispatcher.detect_type.
  destruct (Dispatcher.dict_get Dispatcher.extension_map _) as [t |] eqn:E; [| reflexivity].
  apply detected_types in E as [v ->]. exists v. split; [reflexivity |].
  unfold Dispatcher.get_parser. rewrite lower_tag, default_lookup. reflexivity.
Qed.

(** X24.  On the default dispatcher, a tag that is electrical, seismic
    or radar in any mix of upper and lower case gives the class of that
    variant and, with the path of a file that is not empty, a new parser
    of that variant on that path with no flag set; any other tag raises
    ParserError naming the tag as given. *)
Theorem X24_get_parser_default `{Dispatcher.Unicode} (enc now : string) (n : N) (data_type path : string) :
  let construct := Dispatcher.construct_variant enc now (BaseParser.PathFile n) in
  (forall v, Dispatcher.lower data_type = tag_of v -> path <> "" -> (0 < n)%N ->
     Dispatcher.get_parser construct Dispatcher.new_dispatcher data_type None
     = ok (inl (Dispatcher.VariantClass v)) /\
     exists parser,
       Dispatcher.get_parser construct Dispatcher.new_dispatcher data_type (Some path)
       = ok (inr parser) /\
       BaseParser.variant_of parser = v /\ BaseParser.file_path parser = path /\
       BaseParser.data parser = None /\ BaseParser.is_loaded parser = false /\
       BaseParser.is_parsed parser = false /\ BaseParser.is_validated parser = false) /\
  ((forall v, Dispatcher.lower data_type <> tag_of v) ->
   forall file_path,
     Dispatcher.get_parser construct Dispatcher.new_dispatcher data_type file_path
     = raise (ParserError (UnknownDataType data_type))).
Proof.
  cbv zeta. split.
  - intros v Hlow Hpath Hn. unfold Dispatcher.get_parser.
    rewrite Hlow, default_lookup. split; [reflexivity |].
    apply String.eqb_neq in Hpath. rewrite Hpath.
    unfold Dispatcher.construct_variant, BaseParser.new_parser,
      BaseParser._validate_file_path.
    apply N.ltb_lt in Hn. rewrite Hn. cbn [negb rbind ok].
    eexists. split; [reflexivity |]. cbn. repeat split.
  - intros Hnone file_path. unfold Dispatcher.get_parser.
    destruct (Dispatcher.dict_get Dispatcher.new_dispatcher
                (Dispatcher.lower data_type)) as [cls |] eqn:E; [| reflexivity].
    exfalso. revert E. unfold Dispatcher.new_dispatcher. cbn [Dispatcher.dict_get].
    destruct (String.eqb _ "electrical") eqn:E1;
      [apply String.eqb_eq in E1; exact (fun _ => Hnone Electrical E1) |].
    destruct (String.eqb _ "seismic") eqn:E2;
      [apply String.eqb_eq in E2; exact (fun _ => Hnone Seismic E2) |].
    destruct (String.eqb _ "radar") eqn:E3;
      [apply String.eqb_eq in E3; exact (fun _ => Hnone Radar E3) |].
    discriminate.
Qed.

Lemma X24_get_parser_default_witness :
  Dispatcher.lower (H := example_unicode) "Seismic" = tag_of Seismic /\
  "data/survey.csv" <> "" /\ (0 < 96)%N /\
  Dispatcher.get_parser (H := example_unicode)
    (Dispatcher.construct_variant "utf-8" "2024-01-01T00:00:00" (BaseParser.PathFile 96))
    Dispatcher.new_dispatcher "Seismic" None
  = ok (inl (Dispatcher.VariantClass Seismic)).
Proof.
  split; [reflexivity |]. split; [discriminate |]. split; [reflexivity |].
  refine (proj1 (proj1 (X24_get_parser_default (H := example_unicode)
                          "utf-8" "2024-01-01T00:00:00" 96
                          "Seismic" "data/survey.csv") Seismic eq_refl _ eq_refl)).
  discriminate.
Defined.

(** X25.  register_parser rejects a class that does not derive from
    BaseParser with TypeError; otherwise the class is found afterwards
    under every spelling of the tag with the same lower-case form, every
    tag with another lower-case form resolves as before, and the
    supported types are the old ones, with the lower-cased tag appended
    when it is new.  This holds whatever str.lower() does outside
    ASCII. *)
Theorem X25_register_then_get `{Dispatcher.Unicode} {I : Type}
    (instantiate : Dispatcher.parser_class -> string -> result I)
    (self : list (string * Dispatcher.parser_class)) (data_type : string)
    (cls : Dispatcher.parser_class) :
  (Dispatcher.issubclass_BaseParser cls = false ->
   Dispatcher.register_parser self data_type cls = raise (Builtin "TypeError")) /\
  (Dispatcher.issubclass_BaseParser cls = true ->
   exists self',
     Dispatcher.register_parser self data_type cls = ok self' /\
     (forall t, Dispatcher.lower t = Dispatcher.lower data_type ->
        Dispatcher.get_parser instantiate self' t None = ok (inl cls)) /\
     (forall t file_path, Dispatcher.lower t <> Dispatcher.lower data_type ->
        Dispatcher.get_parser instantiate self' t file_path
        = Dispatcher.get_parser instantiate self t file_path) /\
     Dispatcher.get_supported_types self'
     = match Dispatcher.dict_get self (Dispatcher.lower data_type) with
       | Some _ => Dispatcher.get_supported_types self
       | None => Dispatcher.get_supported_types self ++ [Dispatcher.lower data_type]
       end).
Proof.
  unfold Dispatcher.register_parser. split.
  - intros ->. reflexivity.
  - intros ->. cbn [negb]. eexists. split; [reflexivity |]. split; [| split].
    + intros t Ht. unfold Dispatcher.get_parser. rewrite Ht, dict_get_set_eq. reflexivity.
    + intros t file_path Ht. unfold Dispatcher.get_parser.
      rewrite dict_get_set_ne by exact Ht. reflexivity.
    + apply dict_set_keys.
Qed.

Lemma X25_register_then_get_witness :
  Dispatcher.issubclass_BaseParser (Dispatcher.OtherClass "ElectriqueParser" true) = true /\
  Dispatcher.lower (H := example_unicode) electrique_small
  = Dispatcher.lower (H := example_unicode) electrique_capitals /\
  exists self',
    Dispatcher.register_parser (H := example_unicode) Dispatcher.new_dispatcher
      electrique_capitals (Dispatcher.OtherClass "ElectriqueParser" true) = ok self' /\
    Dispatcher.get_parser (H := example_unicode)
      (Dispatcher.construct_variant "utf-8" "2024-01-01T00:00:00" BaseParser.PathMissing)
      self' electrique_small None
    = ok (inl (Dispatcher.OtherClass "ElectriqueParser" true)).
Proof.
  split; [reflexivity |]. split; [reflexivity |].
  destruct (proj2 (X25_register_then_get (H := example_unicode)
                     (Dispatcher.construct_variant "utf-8" "2024-01-01T00:00:00"
                        BaseParser.PathMissing)
                     Dispatcher.new_dispatcher electrique_capitals
                     (Dispatcher.OtherClass "ElectriqueParser" true)) eq_refl)
    as (self' & Hreg & Hget & _).
  exists self'. split; [exact Hreg |]. apply Hget. reflexivity.
Defined.

(** X26.  The configuration and the code agree: for each variant,
    PARSER_CONFIG holds under its tag the required columns and the range
    table its parser checks, every extension detect_type maps to the tag
    is among the configured extensions, and the default dispatcher
    registers the variant under that tag. *)
Theorem X26_config_matches_code (v : variant) :
  exists config,
    Config.get_parser_config (tag_of v) = ok config /\
    Config.required_columns config = BaseParser.required v /\
    Config.value_ranges config = BaseParser.range_map v /\
    (forall ext, Dispatcher.dict_get Dispatcher.extension_map ext = Some (tag_of v) ->
                 In ext (Config.supported_extensions config)) /\
    Dispatcher.dict_get Dispatcher.new_dispatcher (tag_of v)
    = Some (Dispatcher.VariantClass v).
Proof.
  destruct v; eexists; (split; [reflexivity |]); (split; [reflexivity |]);
    (split; [reflexivity |]); (split; [| reflexivity]);
    intros ext; unfold Dispatcher.extension_map; cbn [Dispatcher.dict_get];
    repeat match goal with
           | |- (if String.eqb ?a ?b then _ else _) = _ -> _ =>
               let E := fresh "E" in
               destruct (String.eqb a b) eqn:E;
               [apply String.eqb_eq in E; subst; intros Heq;
                first [discriminate | cbn; tauto] |]
           end;
    discriminate.
Qed.
